(** * The azuread_custom_role table: a shallow embedding

    The table is implemented twice in the repository: once in
    [src/azuread/table_azuread_custom_role.go] (module [Azuread] below) and
    once in [src/unnamed/part_000] (module [Part000]).  The two files share
    the transform functions and the two de-duplication loops verbatim and
    differ in how a failed membership fetch is handled.

    Go values are modelled as follows:
    - a pointer [*T] is [option T], with [None] for [nil]; dereferencing
      [nil] panics;
    - a slice whose nil-ness is observable is [option (list T)], with [None]
      for the nil slice; a slice that is only ranged over is a [list];
    - an [error] is [option ErrorObject], with [None] for [nil];
    - a [map[string]interface{}] is a [gmap string _];
    - the elements of the SDK's collections are taken to be non-nil, as the
      SDK's deserialiser produces them;
    - the Graph client and the plugin host are a record of oracles indexed
      by the number of calls made so far. *)

From stdpp Require Import gmap strings list.
From Stdlib Require Import ZArith.

Open Scope string_scope.
Open Scope list_scope.

(** ** Go pointers and slices *)

Abbreviation ptr := option (only parsing).
Abbreviation slice A := (option (list A)) (only parsing).

(** [range s]: the elements visited by [for _, x := range s]. *)
Definition elems {A : Type} (s : slice A) : list A := default [] s.

(** [append(s, x)]: the result is never the nil slice. *)
Definition append {A : Type} (s : slice A) (x : A) : slice A :=
  Some (elems s ++ [x]).

(** A [for ... range] loop without [break] whose body may panic;
    [None] is the panic. *)
Fixpoint rangeP {A S : Type} (body : S → A → option S) (l : list A) (s : S)
    : option S :=
  match l with
  | [] => Some s
  | x :: l' => s' ← body s x; rangeP body l' s'
  end.

(** ** The SDK models read by the table *)

Record UnifiedRoleAssignment := {
  GetRoleDefinitionId : ptr string;
  GetPrincipalId : ptr string
}.

Record UnifiedRolePermission := {
  GetAllowedResourceActions : slice string;
  GetExcludedResourceActions : slice string;
  GetCondition : ptr string
}.

Record UnifiedRoleDefinition := {
  GetId : ptr string;
  GetDisplayName : ptr string;
  GetDescription : ptr string;
  GetTemplateId : ptr string;
  GetIsBuiltIn : ptr bool;
  GetRolePermissions : list UnifiedRolePermission
}.

(** [type RoleDefinition struct { role ...; members []string }].  The [role]
    field has an interface type, so it can hold [nil]. *)
Record RoleDefinition := {
  role : ptr UnifiedRoleDefinition;
  members : slice string
}.

Record ErrorObject := { Code : string; Message : string }.

Abbreviation error := (option ErrorObject) (only parsing).

(** ** The two de-duplication loops (identical in both files) *)

(** Lines 78-89 of [listAdCustomRoles] (74-85 in part_000): the [ids] of
    all assigned roles.
    The inner loop dereferences the assignment's id at every iteration and
    has no [break]. *)
Definition listAdCustomRoles_ids_step (ids : list string)
    (assignment : UnifiedRoleAssignment) : option (list string) :=
  found ← rangeP (λ found id,
             x ← GetRoleDefinitionId assignment;
             Some (if String.eqb id x then true else found)) ids false;
  if negb found
  then x ← GetRoleDefinitionId assignment; Some (ids ++ [x])
  else Some ids.

Definition listAdCustomRoles_ids (assignments : list UnifiedRoleAssignment)
    : option (list string) :=
  rangeP listAdCustomRoles_ids_step assignments [].

(** Lines 232-246 of [getMembersFromId] (237-251 in part_000): both ids are
    dereferenced before the comparison with [id]; [member_ids] starts as the
    nil slice. *)
Definition getMembersFromId_step (id : string) (member_ids : slice string)
    (assignment : UnifiedRoleAssignment) : option (slice string) :=
  newId ← GetRoleDefinitionId assignment;
  principalId ← GetPrincipalId assignment;
  if String.eqb newId id then
    let found :=
      foldl (λ found id', if String.eqb id' principalId then true else found)
            false (elems member_ids) in
    if negb found then Some (append member_ids principalId)
    else Some member_ids
  else Some member_ids.

Definition getMembersFromId_loop (id : string)
    (assignments : list UnifiedRoleAssignment) : option (slice string) :=
  rangeP (getMembersFromId_step id) assignments None.

(** ** What the loops are meant to compute *)

(** The distinct elements of a list, in order of first occurrence. *)
Fixpoint distinct (l : list string) : list string :=
  match l with
  | [] => []
  | x :: l' => x :: filter (λ y, y ≠ x) (distinct l')
  end.

(** The assignments of a response all carry a role definition id. *)
Definition has_role_ids (assignments : list UnifiedRoleAssignment) : Prop :=
  Forall (λ a, is_Some (GetRoleDefinitionId a)) assignments.

(** ... and a principal id. *)
Definition has_ids (assignments : list UnifiedRoleAssignment) : Prop :=
  Forall (λ a, is_Some (GetRoleDefinitionId a) ∧ is_Some (GetPrincipalId a))
         assignments.

Definition roleDefinitionIds (assignments : list UnifiedRoleAssignment)
    : list string :=
  omap GetRoleDefinitionId assignments.

Definition principalIdsOf (id : string)
    (assignments : list UnifiedRoleAssignment) : list string :=
  omap GetPrincipalId
       (filter (λ a, GetRoleDefinitionId a = Some id) assignments).

(** ** The plugin host and the Graph client

    Everything the table calls but does not define.  Each oracle is indexed
    by the number of earlier calls to it, so successive calls may answer
    differently.  A Graph call returns the Go pair [(response, err)]. *)

Record Host := {
  (** the error of the n-th [GetGraphClient(ctx, d)] *)
  graphClient : nat → error;
  (** [client.RoleManagement().Directory().RoleDefinitions().Get] *)
  roleDefinitions : nat → ptr (list UnifiedRoleDefinition) * error;
  (** [client.RoleManagement().Directory().RoleAssignments().Get] *)
  roleAssignments : nat → ptr (list UnifiedRoleAssignment) * error;
  (** [...RoleDefinitions().ByUnifiedRoleDefinitionId(id).Get] *)
  roleDefinitionById : nat → string → ptr UnifiedRoleDefinition * error;
  (** [d.RowsRemaining(ctx)] at the n-th check, given the number of rows
      streamed so far (it also reports 0 once the context is cancelled) *)
  rowsRemaining : nat → nat → Z;
  (** [getErrorObject] is defined elsewhere in the package and is taken as
      a parameter: it turns the SDK error into the error object that is
      logged and returned, which is never nil *)
  getErrorObject : ErrorObject → ErrorObject
}.

Record LogEntry := {
  log_message : string;
  log_key : string;
  log_error : error
}.

(** What an invocation has done so far. *)
Record World := {
  streamed : list RoleDefinition;   (* rows given to [d.StreamListItem] *)
  logged : list LogEntry;           (* [plugin.Logger(ctx).Error] calls *)
  clientCalls : nat;
  definitionsCalls : nat;
  assignmentsCalls : nat;
  byIdCalls : nat;
  remainingCalls : nat
}.

Definition fresh : World :=
  {| streamed := []; logged := []; clientCalls := 0; definitionsCalls := 0;
     assignmentsCalls := 0; byIdCalls := 0; remainingCalls := 0 |}.

(** The equals-quals of a query: [map[string]*proto.QualValue]. *)
Inductive QualValue :=
  | StringValue (s : string)
  | Int64Value (n : Z)
  | BoolValue (b : bool).

(** The protobuf getter: the empty string for a nil or non-string qual. *)
Definition GetStringValue (q : ptr QualValue) : string :=
  match q with
  | Some (StringValue s) => s
  | _ => ""
  end.

Record QueryData := { EqualsQuals : gmap string QualValue }.

(** ** Computations: world passing with panics *)

Inductive outcome (A : Type) :=
  | Done (a : A) (w : World)
  | Panic (w : World).
Arguments Done {A} a w.
Arguments Panic {A} w.

Definition M (A : Type) : Type := World → outcome A.

Definition ret {A : Type} (a : A) : M A := λ w, Done a w.

Definition bind {A B : Type} (m : M A) (k : A → M B) : M B :=
  λ w, match m w with
       | Done a w' => k a w'
       | Panic w' => Panic w'
       end.

Notation "x <- m ;; k" := (bind m (λ x, k))
  (at level 20, m at level 99, k at level 200, only parsing).
Notation "m ;; k" := (bind m (λ _, k))
  (at level 100, k at level 200, only parsing, right associativity).

(** Dereferencing a pointer, calling a method on an interface value, or
    running a loop that can panic. *)
Definition deref {A : Type} (p : ptr A) : M A :=
  λ w, match p with
       | Some a => Done a w
       | None => Panic w
       end.

(** A [for ... range] loop whose body may [return v] (the [Some v]). *)
Fixpoint rangeM {A R : Type} (body : A → M (option R)) (l : list A)
    : M (option R) :=
  match l with
  | [] => ret None
  | x :: l' =>
      r <- body x ;;
      match r with
      | Some v => ret (Some v)
      | None => rangeM body l'
      end
  end.

(** The ways an invocation changes the world. *)

Definition addLog (entry : LogEntry) (w : World) : World :=
  {| streamed := streamed w; logged := logged w ++ [entry];
     clientCalls := clientCalls w; definitionsCalls := definitionsCalls w;
     assignmentsCalls := assignmentsCalls w; byIdCalls := byIdCalls w;
     remainingCalls := remainingCalls w |}.

Definition addRow (item : RoleDefinition) (w : World) : World :=
  {| streamed := streamed w ++ [item]; logged := logged w;
     clientCalls := clientCalls w; definitionsCalls := definitionsCalls w;
     assignmentsCalls := assignmentsCalls w; byIdCalls := byIdCalls w;
     remainingCalls := remainingCalls w |}.

Definition tickClient (w : World) : World :=
  {| streamed := streamed w; logged := logged w;
     clientCalls := S (clientCalls w); definitionsCalls := definitionsCalls w;
     assignmentsCalls := assignmentsCalls w; byIdCalls := byIdCalls w;
     remainingCalls := remainingCalls w |}.

Definition tickDefinitions (w : World) : World :=
  {| streamed := streamed w; logged := logged w;
     clientCalls := clientCalls w; definitionsCalls := S (definitionsCalls w);
     assignmentsCalls := assignmentsCalls w; byIdCalls := byIdCalls w;
     remainingCalls := remainingCalls w |}.

Definition tickAssignments (w : World) : World :=
  {| streamed := streamed w; logged := logged w;
     clientCalls := clientCalls w; definitionsCalls := definitionsCalls w;
     assignmentsCalls := S (assignmentsCalls w); byIdCalls := byIdCalls w;
     remainingCalls := remainingCalls w |}.

Definition tickById (w : World) : World :=
  {| streamed := streamed w; logged := logged w;
     clientCalls := clientCalls w; definitionsCalls := definitionsCalls w;
     assignmentsCalls := assignmentsCalls w; byIdCalls := S (byIdCalls w);
     remainingCalls := remainingCalls w |}.

Definition tickRemaining (w : World) : World :=
  {| streamed := streamed w; logged := logged w;
     clientCalls := clientCalls w; definitionsCalls := definitionsCalls w;
     assignmentsCalls := assignmentsCalls w; byIdCalls := byIdCalls w;
     remainingCalls := S (remainingCalls w) |}.

(** [plugin.Logger(ctx).Error(message, key, e)] *)
Definition Logger_Error (message key : string) (e : error) : M unit :=
  λ w, Done tt (addLog {| log_message := message; log_key := key;
                          log_error := e |} w).

(** [d.StreamListItem(ctx, item)] *)
Definition StreamListItem (item : RoleDefinition) : M unit :=
  λ w, Done tt (addRow item w).

Section HostCalls.
Context (h : Host).

Definition GetGraphClient : M error :=
  λ w, Done (graphClient h (clientCalls w)) (tickClient w).

Definition RoleDefinitions_Get
    : M (ptr (list UnifiedRoleDefinition) * error) :=
  λ w, Done (roleDefinitions h (definitionsCalls w)) (tickDefinitions w).

Definition RoleAssignments_Get
    : M (ptr (list UnifiedRoleAssignment) * error) :=
  λ w, Done (roleAssignments h (assignmentsCalls w)) (tickAssignments w).

Definition ByUnifiedRoleDefinitionId_Get (id : string)
    : M (ptr UnifiedRoleDefinition * error) :=
  λ w, Done (roleDefinitionById h (byIdCalls w) id) (tickById w).

Definition RowsRemaining : M Z :=
  λ w, Done (rowsRemaining h (remainingCalls w) (length (streamed w)))
            (tickRemaining w).
End HostCalls.

(** What a hydrate function returns: [(interface{}, error)], where the
    first component is [nil] or a [*RoleDefinition]. *)
Abbreviation hydrated := (ptr RoleDefinition * error)%type (only parsing).

(** ** Transform functions (identical in both files)

    A transform returns [(interface{}, error)]; [None] is a panic. *)

(** The dynamic type of [d.HydrateItem]: the nil interface, a
    [*RoleDefinition] (possibly a nil pointer) or something else. *)
Inductive Item :=
  | NilItem
  | RoleDefinitionItem (p : ptr RoleDefinition)
  | OtherItem.

Record TransformData := { HydrateItem : Item }.

(** The values stored in a permission map. *)
Inductive MapValue :=
  | StringsValue (l : slice string)
  | StringPtrValue (p : ptr string).

(** The values a transform hands to the column. *)
Inductive Value :=
  | NilValue
  | StringV (s : string)
  | StringPtrV (p : ptr string)
  | StringsV (l : slice string)
  | MapsV (l : slice (gmap string MapValue)).

(** The type assertion of [d.HydrateItem] to a [*RoleDefinition]: it panics
    on any other dynamic type. *)
Definition asRoleDefinition (i : Item) : option (ptr RoleDefinition) :=
  match i with
  | RoleDefinitionItem p => Some p
  | _ => None
  end.

Definition getCustomRoleMembers (d : TransformData) : option (Value * error) :=
  data ← asRoleDefinition (HydrateItem d);
  match data with
  | None => Some (NilValue, None)
  | Some data => Some (StringsV (members data), None)
  end.

(** The body of the loop of [getRolePermissions]. *)
Definition getRolePermissions_mapping (per : UnifiedRolePermission)
    : gmap string MapValue :=
  let mapping : gmap string MapValue := ∅ in
  let allowedResourceActionsArr := GetAllowedResourceActions per in
  let mapping :=
    match allowedResourceActionsArr with
    | None => <["AllowedResourceActions" := StringsValue (Some [])]> mapping
    | Some _ =>
        <["AllowedResourceActions" :=
            StringsValue (GetAllowedResourceActions per)]> mapping
    end in
  let excludedResourceActionsArr := GetExcludedResourceActions per in
  let mapping :=
    match excludedResourceActionsArr with
    | None => <["ExcludedResourceActions" := StringsValue (Some [])]> mapping
    | Some _ =>
        <["ExcludedResourceActions" :=
            StringsValue (GetExcludedResourceActions per)]> mapping
    end in
  <["condition" := StringPtrValue (GetCondition per)]> mapping.

Definition getRolePermissions (d : TransformData) : option (Value * error) :=
  data ← asRoleDefinition (HydrateItem d);
  data ← data;
  r ← role data;
  let permissionArray := GetRolePermissions r in
  let resourceArr :=
    foldl (λ resourceArr per,
             append resourceArr (getRolePermissions_mapping per))
          (Some []) permissionArray in
  Some (MapsV resourceArr, None).

Definition getRoleId (d : TransformData) : option (Value * error) :=
  data ← asRoleDefinition (HydrateItem d);
  data ← data;
  r ← role data;
  id ← GetId r;
  Some (StringV id, None).

Definition getRoleDescripsion (d : TransformData) : option (Value * error) :=
  data ← asRoleDefinition (HydrateItem d);
  data ← data;
  r ← role data;
  match GetDescription r with
  | None => Some (StringV "No Description", None)
  | Some description => Some (StringV description, None)
  end.

Definition getRoleDisplayName (d : TransformData) : option (Value * error) :=
  data ← asRoleDefinition (HydrateItem d);
  data ← data;
  r ← role data;
  displayName ← GetDisplayName r;
  Some (StringV displayName, None).

Definition getRoleTemplateId (d : TransformData) : option (Value * error) :=
  data ← asRoleDefinition (HydrateItem d);
  data ← data;
  r ← role data;
  templateId ← GetTemplateId r;
  Some (StringV templateId, None).

Definition getCustomRoleTitle (d : TransformData) : option (Value * error) :=
  data ← asRoleDefinition (HydrateItem d);
  match data with
  | None => Some (NilValue, None)
  | Some data =>
      r ← role data;
      let title := GetDisplayName r in
      let title := match title with
                   | None => GetId r
                   | Some _ => title
                   end in
      Some (StringPtrV title, None)
  end.

(** ** The table registration (identical in both files) *)

(** Modelled from the spec: [isIgnorableErrorPredicate] is defined elsewhere
    in the package.  The spec describes it as an "ignorable error" predicate
    keyed by string matching on the known error codes: an error is ignorable
    when its code is one of the codes given. *)
Definition isIgnorableErrorPredicate (codes : list string) (err : error)
    : bool :=
  match err with
  | None => false
  | Some e => existsb (String.eqb (Code e)) codes
  end.

Inductive ColumnType := ColumnType_STRING | ColumnType_JSON.

Record Column := {
  ColumnName : string;
  Type_ : ColumnType;
  Transform : TransformData → option (Value * error)
}.

Record GetConfig := {
  GetHydrate : Host → QueryData → M hydrated;
  ShouldIgnoreErrorFunc : error → bool;
  KeyColumns : list string
}.

Record ListConfig := { ListHydrate : Host → QueryData → M hydrated }.

Record Table := {
  Name : string;
  Get : GetConfig;
  List_ : ListConfig;
  Columns : list Column
}.

Section Registration.
(** The hydrate functions of the file that registers the table. *)
Variables getAdCustomRole listAdCustomRoles : Host → QueryData → M hydrated.
(** [commonColumns] is defined elsewhere in the package and is taken as a
    parameter: it makes the column list of the table from the columns the
    file gives. *)
Variable commonColumns : list Column → list Column.

Definition tableAzureAdCustomRole : Table :=
  {| Name := "azuread_custom_role";
     Get := {| GetHydrate := getAdCustomRole;
               ShouldIgnoreErrorFunc :=
                 isIgnorableErrorPredicate
                   ["Request_ResourceNotFound"; "Invalid object identifier"];
               KeyColumns := ["id"] |};
     List_ := {| ListHydrate := listAdCustomRoles |};
     Columns := commonColumns
       [ {| ColumnName := "id"; Type_ := ColumnType_STRING;
            Transform := getRoleId |};
         {| ColumnName := "description"; Type_ := ColumnType_STRING;
            Transform := getRoleDescripsion |};
         {| ColumnName := "display_name"; Type_ := ColumnType_STRING;
            Transform := getRoleDisplayName |};
         {| ColumnName := "role_template_id"; Type_ := ColumnType_STRING;
            Transform := getRoleTemplateId |};
         {| ColumnName := "member_ids"; Type_ := ColumnType_JSON;
            Transform := getCustomRoleMembers |};
         {| ColumnName := "role_premissions"; Type_ := ColumnType_JSON;
            Transform := getRolePermissions |};
         {| ColumnName := "title"; Type_ := ColumnType_STRING;
            Transform := getCustomRoleTitle |} ] |}.
End Registration.

(** ** src/azuread/table_azuread_custom_role.go *)

Module Azuread.
Section Hydrate.
Context (h : Host).

(** Lines 221-248.  The error of the assignments fetch is dropped by the
    empty [if err != nil] block, and [assignments.GetValue()] follows. *)
Definition getMembersFromId (d : QueryData) (id : string)
    : M (slice string * error) :=
  err <- GetGraphClient h ;;
  match err with
  | Some _ =>
      Logger_Error "azuread_custom_role.listAdCustomRoles"
                   "connection_error" err ;;
      ret (None, err)
  | None =>
      r <- RoleAssignments_Get h ;;
      let '(assignments, err) := r in
      match err with
      | Some _ => ret tt
      | None => ret tt
      end ;;
      value <- deref assignments ;;
      member_ids <- deref (getMembersFromId_loop id value) ;;
      ret (member_ids, None)
  end.

(** Lines 94-102: one iteration of the loop over [ids]. *)
Definition listAdCustomRoles_id (d : QueryData)
    (customRole : UnifiedRoleDefinition) (id : string)
    : M (option hydrated) :=
  templateId <- deref (GetTemplateId customRole) ;;
  if String.eqb id templateId then
    r <- getMembersFromId d id ;;
    let '(members, err) := r in
    match err with
    | Some _ => ret tt
    | None => ret tt
    end ;;
    StreamListItem {| role := Some customRole; members := members |} ;;
    ret None
  else ret None.

(** Lines 93-103: the rows streamed for one role definition. *)
Definition listAdCustomRoles_rows (d : QueryData) (ids : list string)
    (customRole : UnifiedRoleDefinition) : M (option hydrated) :=
  isBuiltIn <- deref (GetIsBuiltIn customRole) ;;
  if negb isBuiltIn
  then rangeM (listAdCustomRoles_id d customRole) ids
  else ret None.

(** Lines 91-109: one iteration of the loop over the role definitions,
    ending with the [d.RowsRemaining(ctx) == 0] check. *)
Definition listAdCustomRoles_role (d : QueryData) (ids : list string)
    (customRole : UnifiedRoleDefinition) : M (option hydrated) :=
  r <- listAdCustomRoles_rows d ids customRole ;;
  match r with
  | Some v => ret (Some v)
  | None =>
      n <- RowsRemaining h ;;
      if Z.eqb n 0 then ret (Some (None, None)) else ret None
  end.

(** Lines 56-112. *)
Definition listAdCustomRoles (d : QueryData) : M hydrated :=
  err <- GetGraphClient h ;;
  match err with
  | Some _ =>
      Logger_Error "azuread_custom_role.listAdCustomRoles"
                   "connection_error" err ;;
      ret (None, err)
  | None =>
      r <- RoleDefinitions_Get h ;;
      let '(result, err) := r in
      match err with
      | Some e =>
          let errObj := getErrorObject h e in
          Logger_Error "listAdCustomRoles" "list_custom_role_error"
                       (Some errObj) ;;
          ret (None, Some errObj)
      | None =>
          r <- RoleAssignments_Get h ;;
          let '(roleAssignments, err) := r in
          match err with
          | Some e =>
              let errObj := getErrorObject h e in
              Logger_Error "listAdCustomRoles" "list_custom_role_error"
                           (Some errObj) ;;
              ret (None, Some errObj)
          | None =>
              assignments <- deref roleAssignments ;;
              ids <- deref (listAdCustomRoles_ids assignments) ;;
              roles <- deref result ;;
              r <- rangeM (listAdCustomRoles_role d ids) roles ;;
              match r with
              | Some v => ret v
              | None => ret (None, None)
              end
          end
      end
  end.

(** Lines 116-144. *)
Definition getAdCustomRole (d : QueryData) : M hydrated :=
  let CustomRoleId := GetStringValue (EqualsQuals d !! "id") in
  if String.eqb CustomRoleId "" then ret (None, None)
  else
    err <- GetGraphClient h ;;
    match err with
    | Some _ =>
        Logger_Error "azuread_directory_role.getAdDirectoryRole"
                     "connection_error" err ;;
        ret (None, err)
    | None =>
        r <- ByUnifiedRoleDefinitionId_Get h CustomRoleId ;;
        let '(customRole, err) := r in
        match err with
        | Some e =>
            let errObj := getErrorObject h e in
            Logger_Error "getAdDirectoryRole" "get_directory_role_error"
                         (Some errObj) ;;
            ret (None, Some errObj)
        | None =>
            r <- getMembersFromId d CustomRoleId ;;
            let '(members, err) := r in
            match err with
            | Some e =>
                let errObj := getErrorObject h e in
                Logger_Error "getAdCustomRole" "get_custom_role_error"
                             (Some errObj) ;;
                ret (None, Some errObj)
            | None =>
                ret (Some {| role := customRole; members := members |},
                     None)
            end
        end
    end.
End Hydrate.

Definition table (commonColumns : list Column → list Column) : Table :=
  tableAzureAdCustomRole getAdCustomRole listAdCustomRoles commonColumns.
End Azuread.

(** ** src/unnamed/part_000 *)

Module Part000.
Section Hydrate.
Context (h : Host).

(** Lines 224-253.  A failed assignments fetch is logged and returned. *)
Definition getMembersFromId (d : QueryData) (id : string)
    : M (slice string * error) :=
  err <- GetGraphClient h ;;
  match err with
  | Some _ =>
      Logger_Error "azuread_custom_role" "connection_error" err ;;
      ret (None, err)
  | None =>
      r <- RoleAssignments_Get h ;;
      let '(assignments, err) := r in
      match err with
      | Some e =>
          let errObj := getErrorObject h e in
          Logger_Error "azuread_custom_role" "list_custom_role_error"
                       (Some errObj) ;;
          ret (None, Some errObj)
      | None =>
          value <- deref assignments ;;
          member_ids <- deref (getMembersFromId_loop id value) ;;
          ret (member_ids, None)
      end
  end.

(** Lines 90-100: one iteration of the loop over [ids]. *)
Definition listAdCustomRoles_id (d : QueryData)
    (customRole : UnifiedRoleDefinition) (id : string)
    : M (option hydrated) :=
  templateId <- deref (GetTemplateId customRole) ;;
  if String.eqb id templateId then
    r <- getMembersFromId d id ;;
    let '(members, err) := r in
    match err with
    | Some e =>
        let errObj := getErrorObject h e in
        Logger_Error "listAdCustomRoles" "list_custom_role_error"
                     (Some errObj) ;;
        ret (Some (None, Some errObj))
    | None =>
        StreamListItem {| role := Some customRole; members := members |} ;;
        ret None
    end
  else ret None.

(** Lines 89-101: the rows streamed for one role definition. *)
Definition listAdCustomRoles_rows (d : QueryData) (ids : list string)
    (customRole : UnifiedRoleDefinition) : M (option hydrated) :=
  isBuiltIn <- deref (GetIsBuiltIn customRole) ;;
  if negb isBuiltIn
  then rangeM (listAdCustomRoles_id d customRole) ids
  else ret None.

(** Lines 87-107: one iteration of the loop over the role definitions,
    ending with the [d.RowsRemaining(ctx) == 0] check. *)
Definition listAdCustomRoles_role (d : QueryData) (ids : list string)
    (customRole : UnifiedRoleDefinition) : M (option hydrated) :=
  r <- listAdCustomRoles_rows d ids customRole ;;
  match r with
  | Some v => ret (Some v)
  | None =>
      n <- RowsRemaining h ;;
      if Z.eqb n 0 then ret (Some (None, None)) else ret None
  end.

(** Lines 52-110. *)
Definition listAdCustomRoles (d : QueryData) : M hydrated :=
  err <- GetGraphClient h ;;
  match err with
  | Some _ =>
      Logger_Error "azuread_custom_role.listAdCustomRoles"
                   "connection_error" err ;;
      ret (None, err)
  | None =>
      r <- RoleDefinitions_Get h ;;
      let '(result, err) := r in
      match err with
      | Some e =>
          let errObj := getErrorObject h e in
          Logger_Error "listAdCustomRoles" "list_custom_role_error"
                       (Some errObj) ;;
          ret (None, Some errObj)
      | None =>
          r <- RoleAssignments_Get h ;;
          let '(roleAssignments, err) := r in
          match err with
          | Some e =>
              let errObj := getErrorObject h e in
              Logger_Error "listAdCustomRoles" "list_custom_role_error"
                           (Some errObj) ;;
              ret (None, Some errObj)
          | None =>
              assignments <- deref roleAssignments ;;
              ids <- deref (listAdCustomRoles_ids assignments) ;;
              roles <- deref result ;;
              r <- rangeM (listAdCustomRoles_role d ids) roles ;;
              match r with
              | Some v => ret v
              | None => ret (None, None)
              end
          end
      end
  end.

(** Lines 114-141. *)
Definition getAdCustomRole (d : QueryData) : M hydrated :=
  let CustomRoleId := GetStringValue (EqualsQuals d !! "id") in
  if String.eqb CustomRoleId "" then ret (None, None)
  else
    err <- GetGraphClient h ;;
    match err with
    | Some _ =>
        Logger_Error "azuread_custom_role.getAdCustomRole"
                     "connection_error" err ;;
        ret (None, err)
    | None =>
        r <- ByUnifiedRoleDefinitionId_Get h CustomRoleId ;;
        let '(customRole, err) := r in
        match err with
        | Some e =>
            let errObj := getErrorObject h e in
            Logger_Error "getCustomRole" "get_custom_error" (Some errObj) ;;
            ret (None, Some errObj)
        | None =>
            r <- getMembersFromId d CustomRoleId ;;
            let '(members, err) := r in
            match err with
            | Some e =>
                let errObj := getErrorObject h e in
                Logger_Error "getAdCustomRole" "get_custom_role_error"
                             (Some errObj) ;;
                ret (None, Some errObj)
            | None =>
                ret (Some {| role := customRole; members := members |},
                     None)
            end
        end
    end.
End Hydrate.

Definition table (commonColumns : list Column → list Column) : Table :=
  tableAzureAdCustomRole getAdCustomRole listAdCustomRoles commonColumns.
End Part000.

(** ** Vocabulary of the statements *)

(** A role definition is custom and assigned: its [isBuiltIn] flag is false
    and its [templateId] is the [roleDefinitionId] of some assignment. *)
Definition selects (ids : list string) (r : UnifiedRoleDefinition) : bool :=
  match GetIsBuiltIn r, GetTemplateId r with
  | Some false, Some t => bool_decide (t ∈ ids)
  | _, _ => false
  end.

Definition assignedCustomRole (assignments : list UnifiedRoleAssignment)
    (r : UnifiedRoleDefinition) : bool :=
  selects (roleDefinitionIds assignments) r.

(** A successful membership fetch, in either file: the world afterwards has
    one more client call and one more assignments call, nothing else. *)
Definition afterMembers (w : World) : World :=
  tickAssignments (tickClient w).

(** The role definitions of a response carry the two fields that
    [listAdCustomRoles] dereferences. *)
Definition has_flags (roles : list UnifiedRoleDefinition) : Prop :=
  Forall (λ r, is_Some (GetIsBuiltIn r) ∧ is_Some (GetTemplateId r)) roles.

(** The hydrate item holding a role definition, as the hydrate functions
    build it. *)
Definition hydrateItem (r : UnifiedRoleDefinition) : TransformData :=
  {| HydrateItem := RoleDefinitionItem
                      (Some {| role := Some r; members := None |}) |}.

(** An invocation ended by returning [(nil, errObj)], having logged [errObj]
    last and having streamed nothing since [w]. *)
Definition reports {A : Type} (errObj : ErrorObject) (w : World)
    (o : outcome (option A * error)) : Prop :=
  ∃ w', o = Done (None, Some errObj) w'
        ∧ streamed w' = streamed w
        ∧ log_error <$> last (logged w') = Some (Some errObj).

(** ** A small tenant, used to run the functions *)

Module Tenant.
Definition customRole (id name template : string) : UnifiedRoleDefinition :=
  {| GetId := Some id; GetDisplayName := Some name;
     GetDescription := None; GetTemplateId := Some template;
     GetIsBuiltIn := Some false;
     GetRolePermissions :=
       [ {| GetAllowedResourceActions :=
              Some ["microsoft.directory/applications/create"];
            GetExcludedResourceActions := None;
            GetCondition := None |} ] |}.

Definition helpdesk : UnifiedRoleDefinition :=
  customRole "r1" "Helpdesk" "t1".
Definition auditor : UnifiedRoleDefinition :=
  customRole "r2" "Auditor" "t2".
Definition globalReader : UnifiedRoleDefinition :=
  {| GetId := Some "r3"; GetDisplayName := Some "Global Reader";
     GetDescription := Some "Built in"; GetTemplateId := Some "t3";
     GetIsBuiltIn := Some true; GetRolePermissions := [] |}.
(** A role definition that came back without a display name. *)
Definition unnamed : UnifiedRoleDefinition :=
  {| GetId := Some "r4"; GetDisplayName := None;
     GetDescription := None; GetTemplateId := Some "t4";
     GetIsBuiltIn := Some false; GetRolePermissions := [] |}.

Definition assign (roleDefinitionId principalId : string)
    : UnifiedRoleAssignment :=
  {| GetRoleDefinitionId := Some roleDefinitionId;
     GetPrincipalId := Some principalId |}.

Definition definitions : list UnifiedRoleDefinition :=
  [helpdesk; globalReader; auditor].

Definition assignments : list UnifiedRoleAssignment :=
  [ assign "t1" "alice"; assign "t2" "bob"; assign "t1" "carol";
    assign "t3" "dave"; assign "t1" "alice" ].

Definition throttled : ErrorObject :=
  {| Code := "TooManyRequests"; Message := "throttled" |}.

(** Every call succeeds and the query has no limit. *)
Definition steady : Host :=
  {| graphClient := λ _, None;
     roleDefinitions := λ _, (Some definitions, None);
     roleAssignments := λ _, (Some assignments, None);
     roleDefinitionById := λ _ id,
       (find (λ r, bool_decide (GetId r = Some id)) definitions, None);
     rowsRemaining := λ _ _, 9223372036854775807%Z;
     getErrorObject := λ e, e |}.

(** The same tenant queried with [LIMIT 1]. *)
Definition limited : Host :=
  {| graphClient := graphClient steady;
     roleDefinitions := roleDefinitions steady;
     roleAssignments := roleAssignments steady;
     roleDefinitionById := roleDefinitionById steady;
     rowsRemaining := λ _ n, (1 - Z.of_nat n)%Z;
     getErrorObject := getErrorObject steady |}.

(** The first assignments fetch succeeds, every later one is throttled
    (the SDK then returns a nil response). *)
Definition flaky : Host :=
  {| graphClient := graphClient steady;
     roleDefinitions := roleDefinitions steady;
     roleAssignments := λ n,
       match n with
       | 0 => (Some assignments, None)
       | S _ => (None, Some throttled)
       end;
     roleDefinitionById := roleDefinitionById steady;
     rowsRemaining := rowsRemaining steady;
     getErrorObject := getErrorObject steady |}.

(** The first two assignments fetches succeed, every later one is
    throttled. *)
Definition flakyLater : Host :=
  {| graphClient := graphClient steady;
     roleDefinitions := roleDefinitions steady;
     roleAssignments := λ n,
       match n with
       | 0 | 1 => (Some assignments, None)
       | _ => (None, Some throttled)
       end;
     roleDefinitionById := roleDefinitionById steady;
     rowsRemaining := rowsRemaining steady;
     getErrorObject := getErrorObject steady |}.

(** Every assignments fetch is throttled. *)
Definition down : Host :=
  {| graphClient := graphClient steady;
     roleDefinitions := roleDefinitions steady;
     roleAssignments := λ _, (None, Some throttled);
     roleDefinitionById := roleDefinitionById steady;
     rowsRemaining := rowsRemaining steady;
     getErrorObject := getErrorObject steady |}.

(** The role definitions cannot be fetched, neither all nor one. *)
Definition noDefinitions : Host :=
  {| graphClient := graphClient steady;
     roleDefinitions := λ _, (None, Some throttled);
     roleAssignments := roleAssignments steady;
     roleDefinitionById := λ _ _, (None, Some throttled);
     rowsRemaining := rowsRemaining steady;
     getErrorObject := getErrorObject steady |}.

Definition anyQuery : QueryData := {| EqualsQuals := ∅ |}.
Definition byId (id : string) : QueryData :=
  {| EqualsQuals := {[ "id" := StringValue id ]} |}.
End Tenant.
(** ** Vocabulary of the further properties *)

(** The world an invocation leaves behind, however it ended. *)
Definition after {A : Type} (o : outcome A) : World :=
  match o with
  | Done _ w => w
  | Panic w => w
  end.

(** A loop body came to its end: no [return], no panic. *)
Definition continues {R : Type} (o : outcome (option R)) : bool :=
  match o with
  | Done None _ => true
  | _ => false
  end.

(** Since [w] the computation has streamed rows for the role definitions
    [expected], all of them if it came to its end and the first few of them
    if it returned or panicked. *)
Definition streams {R : Type} (o : outcome (option R)) (w : World)
    (expected : list (ptr UnifiedRoleDefinition)) : Prop :=
  ∃ rows,
    streamed (after o) = streamed w ++ rows
    ∧ if continues o then role <$> rows = expected
      else role <$> rows `prefix_of` expected.

(** The slice [getMembersFromId] builds for [id]: nil when no assignment
    has this role definition id. *)
Definition memberSlice (id : string)
    (assignments : list UnifiedRoleAssignment) : slice string :=
  match distinct (principalIdsOf id assignments) with
  | [] => None
  | p :: ps => Some (p :: ps)
  end.

(** The row [listAdCustomRoles] streams for a role definition when every
    assignments fetch answers [assignments]. *)
Definition rowOf (assignments : list UnifiedRoleAssignment)
    (r : UnifiedRoleDefinition) : RoleDefinition :=
  {| role := Some r;
     members := memberSlice (default "" (GetTemplateId r)) assignments |}.

(** From [w] to [w'] the rows [rows] were streamed, one client and one
    assignments fetch were made per row, [checks] limit checks were made,
    and nothing else happened. *)
Definition grows (w w' : World) (rows : list RoleDefinition) (checks : nat)
    : Prop :=
  streamed w' = streamed w ++ rows
  ∧ logged w' = logged w
  ∧ clientCalls w' = clientCalls w + length rows
  ∧ assignmentsCalls w' = assignmentsCalls w + length rows
  ∧ definitionsCalls w' = definitionsCalls w
  ∧ byIdCalls w' = byIdCalls w
  ∧ remainingCalls w' = remainingCalls w + checks.

(** The transform input holding a hydrate item. *)
Definition itemOf (p : ptr RoleDefinition) : TransformData :=
  {| HydrateItem := RoleDefinitionItem p |}.

(** The role definitions [listAdCustomRoles] may stream from [w]: the
    assigned custom roles of its two fetches, in response order (none when
    a fetch comes back without a response). *)
Definition assignedCustomRoles (h : Host) (w : World)
    : list (ptr UnifiedRoleDefinition) :=
  match (roleDefinitions h (definitionsCalls w)).1,
        (roleAssignments h (assignmentsCalls w)).1 with
  | Some roles, Some assignments =>
      Some <$> filter (λ r, assignedCustomRole assignments r = true) roles
  | _, _ => []
  end.


(** A returned error comes with a nil result and is the error of the last
    log entry; without an error a loop body returns a nil result. *)
Definition failsLoudly (o : outcome (option hydrated)) : Prop :=
  match o with
  | Done (Some (v, Some e)) w' =>
      v = None ∧ log_error <$> last (logged w') = Some (Some e)
  | Done (Some (v, None)) _ => v = None
  | _ => True
  end.

(** Unless it returned an error or panicked, the computation has logged
    nothing since [w]. *)
Definition quiet (o : outcome (option hydrated)) (w : World) : Prop :=
  match o with
  | Done None w' => logged w' = logged w
  | Done (Some (_, None)) w' => logged w' = logged w
  | _ => True
  end.

(** An invocation that returns an error returns it with a nil result and
    has logged it last. *)
Definition errorsLogged {A : Type} (o : outcome (option A * error)) : Prop :=
  match o with
  | Done (v, Some e) w' =>
      v = None ∧ log_error <$> last (logged w') = Some (Some e)
  | _ => True
  end.

(** An invocation that returns without error has logged nothing since
    [w]. *)
Definition silent {A : Type} (o : outcome (option A * error)) (w : World)
    : Prop :=
  match o with
  | Done (_, None) w' => logged w' = logged w
  | _ => True
  end.

(** The client is obtained for [listAdCustomRoles] and lost afterwards. *)
Definition clientLost : Host :=
  {| graphClient := λ n, match n with
                         | 0 => None
                         | S _ => Some Tenant.throttled
                         end;
     roleDefinitions := roleDefinitions Tenant.steady;
     roleAssignments := roleAssignments Tenant.steady;
     roleDefinitionById := roleDefinitionById Tenant.steady;
     rowsRemaining := rowsRemaining Tenant.steady;
     getErrorObject := getErrorObject Tenant.steady |}.



(** A [getErrorObject] that marks every object it makes, and the same host
    with it. *)
Definition marked (e : ErrorObject) : ErrorObject :=
  {| Code := Code e; Message := Message e +:+ "+" |}.

Definition marking (h : Host) : Host :=
  {| graphClient := graphClient h;
     roleDefinitions := roleDefinitions h;
     roleAssignments := roleAssignments h;
     roleDefinitionById := roleDefinitionById h;
     rowsRemaining := rowsRemaining h;
     getErrorObject := marked |}.

(** A role definition that came back without its [isBuiltIn] flag:
    reaching it makes [listAdCustomRoles] panic. *)
Definition unflagged : UnifiedRoleDefinition :=
  {| GetId := Some "r6"; GetDisplayName := Some "Unflagged";
     GetDescription := None; GetTemplateId := Some "t1";
     GetIsBuiltIn := None; GetRolePermissions := [] |}.

(** The tenant with one more role definition, queried with [LIMIT 2]. *)
Definition limitedToTwo : Host :=
  {| graphClient := graphClient Tenant.steady;
     roleDefinitions := λ _,
       (Some ([Tenant.helpdesk; Tenant.globalReader]
              ++ Tenant.auditor :: [unflagged]), None);
     roleAssignments := roleAssignments Tenant.steady;
     roleDefinitionById := roleDefinitionById Tenant.steady;
     rowsRemaining := λ _ n, (2 - Z.of_nat n)%Z;
     getErrorObject := getErrorObject Tenant.steady |}.

Lemma elems_append {A : Type} (s : slice A) (x : A) :
  elems (append s x) = elems s ++ [x].
Proof. reflexivity. Qed.

(** ** Properties of [distinct] *)

Lemma elem_of_distinct (l : list string) (x : string) :
  x ∈ distinct l ↔ x ∈ l.
Proof.
  induction l as [|y l IH]; simpl; [done|].
  rewrite !elem_of_cons, list_elem_of_filter, IH.
  destruct (decide (x = y)); naive_solver.
Qed.

Lemma NoDup_distinct (l : list string) : NoDup (distinct l).
Proof.
  induction l as [|y l IH]; simpl; [constructor|].
  constructor.
  - rewrite list_elem_of_filter. naive_solver.
  - by apply NoDup_filter.
Qed.

Lemma filter_filter_ext (P Q R : string → Prop)
    `{∀ x, Decision (P x)} `{∀ x, Decision (Q x)} `{∀ x, Decision (R x)}
    (l : list string) :
  (∀ x, R x ↔ P x ∧ Q x) →
  filter P (filter Q l) = filter R l.
Proof.
  intros HR. induction l as [|y l IH]; [done|].
  rewrite (filter_cons Q), (filter_cons R).
  destruct (decide (Q y)) as [HQ|HQ].
  - rewrite (filter_cons P).
    destruct (decide (P y)), (decide (R y)); rewrite ?IH; naive_solver.
  - destruct (decide (R y)); [naive_solver|done].
Qed.

(** Elements that first occur earlier come earlier. *)
Lemma distinct_app (l1 l2 : list string) :
  distinct (l1 ++ l2) = distinct l1 ++ filter (λ y, y ∉ l1) (distinct l2).
Proof.
  induction l1 as [|x l1 IH]; simpl.
  - symmetry. induction (distinct l2) as [|y l IHl]; [done|].
    rewrite filter_cons. destruct (decide (y ∉ [])) as [_|Hn].
    + by rewrite IHl.
    + destruct Hn. apply not_elem_of_nil.
  - f_equal. rewrite IH, filter_app. f_equal.
    apply filter_filter_ext. intros y. rewrite elem_of_cons. naive_solver.
Qed.

(** ** The inner membership scan *)

Lemma bool_decide_elem_of_nil (x : string) :
  bool_decide (x ∈ ([] : list string)) = false.
Proof. apply bool_decide_eq_false_2, not_elem_of_nil. Qed.

Lemma bool_decide_elem_of_cons (x y : string) (acc : list string) :
  bool_decide (x ∈ y :: acc) = String.eqb y x || bool_decide (x ∈ acc).
Proof.
  destruct (String.eqb_spec y x) as [->|Hne]; simpl.
  - apply bool_decide_eq_true_2. left.
  - apply bool_decide_ext. rewrite elem_of_cons. naive_solver.
Qed.

Lemma scan_spec (acc : list string) (x : string) (b : bool) :
  foldl (λ found id', if String.eqb id' x then true else found) b acc
  = b || bool_decide (x ∈ acc).
Proof.
  revert b. induction acc as [|y acc IH]; intros b; cbn [foldl].
  - by rewrite bool_decide_elem_of_nil, orb_false_r.
  - rewrite IH, bool_decide_elem_of_cons.
    destruct (String.eqb y x), b; done.
Qed.

Lemma scan_ptr_spec (acc : list string) (x : string) (b : bool) :
  rangeP (λ found id, y ← Some x; Some (if String.eqb id y then true else found))
         acc b
  = Some (b || bool_decide (x ∈ acc)).
Proof.
  revert b. induction acc as [|y acc IH]; intros b; cbn [rangeP mbind option_bind].
  - by rewrite bool_decide_elem_of_nil, orb_false_r.
  - rewrite IH, bool_decide_elem_of_cons.
    destruct (String.eqb y x), b; done.
Qed.

(** ** The [ids] loop *)

Lemma filter_not_elem_of_nil (l : list string) :
  filter (λ y, y ∉ ([] : list string)) l = l.
Proof.
  induction l as [|y l IH]; [done|].
  rewrite filter_cons. destruct (decide (y ∉ [])) as [_|Hn].
  - by rewrite IH.
  - destruct Hn. apply not_elem_of_nil.
Qed.

Lemma filter_not_elem_of_seen (acc l : list string) (x : string) :
  x ∈ acc →
  filter (λ y, y ∉ acc) (filter (λ y, y ≠ x) l) = filter (λ y, y ∉ acc) l.
Proof.
  intros Hx. apply filter_filter_ext. intros y. split; [|tauto].
  intros Hy. split; [done|]. intros ->. done.
Qed.

Lemma filter_not_elem_of_snoc (acc l : list string) (x : string) :
  filter (λ y, y ∉ acc ++ [x]) l
  = filter (λ y, y ∉ acc) (filter (λ y, y ≠ x) l).
Proof.
  symmetry. apply filter_filter_ext. intros y.
  rewrite elem_of_app, list_elem_of_singleton. tauto.
Qed.

Lemma listAdCustomRoles_ids_step_spec (acc : list string)
    (a : UnifiedRoleAssignment) (x : string) :
  GetRoleDefinitionId a = Some x →
  listAdCustomRoles_ids_step acc a
  = Some (if bool_decide (x ∈ acc) then acc else acc ++ [x]).
Proof.
  intros Hx. unfold listAdCustomRoles_ids_step. rewrite Hx, scan_ptr_spec.
  by destruct (bool_decide (x ∈ acc)).
Qed.

Lemma listAdCustomRoles_ids_step_nil (acc : list string)
    (a : UnifiedRoleAssignment) :
  GetRoleDefinitionId a = None → listAdCustomRoles_ids_step acc a = None.
Proof.
  intros Hx. unfold listAdCustomRoles_ids_step. rewrite Hx. by destruct acc.
Qed.

Lemma roleDefinitionIds_cons (a : UnifiedRoleAssignment)
    (l : list UnifiedRoleAssignment) (x : string) :
  GetRoleDefinitionId a = Some x →
  roleDefinitionIds (a :: l) = x :: roleDefinitionIds l.
Proof. intros Hx. unfold roleDefinitionIds. simpl. by rewrite Hx. Qed.

(** The loop invariant: started from [acc], the loop appends the distinct
    new ids in order of first occurrence. *)
Lemma listAdCustomRoles_ids_from (assignments : list UnifiedRoleAssignment)
    (acc : list string) :
  has_role_ids assignments →
  rangeP listAdCustomRoles_ids_step assignments acc
  = Some (acc ++ filter (λ y, y ∉ acc)
                        (distinct (roleDefinitionIds assignments))).
Proof.
  unfold has_role_ids.
  intros Hall. revert acc.
  induction Hall as [|a l [x Hx] _ IH]; intros acc.
  - simpl. by rewrite app_nil_r.
  - cbn [rangeP]. rewrite (listAdCustomRoles_ids_step_spec _ _ _ Hx).
    cbn [mbind option_bind]. rewrite IH, (roleDefinitionIds_cons _ _ _ Hx).
    cbn [distinct]. rewrite filter_cons.
    destruct (decide (x ∈ acc)) as [Hin|Hnin].
    + rewrite bool_decide_eq_true_2 by done.
      destruct (decide (x ∉ acc)); [done|].
      by rewrite filter_not_elem_of_seen.
    + rewrite bool_decide_eq_false_2 by done.
      destruct (decide (x ∉ acc)); [|done].
      rewrite <- app_assoc. simpl.
      by rewrite filter_not_elem_of_snoc.
Qed.

(** A missing role definition id anywhere in the response makes the loop
    panic. *)
Lemma listAdCustomRoles_ids_panics (assignments : list UnifiedRoleAssignment)
    (acc : list string) :
  ¬ has_role_ids assignments →
  rangeP listAdCustomRoles_ids_step assignments acc = None.
Proof.
  unfold has_role_ids. revert acc.
  induction assignments as [|a l IH]; intros acc Hn.
  - destruct Hn. constructor.
  - cbn [rangeP]. destruct (GetRoleDefinitionId a) as [x|] eqn:Hx.
    + rewrite (listAdCustomRoles_ids_step_spec _ _ _ Hx).
      cbn [mbind option_bind]. apply IH.
      intros Hl. apply Hn. constructor; eauto.
    + by rewrite (listAdCustomRoles_ids_step_nil _ _ Hx).
Qed.

(** C3: the [ids] list built by [listAdCustomRoles] from a role-assignments
    response (whose entries carry a role definition id) holds exactly the
    distinct [roleDefinitionId] values of the assignments, each once, in
    order of first occurrence. *)
Theorem listAdCustomRoles_ids_distinct
    (assignments : list UnifiedRoleAssignment) :
  has_role_ids assignments →
  ∃ ids, listAdCustomRoles_ids assignments = Some ids
    ∧ ids = distinct (roleDefinitionIds assignments)
    ∧ NoDup ids
    ∧ ∀ x, x ∈ ids ↔ ∃ a, a ∈ assignments ∧ GetRoleDefinitionId a = Some x.
Proof.
  intros Hall. eexists. split; [|split; [reflexivity|split]].
  - unfold listAdCustomRoles_ids. rewrite listAdCustomRoles_ids_from by done.
    simpl. by rewrite filter_not_elem_of_nil.
  - apply NoDup_distinct.
  - intros x. rewrite elem_of_distinct. unfold roleDefinitionIds.
    rewrite list_elem_of_omap. naive_solver.
Qed.

Lemma listAdCustomRoles_ids_distinct_witness :
  ∃ ids, listAdCustomRoles_ids Tenant.assignments = Some ids
    ∧ ids = distinct (roleDefinitionIds Tenant.assignments)
    ∧ NoDup ids
    ∧ ∀ x, x ∈ ids
           ↔ ∃ a, a ∈ Tenant.assignments ∧ GetRoleDefinitionId a = Some x.
Proof.
  apply (listAdCustomRoles_ids_distinct Tenant.assignments).
  repeat constructor; eexists; reflexivity.
Defined.

Example listAdCustomRoles_ids_tenant :
  listAdCustomRoles_ids Tenant.assignments = Some ["t1"; "t2"; "t3"].
Proof. reflexivity. Qed.

(** ** The [member_ids] loop *)

Lemma getMembersFromId_step_spec (id : string) (acc : slice string)
    (a : UnifiedRoleAssignment) (x p : string) :
  GetRoleDefinitionId a = Some x →
  GetPrincipalId a = Some p →
  getMembersFromId_step id acc a
  = Some (if String.eqb x id
          then if bool_decide (p ∈ elems acc) then acc else append acc p
          else acc).
Proof.
  intros Hx Hp. unfold getMembersFromId_step. rewrite Hx, Hp.
  cbn [mbind option_bind]. rewrite scan_spec. cbn [orb].
  by destruct (String.eqb x id), (bool_decide (p ∈ elems acc)).
Qed.

Lemma principalIdsOf_cons (id : string) (a : UnifiedRoleAssignment)
    (l : list UnifiedRoleAssignment) (x p : string) :
  GetRoleDefinitionId a = Some x →
  GetPrincipalId a = Some p →
  principalIdsOf id (a :: l)
  = if String.eqb x id then p :: principalIdsOf id l else principalIdsOf id l.
Proof.
  intros Hx Hp. unfold principalIdsOf. rewrite filter_cons.
  destruct (String.eqb_spec x id) as [->|Hne].
  - destruct (decide (GetRoleDefinitionId a = Some id)); [|done].
    simpl. by rewrite Hp.
  - destruct (decide (GetRoleDefinitionId a = Some id)); [congruence|done].
Qed.

(** The loop invariant: started from [acc], the loop appends the distinct
    new principal ids in order of first occurrence; the slice is left as it
    was (possibly nil) when nothing is appended. *)
Lemma getMembersFromId_loop_from (id : string)
    (assignments : list UnifiedRoleAssignment) (acc : slice string) :
  has_ids assignments →
  rangeP (getMembersFromId_step id) assignments acc
  = Some (match filter (λ y, y ∉ elems acc)
                       (distinct (principalIdsOf id assignments)) with
          | [] => acc
          | new => Some (elems acc ++ new)
          end).
Proof.
  unfold has_ids. intros Hall. revert acc.
  induction Hall as [|a l [[x Hx] [p Hp]] _ IH]; intros acc; [done|].
  cbn [rangeP]. rewrite (getMembersFromId_step_spec _ _ _ _ _ Hx Hp).
  cbn [mbind option_bind]. rewrite IH, (principalIdsOf_cons _ _ _ _ _ Hx Hp).
  destruct (String.eqb x id); [|done].
  cbn [distinct]. rewrite filter_cons.
  destruct (decide (p ∈ elems acc)) as [Hin|Hnin].
  - rewrite bool_decide_eq_true_2 by done.
    destruct (decide (p ∉ elems acc)); [done|].
    by rewrite filter_not_elem_of_seen.
  - rewrite bool_decide_eq_false_2 by done.
    destruct (decide (p ∉ elems acc)); [|done].
    rewrite elems_append, filter_not_elem_of_snoc.
    destruct (filter _ (filter _ _)); [done|].
    by rewrite <- app_assoc.
Qed.

Lemma getMembersFromId_loop_spec (id : string)
    (assignments : list UnifiedRoleAssignment) :
  has_ids assignments →
  ∃ member_ids, getMembersFromId_loop id assignments = Some member_ids
    ∧ elems member_ids = distinct (principalIdsOf id assignments).
Proof.
  intros Hall. unfold getMembersFromId_loop.
  rewrite getMembersFromId_loop_from by done. eexists. split; [done|].
  cbn [elems default]. rewrite filter_not_elem_of_nil.
  by destruct (distinct _).
Qed.

Lemma elem_of_principalIdsOf (id p : string)
    (assignments : list UnifiedRoleAssignment) :
  p ∈ principalIdsOf id assignments
  ↔ ∃ a, a ∈ assignments
       ∧ GetRoleDefinitionId a = Some id ∧ GetPrincipalId a = Some p.
Proof.
  unfold principalIdsOf. rewrite list_elem_of_omap.
  setoid_rewrite list_elem_of_filter. naive_solver.
Qed.

(** ** Running a computation

    One equation per primitive; [run] rewrites with all of them. *)

Lemma run_ret {A B : Type} (a : A) (k : A → M B) (w : World) :
  bind (ret a) k w = k a w.
Proof. reflexivity. Qed.

Lemma run_bind {A B C : Type} (m : M A) (f : A → M B) (k : B → M C)
    (w : World) :
  bind (bind m f) k w = bind m (λ a, bind (f a) k) w.
Proof. unfold bind. by destruct (m w). Qed.

Lemma run_deref_Some {A B : Type} (a : A) (k : A → M B) (w : World) :
  bind (deref (Some a)) k w = k a w.
Proof. reflexivity. Qed.

Lemma run_deref_None {A B : Type} (k : A → M B) (w : World) :
  bind (deref None) k w = Panic w.
Proof. reflexivity. Qed.

Lemma run_Logger_Error {B : Type} (message key : string) (e : error)
    (k : unit → M B) (w : World) :
  bind (Logger_Error message key e) k w
  = k tt (addLog {| log_message := message; log_key := key;
                    log_error := e |} w).
Proof. reflexivity. Qed.

Lemma run_StreamListItem {B : Type} (item : RoleDefinition)
    (k : unit → M B) (w : World) :
  bind (StreamListItem item) k w = k tt (addRow item w).
Proof. reflexivity. Qed.

Lemma run_GetGraphClient {B : Type} (h : Host) (k : error → M B) (w : World) :
  bind (GetGraphClient h) k w = k (graphClient h (clientCalls w)) (tickClient w).
Proof. reflexivity. Qed.

Lemma run_RoleDefinitions_Get {B : Type} (h : Host)
    (k : ptr (list UnifiedRoleDefinition) * error → M B) (w : World) :
  bind (RoleDefinitions_Get h) k w
  = k (roleDefinitions h (definitionsCalls w)) (tickDefinitions w).
Proof. reflexivity. Qed.

Lemma run_RoleAssignments_Get {B : Type} (h : Host)
    (k : ptr (list UnifiedRoleAssignment) * error → M B) (w : World) :
  bind (RoleAssignments_Get h) k w
  = k (roleAssignments h (assignmentsCalls w)) (tickAssignments w).
Proof. reflexivity. Qed.

Lemma run_ByUnifiedRoleDefinitionId_Get {B : Type} (h : Host) (id : string)
    (k : ptr UnifiedRoleDefinition * error → M B) (w : World) :
  bind (ByUnifiedRoleDefinitionId_Get h id) k w
  = k (roleDefinitionById h (byIdCalls w) id) (tickById w).
Proof. reflexivity. Qed.

Lemma run_RowsRemaining {B : Type} (h : Host) (k : Z → M B) (w : World) :
  bind (RowsRemaining h) k w
  = k (rowsRemaining h (remainingCalls w) (length (streamed w)))
      (tickRemaining w).
Proof. reflexivity. Qed.

Lemma bind_Done {A B : Type} (m : M A) (k : A → M B) (w w' : World) (a : A) :
  m w = Done a w' → bind m k w = k a w'.
Proof. intros Hm. unfold bind. by rewrite Hm. Qed.

Lemma bind_Panic {A B : Type} (m : M A) (k : A → M B) (w w' : World) :
  m w = Panic w' → bind m k w = Panic w'.
Proof. intros Hm. unfold bind. by rewrite Hm. Qed.

Create Rewrite HintDb run.
#[global] Hint Rewrite @run_ret @run_deref_Some @run_deref_None
  @run_Logger_Error @run_StreamListItem @run_GetGraphClient
  @run_RoleDefinitions_Get @run_RoleAssignments_Get
  @run_ByUnifiedRoleDefinitionId_Get @run_RowsRemaining : run.

Ltac run := repeat (progress (autorewrite with run; cbn beta iota)).

(** The counters of a world after each kind of step. *)
Lemma clientCalls_tickAssignments (w : World) :
  clientCalls (tickAssignments w) = clientCalls w.
Proof. reflexivity. Qed.

Lemma assignmentsCalls_tickClient (w : World) :
  assignmentsCalls (tickClient w) = assignmentsCalls w.
Proof. reflexivity. Qed.

Lemma Azuread_getMembersFromId_ok (h : Host) (d : QueryData) (id : string)
    (w : World) (assignments : list UnifiedRoleAssignment)
    (member_ids : slice string) (err : error) :
  graphClient h (clientCalls w) = None →
  roleAssignments h (assignmentsCalls w) = (Some assignments, err) →
  getMembersFromId_loop id assignments = Some member_ids →
  Azuread.getMembersFromId h d id w = Done (member_ids, None) (afterMembers w).
Proof.
  intros Hc Ha Hl. unfold Azuread.getMembersFromId. run. rewrite Hc. run.
  rewrite assignmentsCalls_tickClient, Ha. run.
  destruct err; run; by rewrite Hl.
Qed.

Lemma Part000_getMembersFromId_ok (h : Host) (d : QueryData) (id : string)
    (w : World) (assignments : list UnifiedRoleAssignment)
    (member_ids : slice string) :
  graphClient h (clientCalls w) = None →
  roleAssignments h (assignmentsCalls w) = (Some assignments, None) →
  getMembersFromId_loop id assignments = Some member_ids →
  Part000.getMembersFromId h d id w = Done (member_ids, None) (afterMembers w).
Proof.
  intros Hc Ha Hl. unfold Part000.getMembersFromId. run. rewrite Hc. run.
  rewrite assignmentsCalls_tickClient, Ha. run. by rewrite Hl.
Qed.

(** C4, amended: given a role definition id and a role-assignments response
    (the client was obtained, the fetch succeeded and every assignment
    carries its two ids), [getMembersFromId] of either file returns, without error,
    exactly the distinct [principalId]s of the assignments whose
    [roleDefinitionId] is the given id, each once, in order of first
    occurrence; it streams and logs nothing. *)
Theorem getMembersFromId_distinct_principals (h : Host) (d : QueryData)
    (id : string) (w : World) (assignments : list UnifiedRoleAssignment) :
  graphClient h (clientCalls w) = None →
  roleAssignments h (assignmentsCalls w) = (Some assignments, None) →
  has_ids assignments →
  ∃ member_ids w',
    Azuread.getMembersFromId h d id w = Done (member_ids, None) w'
    ∧ Part000.getMembersFromId h d id w = Done (member_ids, None) w'
    ∧ elems member_ids = distinct (principalIdsOf id assignments)
    ∧ NoDup (elems member_ids)
    ∧ (∀ p, p ∈ elems member_ids
            ↔ ∃ a, a ∈ assignments ∧ GetRoleDefinitionId a = Some id
                   ∧ GetPrincipalId a = Some p)
    ∧ streamed w' = streamed w ∧ logged w' = logged w.
Proof.
  intros Hc Ha Hids.
  destruct (getMembersFromId_loop_spec id assignments Hids)
    as (member_ids & Hloop & Helems).
  exists member_ids, (afterMembers w). repeat split.
  - by eapply Azuread_getMembersFromId_ok.
  - by eapply Part000_getMembersFromId_ok.
  - done.
  - rewrite Helems. apply NoDup_distinct.
  - rewrite Helems, elem_of_distinct, elem_of_principalIdsOf. naive_solver.
  - rewrite Helems, elem_of_distinct, elem_of_principalIdsOf. naive_solver.
Qed.


Lemma getMembersFromId_distinct_principals_witness :
  ∃ member_ids w',
    Azuread.getMembersFromId Tenant.steady Tenant.anyQuery "t1" fresh
    = Done (member_ids, None) w'
    ∧ Part000.getMembersFromId Tenant.steady Tenant.anyQuery "t1" fresh
      = Done (member_ids, None) w'
    ∧ elems member_ids = distinct (principalIdsOf "t1" Tenant.assignments)
    ∧ NoDup (elems member_ids)
    ∧ (∀ p, p ∈ elems member_ids
            ↔ ∃ a, a ∈ Tenant.assignments ∧ GetRoleDefinitionId a = Some "t1"
                   ∧ GetPrincipalId a = Some p)
    ∧ streamed w' = streamed fresh ∧ logged w' = logged fresh.
Proof.
  apply (getMembersFromId_distinct_principals
           Tenant.steady Tenant.anyQuery "t1" fresh Tenant.assignments).
  - reflexivity.
  - reflexivity.
  - repeat constructor; eexists; reflexivity.
Defined.

Example getMembersFromId_tenant :
  getMembersFromId_loop "t1" Tenant.assignments = Some (Some ["alice"; "carol"])
  ∧ getMembersFromId_loop "t9" Tenant.assignments = Some None.
Proof. split; reflexivity. Qed.

(** ** Where the two files agree

    As long as the client is obtained and no assignments fetch reports an
    error, the two files run identically, log included. *)

Section Agreement.
Context (h : Host).
Hypothesis client_ok : ∀ n, graphClient h n = None.
Hypothesis assignments_ok : ∀ n, (roleAssignments h n).2 = None.

Lemma getMembersFromId_agree (d : QueryData) (id : string) (w : World) :
  Azuread.getMembersFromId h d id w = Part000.getMembersFromId h d id w.
Proof.
  unfold Azuread.getMembersFromId, Part000.getMembersFromId. run.
  rewrite client_ok. run.
  pose proof (assignments_ok (assignmentsCalls (tickClient w))) as Hok.
  destruct (roleAssignments h _) as [res err]. cbn in Hok. subst err.
  by run.
Qed.

Lemma Part000_getMembersFromId_no_error (d : QueryData) (id : string)
    (w w' : World) (member_ids : slice string) (err : error) :
  Part000.getMembersFromId h d id w = Done (member_ids, err) w' → err = None.
Proof.
  unfold Part000.getMembersFromId. run. rewrite client_ok. run.
  pose proof (assignments_ok (assignmentsCalls (tickClient w))) as Hok.
  destruct (roleAssignments h _) as [res e]. cbn in Hok. subst e.
  destruct res as [value|]; run; [|done].
  destruct (getMembersFromId_loop id value); run; [|done].
  unfold ret. congruence.
Qed.

Lemma listAdCustomRoles_id_agree (d : QueryData)
    (customRole : UnifiedRoleDefinition) (id : string) (w : World) :
  Azuread.listAdCustomRoles_id h d customRole id w
  = Part000.listAdCustomRoles_id h d customRole id w.
Proof.
  unfold Azuread.listAdCustomRoles_id, Part000.listAdCustomRoles_id.
  destruct (GetTemplateId customRole) as [templateId|]; run; [|done].
  destruct (String.eqb id templateId); [|done].
  unfold bind at 1 4. rewrite getMembersFromId_agree.
  destruct (Part000.getMembersFromId h d id w) as [[member_ids err] w'|w']
    eqn:Hm; [|done].
  apply Part000_getMembersFromId_no_error in Hm. subst err.
  by run.
Qed.

Lemma rangeM_ext {A R : Type} (f g : A → M (option R)) (l : list A) (w : World) :
  (∀ x w, f x w = g x w) → rangeM f l w = rangeM g l w.
Proof.
  intros Hfg. revert w. induction l as [|x l IH]; intros w; [done|].
  cbn [rangeM]. unfold bind. rewrite Hfg.
  destruct (g x w) as [[v|] w'|w']; [done|apply IH|done].
Qed.

Lemma listAdCustomRoles_rows_agree (d : QueryData) (ids : list string)
    (customRole : UnifiedRoleDefinition) (w : World) :
  Azuread.listAdCustomRoles_rows h d ids customRole w
  = Part000.listAdCustomRoles_rows h d ids customRole w.
Proof.
  unfold Azuread.listAdCustomRoles_rows, Part000.listAdCustomRoles_rows.
  destruct (GetIsBuiltIn customRole) as [[|]|]; run; [done| |done].
  apply rangeM_ext. intros. apply listAdCustomRoles_id_agree.
Qed.

Lemma listAdCustomRoles_role_agree (d : QueryData) (ids : list string)
    (customRole : UnifiedRoleDefinition) (w : World) :
  Azuread.listAdCustomRoles_role h d ids customRole w
  = Part000.listAdCustomRoles_role h d ids customRole w.
Proof.
  unfold Azuread.listAdCustomRoles_role, Part000.listAdCustomRoles_role.
  unfold bind at 1 3. by rewrite listAdCustomRoles_rows_agree.
Qed.

Lemma listAdCustomRoles_agree (d : QueryData) (w : World) :
  Azuread.listAdCustomRoles h d w = Part000.listAdCustomRoles h d w.
Proof.
  unfold Azuread.listAdCustomRoles, Part000.listAdCustomRoles. run.
  rewrite client_ok. run.
  destruct (roleDefinitions h _) as [result [e|]]; [done|]. run.
  destruct (roleAssignments h _) as [res [e|]]; [done|].
  destruct res as [assignments|]; run; [|done].
  destruct (listAdCustomRoles_ids assignments) as [ids|]; run; [|done].
  destruct result as [roles|]; run; [|done].
  unfold bind.
  rewrite (rangeM_ext (Azuread.listAdCustomRoles_role h d ids)
                      (Part000.listAdCustomRoles_role h d ids)); [done|].
  intros. apply listAdCustomRoles_role_agree.
Qed.
End Agreement.

(** ** The list function when nothing fails *)

Lemma selects_distinct (l : list string) (r : UnifiedRoleDefinition) :
  selects (distinct l) r = selects l r.
Proof.
  unfold selects. destruct (GetIsBuiltIn r) as [[|]|]; try done.
  destruct (GetTemplateId r); [|done].
  apply bool_decide_ext, elem_of_distinct.
Qed.

Lemma assignedCustomRole_spec (assignments : list UnifiedRoleAssignment)
    (r : UnifiedRoleDefinition) :
  assignedCustomRole assignments r = true
  ↔ GetIsBuiltIn r = Some false
    ∧ ∃ a, a ∈ assignments ∧ is_Some (GetTemplateId r)
           ∧ GetRoleDefinitionId a = GetTemplateId r.
Proof.
  unfold assignedCustomRole, selects, roleDefinitionIds.
  destruct (GetIsBuiltIn r) as [[|]|]; try (split; [done|naive_solver]).
  destruct (GetTemplateId r) as [t|].
  - rewrite bool_decide_eq_true, list_elem_of_omap. naive_solver.
  - split; [done|]. intros (_ & a & _ & [? ?] & _). done.
Qed.

Section NothingFails.
Context (h : Host).
Hypothesis client_ok : ∀ n, graphClient h n = None.
Hypothesis fetch_ok :
  ∀ n, ∃ l, roleAssignments h n = (Some l, None) ∧ has_ids l.
Hypothesis rows_remain : ∀ k n, rowsRemaining h k n ≠ 0%Z.

Lemma Part000_listAdCustomRoles_id_miss (d : QueryData)
    (customRole : UnifiedRoleDefinition) (t id : string) (w : World) :
  GetTemplateId customRole = Some t → id ≠ t →
  Part000.listAdCustomRoles_id h d customRole id w = Done None w.
Proof.
  intros Ht Hne. unfold Part000.listAdCustomRoles_id. rewrite Ht. run.
  by destruct (String.eqb_spec id t).
Qed.

Lemma Part000_listAdCustomRoles_id_hit (d : QueryData)
    (customRole : UnifiedRoleDefinition) (t : string) (w : World) :
  GetTemplateId customRole = Some t →
  ∃ member_ids w',
    Part000.listAdCustomRoles_id h d customRole t w = Done None w'
    ∧ streamed w'
      = streamed w ++ [{| role := Some customRole; members := member_ids |}]
    ∧ logged w' = logged w.
Proof.
  intros Ht. unfold Part000.listAdCustomRoles_id. rewrite Ht. run.
  rewrite String.eqb_refl.
  destruct (fetch_ok (assignmentsCalls w)) as (l & Hl & Hids).
  destruct (getMembersFromId_loop_spec t l Hids) as (member_ids & Hloop & _).
  exists member_ids. eexists.
  rewrite (bind_Done _ _ _ _ _
             (Part000_getMembersFromId_ok h d t w l member_ids
                (client_ok _) Hl Hloop)).
  run. split; [reflexivity|]. done.
Qed.

Lemma Part000_listAdCustomRoles_ids_loop (d : QueryData)
    (customRole : UnifiedRoleDefinition) (t : string) (ids : list string)
    (w : World) :
  GetTemplateId customRole = Some t → NoDup ids →
  ∃ rows w',
    rangeM (Part000.listAdCustomRoles_id h d customRole) ids w = Done None w'
    ∧ streamed w' = streamed w ++ rows
    ∧ role <$> rows
      = (if bool_decide (t ∈ ids) then [Some customRole] else [])
    ∧ logged w' = logged w.
Proof.
  intros Ht Hnd. revert w.
  induction Hnd as [|id ids Hnin Hnd IH]; intros w.
  - exists [], w. rewrite app_nil_r. by rewrite bool_decide_elem_of_nil.
  - cbn [rangeM]. destruct (decide (id = t)) as [->|Hne].
    + destruct (Part000_listAdCustomRoles_id_hit d customRole t w Ht)
        as (m & w1 & Hrun & Hs & Hl).
      destruct (IH w1) as (rows & w' & Hrest & Hs' & Hroles & Hl').
      rewrite bool_decide_eq_false_2 in Hroles by done.
      exists ({| role := Some customRole; members := m |} :: rows), w'.
      rewrite (bind_Done _ _ _ _ _ Hrun). cbn beta iota.
      rewrite Hrest, Hs', Hs, Hl', Hl, <- app_assoc.
      rewrite bool_decide_eq_true_2 by left.
      rewrite fmap_cons, Hroles. done.
    + destruct (IH w) as (rows & w' & Hrest & Hs' & Hroles & Hl').
      exists rows, w'.
      rewrite (bind_Done _ _ _ _ _
                 (Part000_listAdCustomRoles_id_miss d customRole t id w Ht Hne)).
      cbn beta iota. rewrite Hrest, Hroles.
      rewrite (bool_decide_ext (t ∈ id :: ids) (t ∈ ids)); [done|].
      rewrite elem_of_cons. naive_solver.
Qed.

Lemma Part000_listAdCustomRoles_role_ok (d : QueryData) (ids : list string)
    (customRole : UnifiedRoleDefinition) (w : World) :
  is_Some (GetIsBuiltIn customRole) → is_Some (GetTemplateId customRole) →
  NoDup ids →
  ∃ rows w',
    Part000.listAdCustomRoles_role h d ids customRole w = Done None w'
    ∧ streamed w' = streamed w ++ rows
    ∧ role <$> rows = (if selects ids customRole then [Some customRole] else [])
    ∧ logged w' = logged w.
Proof.
  intros [b Hb] [t Ht] Hnd.
  unfold Part000.listAdCustomRoles_role, Part000.listAdCustomRoles_rows,
    selects.
  rewrite Hb, Ht, run_bind. run.
  assert (Hcheck : ∀ w1 : World,
    bind (RowsRemaining h)
         (λ n, if (n =? 0)%Z then ret (Some (None, None)) else ret None) w1
    = Done (None : option (option RoleDefinition * option ErrorObject))
           (tickRemaining w1)).
  { intros w1. run. destruct (Z.eqb_spec (rowsRemaining h (remainingCalls w1)
      (length (streamed w1))) 0) as [H0|_]; [|done]. by apply rows_remain in H0. }
  destruct b; cbn [negb].
  - exists [], (tickRemaining w). rewrite run_ret. cbn beta iota.
    rewrite Hcheck, app_nil_r. done.
  - destruct (Part000_listAdCustomRoles_ids_loop d customRole t ids w Ht Hnd)
      as (rows & w1 & Hrun & Hs & Hroles & Hl).
    exists rows, (tickRemaining w1).
    rewrite (bind_Done _ _ _ _ _ Hrun). cbn beta iota. rewrite Hcheck.
    done.
Qed.

Lemma Part000_listAdCustomRoles_roles_ok (d : QueryData) (ids : list string)
    (roles : list UnifiedRoleDefinition) (w : World) :
  has_flags roles → NoDup ids →
  ∃ rows w',
    rangeM (Part000.listAdCustomRoles_role h d ids) roles w = Done None w'
    ∧ streamed w' = streamed w ++ rows
    ∧ role <$> rows = Some <$> filter (λ r, selects ids r = true) roles
    ∧ logged w' = logged w.
Proof.
  intros Hflags Hnd. revert w.
  induction Hflags as [|r roles [Hb Ht] _ IH]; intros w.
  - exists [], w. by rewrite app_nil_r.
  - destruct (Part000_listAdCustomRoles_role_ok d ids r w Hb Ht Hnd)
      as (rows1 & w1 & Hrun & Hs & Hroles & Hl).
    destruct (IH w1) as (rows2 & w' & Hrest & Hs' & Hroles' & Hl').
    exists (rows1 ++ rows2), w'. cbn [rangeM].
    rewrite (bind_Done _ _ _ _ _ Hrun). cbn beta iota.
    rewrite Hrest, Hs', Hs, Hl', Hl, <- app_assoc, fmap_app, Hroles, Hroles'.
    rewrite filter_cons. by destruct (selects ids r).
Qed.
End NothingFails.

Lemma has_ids_role_ids (assignments : list UnifiedRoleAssignment) :
  has_ids assignments → has_role_ids assignments.
Proof.
  unfold has_ids, has_role_ids. intros Hall.
  eapply Forall_impl; [exact Hall|]. by intros a [? _].
Qed.

(** C1, amended: when the client is obtained, every fetch succeeds with
    assignments that carry their ids, the role definitions carry their
    [isBuiltIn] flag and [templateId], and [d.RowsRemaining] never reports 0,
    [listAdCustomRoles] of either file returns [(nil, nil)] having streamed
    one row per fetched role definition, in response order, exactly for the
    definitions whose [isBuiltIn] flag is false and whose [templateId] is the
    [roleDefinitionId] of some assignment of the function's own fetch. *)
Theorem listAdCustomRoles_streams_assigned_custom_roles (h : Host)
    (d : QueryData) (w : World) (roles : list UnifiedRoleDefinition)
    (assignments : list UnifiedRoleAssignment) :
  (∀ n, graphClient h n = None) →
  (∀ n, ∃ l, roleAssignments h n = (Some l, None) ∧ has_ids l) →
  (∀ k n, rowsRemaining h k n ≠ 0%Z) →
  roleDefinitions h (definitionsCalls w) = (Some roles, None) →
  roleAssignments h (assignmentsCalls w) = (Some assignments, None) →
  has_flags roles →
  ∃ rows w',
    Azuread.listAdCustomRoles h d w = Done (None, None) w'
    ∧ Part000.listAdCustomRoles h d w = Done (None, None) w'
    ∧ streamed w' = streamed w ++ rows
    ∧ role <$> rows
      = Some <$> filter (λ r, assignedCustomRole assignments r = true) roles
    ∧ (∀ r, Some r ∈ (role <$> rows)
            ↔ r ∈ roles ∧ GetIsBuiltIn r = Some false
              ∧ ∃ a, a ∈ assignments ∧ is_Some (GetTemplateId r)
                     ∧ GetRoleDefinitionId a = GetTemplateId r)
    ∧ logged w' = logged w.
Proof.
  intros Hc Hf Hrem Hd Ha Hflags.
  assert (Hids : has_ids assignments).
  { destruct (Hf (assignmentsCalls w)) as (l & Hl & Hl'). congruence. }
  destruct (listAdCustomRoles_ids_distinct assignments
              (has_ids_role_ids _ Hids)) as (ids & Hloop & Hdist & Hnd & _).
  set (w0 := tickAssignments (tickDefinitions (tickClient w))).
  destruct (Part000_listAdCustomRoles_roles_ok h Hc Hf Hrem d ids roles w0
              Hflags Hnd) as (rows & w' & Hrun & Hs & Hroles & Hl).
  assert (Hfilter : role <$> rows
    = Some <$> filter (λ r, assignedCustomRole assignments r = true) roles).
  { rewrite Hroles. f_equal. apply list_filter_iff. intros r.
    unfold assignedCustomRole. by rewrite Hdist, selects_distinct. }
  assert (Hpart : Part000.listAdCustomRoles h d w = Done (None, None) w').
  { unfold Part000.listAdCustomRoles. run. rewrite Hc. run.
    change (definitionsCalls (tickClient w)) with (definitionsCalls w).
    rewrite Hd. run.
    change (assignmentsCalls (tickDefinitions (tickClient w)))
      with (assignmentsCalls w).
    rewrite Ha. run. rewrite Hloop. run.
    by rewrite (bind_Done _ _ _ _ _ Hrun). }
  exists rows, w'. split; [|split; [done|split; [done|split; [done|split]]]].
  - rewrite listAdCustomRoles_agree; [done|done|].
    intros n. by destruct (Hf n) as (l & -> & _).
  - intros r. rewrite Hfilter, list_elem_of_fmap.
    setoid_rewrite list_elem_of_filter.
    setoid_rewrite assignedCustomRole_spec. naive_solver.
  - done.
Qed.

Lemma listAdCustomRoles_streams_assigned_custom_roles_witness :
  ∃ rows w',
    Azuread.listAdCustomRoles Tenant.steady Tenant.anyQuery fresh
    = Done (None, None) w'
    ∧ Part000.listAdCustomRoles Tenant.steady Tenant.anyQuery fresh
      = Done (None, None) w'
    ∧ streamed w' = streamed fresh ++ rows
    ∧ role <$> rows
      = Some <$> filter (λ r, assignedCustomRole Tenant.assignments r = true)
                        Tenant.definitions
    ∧ (∀ r, Some r ∈ (role <$> rows)
            ↔ r ∈ Tenant.definitions ∧ GetIsBuiltIn r = Some false
              ∧ ∃ a, a ∈ Tenant.assignments ∧ is_Some (GetTemplateId r)
                     ∧ GetRoleDefinitionId a = GetTemplateId r)
    ∧ logged w' = logged fresh.
Proof.
  apply (listAdCustomRoles_streams_assigned_custom_roles
           Tenant.steady Tenant.anyQuery fresh
           Tenant.definitions Tenant.assignments).
  - intros n. reflexivity.
  - intros n. exists Tenant.assignments. split; [reflexivity|].
    repeat constructor; eexists; reflexivity.
  - intros k n. discriminate.
  - reflexivity.
  - reflexivity.
  - repeat constructor; eexists; reflexivity.
Defined.

(** C1 as stated fails: queried with [LIMIT 1], the tenant has two assigned
    custom roles, and only the first is streamed. *)
Lemma listAdCustomRoles_limit_counterexample :
  ∃ w',
    Azuread.listAdCustomRoles Tenant.limited Tenant.anyQuery fresh
    = Done (None, None) w'
    ∧ Part000.listAdCustomRoles Tenant.limited Tenant.anyQuery fresh
      = Done (None, None) w'
    ∧ role <$> streamed w' = [Some Tenant.helpdesk]
    ∧ Tenant.auditor ∈ Tenant.definitions
    ∧ assignedCustomRole Tenant.assignments Tenant.auditor = true
    ∧ Some Tenant.auditor ∉ (role <$> streamed w').
Proof.
  eexists. split; [vm_compute; reflexivity|].
  split; [vm_compute; reflexivity|].
  split; [reflexivity|]. split; [|split].
  - unfold Tenant.definitions. rewrite !elem_of_cons. auto.
  - vm_compute. reflexivity.
  - cbn [streamed fmap list_fmap role]. rewrite list_elem_of_singleton.
    discriminate.
Qed.

(** ** Failed Graph calls *)

Lemma last_snoc_log (l : list LogEntry) (entry : LogEntry) :
  log_error <$> last (l ++ [entry]) = Some (log_error entry).
Proof. by rewrite last_snoc. Qed.

(** The assignments fetch of [getMembersFromId] fails, in part_000. *)
Lemma Part000_getMembersFromId_fail (h : Host) (d : QueryData) (w : World)
    (e : ErrorObject) (id : string) (res : ptr (list UnifiedRoleAssignment)) :
  graphClient h (clientCalls w) = None →
  roleAssignments h (assignmentsCalls w) = (res, Some e) →
  Part000.getMembersFromId h d id w
  = Done (None, Some (getErrorObject h e))
         (addLog {| log_message := "azuread_custom_role";
                    log_key := "list_custom_role_error";
                    log_error := Some (getErrorObject h e) |}
                 (afterMembers w)).
Proof.
  intros Hc Ha. unfold Part000.getMembersFromId. run. rewrite Hc. run.
  change (assignmentsCalls (tickClient w)) with (assignmentsCalls w).
  rewrite Ha. by run.
Qed.

Section FailedCalls.
Context (h : Host) (d : QueryData) (w : World) (e : ErrorObject).
Hypothesis client_ok : graphClient h (clientCalls w) = None.

(** The role definitions fetch of [listAdCustomRoles] fails. *)
Lemma listAdCustomRoles_definitions_fail
    (res : ptr (list UnifiedRoleDefinition)) :
  roleDefinitions h (definitionsCalls w) = (res, Some e) →
  reports (getErrorObject h e) w (Azuread.listAdCustomRoles h d w)
  ∧ reports (getErrorObject h e) w (Part000.listAdCustomRoles h d w).
Proof.
  intros Hd.
  unfold reports, Azuread.listAdCustomRoles, Part000.listAdCustomRoles.
  run. rewrite client_ok. run.
  change (definitionsCalls (tickClient w)) with (definitionsCalls w).
  rewrite Hd. run.
  split; (eexists; split; [reflexivity|]; split; [done|apply last_snoc_log]).
Qed.

(** The role assignments fetch of [listAdCustomRoles] fails. *)
Lemma listAdCustomRoles_assignments_fail
    (result : ptr (list UnifiedRoleDefinition))
    (res : ptr (list UnifiedRoleAssignment)) :
  roleDefinitions h (definitionsCalls w) = (result, None) →
  roleAssignments h (assignmentsCalls w) = (res, Some e) →
  reports (getErrorObject h e) w (Azuread.listAdCustomRoles h d w)
  ∧ reports (getErrorObject h e) w (Part000.listAdCustomRoles h d w).
Proof.
  intros Hd Ha.
  unfold reports, Azuread.listAdCustomRoles, Part000.listAdCustomRoles.
  run. rewrite client_ok. run.
  change (definitionsCalls (tickClient w)) with (definitionsCalls w).
  rewrite Hd. run.
  change (assignmentsCalls (tickDefinitions (tickClient w)))
    with (assignmentsCalls w).
  rewrite Ha. run.
  split; (eexists; split; [reflexivity|]; split; [done|apply last_snoc_log]).
Qed.

(** The role fetch of [getAdCustomRole] fails. *)
Lemma getAdCustomRole_fetch_fail (res : ptr UnifiedRoleDefinition) :
  GetStringValue (EqualsQuals d !! "id") ≠ "" →
  roleDefinitionById h (byIdCalls w) (GetStringValue (EqualsQuals d !! "id"))
  = (res, Some e) →
  reports (getErrorObject h e) w (Azuread.getAdCustomRole h d w)
  ∧ reports (getErrorObject h e) w (Part000.getAdCustomRole h d w).
Proof.
  intros Hid Hr.
  unfold reports, Azuread.getAdCustomRole, Part000.getAdCustomRole.
  destruct (String.eqb_spec (GetStringValue (EqualsQuals d !! "id")) "")
    as [|_]; [done|].
  run. rewrite client_ok. run.
  change (byIdCalls (tickClient w)) with (byIdCalls w).
  rewrite Hr. run.
  split; (eexists; split; [reflexivity|]; split; [done|apply last_snoc_log]).
Qed.

(** ... and [getAdCustomRole] of part_000 passes the failure on. *)
Lemma Part000_getAdCustomRole_members_fail
    (customRole : ptr UnifiedRoleDefinition)
    (res : ptr (list UnifiedRoleAssignment)) :
  GetStringValue (EqualsQuals d !! "id") ≠ "" →
  roleDefinitionById h (byIdCalls w) (GetStringValue (EqualsQuals d !! "id"))
  = (customRole, None) →
  graphClient h (S (clientCalls w)) = None →
  roleAssignments h (assignmentsCalls w) = (res, Some e) →
  reports (getErrorObject h (getErrorObject h e)) w
          (Part000.getAdCustomRole h d w).
Proof.
  intros Hid Hr Hc Ha. unfold reports, Part000.getAdCustomRole.
  destruct (String.eqb_spec (GetStringValue (EqualsQuals d !! "id")) "")
    as [|_]; [done|].
  run. rewrite client_ok. run.
  change (byIdCalls (tickClient w)) with (byIdCalls w).
  rewrite Hr. run.
  rewrite (bind_Done _ _ _ _ _
             (Part000_getMembersFromId_fail h d (tickById (tickClient w)) e
                (GetStringValue (EqualsQuals d !! "id")) res Hc Ha)).
  run.
  eexists; split; [reflexivity|]; split; [done|apply last_snoc_log].
Qed.

(** ... and so does the loop of [listAdCustomRoles] of part_000: reaching
    an assigned custom role whose membership fetch fails, it returns the
    error without streaming a row for this or any later role definition. *)
Lemma Part000_listAdCustomRoles_ids_fail
    (customRole : UnifiedRoleDefinition) (t : string) (ids : list string)
    (res : ptr (list UnifiedRoleAssignment)) :
  GetTemplateId customRole = Some t →
  t ∈ ids →
  roleAssignments h (assignmentsCalls w) = (res, Some e) →
  ∃ w',
    rangeM (Part000.listAdCustomRoles_id h d customRole) ids w
    = Done (Some (None, Some (getErrorObject h (getErrorObject h e)))) w'
    ∧ streamed w' = streamed w
    ∧ log_error <$> last (logged w')
      = Some (Some (getErrorObject h (getErrorObject h e))).
Proof.
  intros Ht Hin Ha. induction ids as [|id ids IH].
  - by apply not_elem_of_nil in Hin.
  - cbn [rangeM]. destruct (decide (id = t)) as [->|Hne].
    + unfold Part000.listAdCustomRoles_id at 1. rewrite Ht, run_bind. run.
      rewrite String.eqb_refl, run_bind.
      rewrite (bind_Done _ _ _ _ _
                 (Part000_getMembersFromId_fail h d w e t res client_ok Ha)).
      run. eexists; split; [reflexivity|]; split; [done|apply last_snoc_log].
    + rewrite (bind_Done _ _ _ _ _
                 (Part000_listAdCustomRoles_id_miss h d customRole t id w
                    Ht Hne)).
      cbn beta iota. apply IH. apply elem_of_cons in Hin as [->|Hin]; done.
Qed.

Lemma Part000_listAdCustomRoles_roles_fail
    (customRole : UnifiedRoleDefinition) (t : string) (ids : list string)
    (rest : list UnifiedRoleDefinition)
    (res : ptr (list UnifiedRoleAssignment)) :
  GetIsBuiltIn customRole = Some false →
  GetTemplateId customRole = Some t →
  t ∈ ids →
  roleAssignments h (assignmentsCalls w) = (res, Some e) →
  ∃ w',
    rangeM (Part000.listAdCustomRoles_role h d ids) (customRole :: rest) w
    = Done (Some (None, Some (getErrorObject h (getErrorObject h e)))) w'
    ∧ streamed w' = streamed w
    ∧ log_error <$> last (logged w')
      = Some (Some (getErrorObject h (getErrorObject h e))).
Proof.
  intros Hb Ht Hin Ha.
  destruct (Part000_listAdCustomRoles_ids_fail customRole t ids res Ht Hin Ha)
    as (w' & Hrun & Hs & Hl).
  exists w'. split; [|done]. cbn [rangeM].
  unfold Part000.listAdCustomRoles_role, Part000.listAdCustomRoles_rows.
  rewrite Hb. rewrite !run_bind. run. cbn [negb].
  by rewrite (bind_Done _ _ _ _ _ Hrun).
Qed.
End FailedCalls.

(** C2 as stated fails: the membership fetch for the second assigned custom
    role fails.  In part_000 the error is returned, but the row of the first
    role has been streamed by the same invocation; in
    [src/azuread/table_azuread_custom_role.go] the invocation panics after
    that row and returns no error at all. *)
Lemma failed_fetch_after_streamed_row_counterexample :
  roleAssignments Tenant.flakyLater 2 = (None, Some Tenant.throttled)
  ∧ (∃ w',
       Part000.listAdCustomRoles Tenant.flakyLater Tenant.anyQuery fresh
       = Done (None, Some Tenant.throttled) w'
       ∧ assignmentsCalls w' = 3
       ∧ role <$> streamed w' = [Some Tenant.helpdesk])
  ∧ (∃ w',
       Azuread.listAdCustomRoles Tenant.flakyLater Tenant.anyQuery fresh
       = Panic w'
       ∧ assignmentsCalls w' = 3
       ∧ role <$> streamed w' = [Some Tenant.helpdesk]).
Proof.
  split; [reflexivity|]. split.
  - eexists. split; [vm_compute; reflexivity|]. by split.
  - eexists. split; [vm_compute; reflexivity|]. by split.
Qed.

(** ** The two files on a failed membership fetch *)

(** In [src/azuread/table_azuread_custom_role.go] the error of the
    assignments fetch never leaves [getMembersFromId]: the call panics on
    the nil response or returns a nil error. *)
Lemma Azuread_getMembersFromId_drops_error (h : Host) (d : QueryData)
    (id : string) (w : World) (res : ptr (list UnifiedRoleAssignment))
    (e : ErrorObject) :
  graphClient h (clientCalls w) = None →
  roleAssignments h (assignmentsCalls w) = (res, Some e) →
  (∃ w', Azuread.getMembersFromId h d id w = Panic w')
  ∨ (∃ member_ids w',
       Azuread.getMembersFromId h d id w = Done (member_ids, None) w').
Proof.
  intros Hc Ha. unfold Azuread.getMembersFromId. run. rewrite Hc. run.
  change (assignmentsCalls (tickClient w)) with (assignmentsCalls w).
  rewrite Ha. run. destruct res as [value|]; run; [|eauto].
  destruct (getMembersFromId_loop id value); run; eauto.
Qed.

(** C8 fails: the first assignments fetch succeeds and the one made by
    [getMembersFromId] is throttled.  [src/azuread/table_azuread_custom_role.go]
    panics in [listAdCustomRoles], [getAdCustomRole] and [getMembersFromId],
    where [src/unnamed/part_000] logs the error and returns it. *)
Theorem files_differ_on_failed_membership_fetch :
  Azuread.listAdCustomRoles Tenant.flaky Tenant.anyQuery fresh
  = Panic (afterMembers (tickAssignments (tickDefinitions (tickClient fresh))))
  ∧ (∃ w', Part000.listAdCustomRoles Tenant.flaky Tenant.anyQuery fresh
           = Done (None, Some Tenant.throttled) w')
  ∧ Azuread.getAdCustomRole Tenant.down (Tenant.byId "r1") fresh
    = Panic (afterMembers (tickById (tickClient fresh)))
  ∧ (∃ w', Part000.getAdCustomRole Tenant.down (Tenant.byId "r1") fresh
           = Done (None, Some Tenant.throttled) w')
  ∧ Azuread.getMembersFromId Tenant.down Tenant.anyQuery "t1" fresh
    = Panic (afterMembers fresh)
  ∧ (∃ w', Part000.getMembersFromId Tenant.down Tenant.anyQuery "t1" fresh
           = Done (None, Some Tenant.throttled) w').
Proof.
  split; [vm_compute; reflexivity|].
  split; [eexists; vm_compute; reflexivity|].
  split; [vm_compute; reflexivity|].
  split; [eexists; vm_compute; reflexivity|].
  split; [vm_compute; reflexivity|].
  eexists; vm_compute; reflexivity.
Qed.

(** ** Transforms *)

Lemma foldl_append {A B : Type} (f : A → B) (l : list A) (acc : list B) :
  foldl (λ resourceArr per, append resourceArr (f per)) (Some acc) l
  = Some (acc ++ (f <$> l)).
Proof.
  revert acc. induction l as [|x l IH]; intros acc; cbn [foldl].
  - by rewrite app_nil_r.
  - unfold append at 2. cbn [elems default]. unfold Datatypes.id.
    rewrite IH, <- app_assoc. done.
Qed.

(** C7: for a hydrate item holding a role definition, [getRolePermissions]
    returns, without error, a non-nil list with one map per role permission
    in order; each map has exactly the keys "AllowedResourceActions",
    "ExcludedResourceActions" and "condition", a nil action slice being
    replaced by the empty string list. *)
Theorem getRolePermissions_maps (r : UnifiedRoleDefinition)
    (member_ids : slice string) :
  getRolePermissions
    {| HydrateItem := RoleDefinitionItem
                        (Some {| role := Some r; members := member_ids |}) |}
  = Some (MapsV (Some (getRolePermissions_mapping <$> GetRolePermissions r)),
          None)
  ∧ (GetRolePermissions r = [] →
     getRolePermissions
       {| HydrateItem := RoleDefinitionItem
                           (Some {| role := Some r; members := member_ids |}) |}
     = Some (MapsV (Some []), None))
  ∧ ∀ per,
      dom (getRolePermissions_mapping per)
      = ({[ "AllowedResourceActions"; "ExcludedResourceActions";
            "condition" ]} : gset string)
      ∧ getRolePermissions_mapping per !! "AllowedResourceActions"
        = Some (StringsValue (Some (elems (GetAllowedResourceActions per))))
      ∧ getRolePermissions_mapping per !! "ExcludedResourceActions"
        = Some (StringsValue (Some (elems (GetExcludedResourceActions per))))
      ∧ getRolePermissions_mapping per !! "condition"
        = Some (StringPtrValue (GetCondition per)).
Proof.
  assert (Hrun : getRolePermissions
    {| HydrateItem := RoleDefinitionItem
                        (Some {| role := Some r; members := member_ids |}) |}
    = Some (MapsV (Some (getRolePermissions_mapping <$> GetRolePermissions r)),
            None)).
  { unfold getRolePermissions. cbn [HydrateItem asRoleDefinition mbind
      option_bind role]. by rewrite foldl_append. }
  split; [done|]. split.
  - intros Hnil. by rewrite Hrun, Hnil.
  - intros per. unfold getRolePermissions_mapping.
    destruct (GetAllowedResourceActions per) as [allowed|],
             (GetExcludedResourceActions per) as [excluded|];
      cbn [elems default]; unfold Datatypes.id;
      (split; [rewrite !dom_insert_L, dom_empty_L; set_solver|]);
      (split; [by simplify_map_eq|]); (split; by simplify_map_eq).
Qed.

(** The transforms that check before they dereference return a value for
    every role definition. *)
Lemma checked_transforms_return (r : UnifiedRoleDefinition) :
  is_Some (getRoleDescripsion (hydrateItem r))
  ∧ is_Some (getCustomRoleTitle (hydrateItem r))
  ∧ is_Some (getRolePermissions (hydrateItem r))
  ∧ is_Some (getCustomRoleMembers (hydrateItem r)).
Proof.
  unfold getRoleDescripsion, getCustomRoleTitle, getRolePermissions,
    getCustomRoleMembers, hydrateItem.
  cbn [HydrateItem asRoleDefinition mbind option_bind role].
  destruct (GetDescription r); eauto.
Qed.

(** The three that dereference unchecked panic exactly on a nil field. *)
Lemma unchecked_transforms_panic (r : UnifiedRoleDefinition) :
  (getRoleId (hydrateItem r) = None ↔ GetId r = None)
  ∧ (getRoleDisplayName (hydrateItem r) = None ↔ GetDisplayName r = None)
  ∧ (getRoleTemplateId (hydrateItem r) = None ↔ GetTemplateId r = None).
Proof.
  unfold getRoleId, getRoleDisplayName, getRoleTemplateId, hydrateItem.
  cbn [HydrateItem asRoleDefinition mbind option_bind role].
  destruct (GetId r), (GetDisplayName r), (GetTemplateId r); naive_solver.
Qed.

(** C5 fails: for a role definition without a display name the title
    transform falls back to the id, but [getRoleDisplayName] dereferences
    the nil pointer and panics. *)
Theorem getRoleDisplayName_panics_on_nil_display_name :
  GetDisplayName Tenant.unnamed = None
  ∧ getRoleDisplayName (hydrateItem Tenant.unnamed) = None
  ∧ getCustomRoleTitle (hydrateItem Tenant.unnamed)
    = Some (StringPtrV (Some "r4"), None)
  ∧ getRoleId (hydrateItem Tenant.unnamed) = Some (StringV "r4", None).
Proof. repeat split. Qed.

(** ** The Get configuration *)

(** C6: the ignore predicate of the Get configuration, in either file, holds
    of an error exactly when its code is "Request_ResourceNotFound" or
    "Invalid object identifier". *)
Theorem get_ignores_exactly_the_two_codes
    (commonColumns : list Column → list Column) (err : error) :
  (ShouldIgnoreErrorFunc (Get (Azuread.table commonColumns)) err = true
   ↔ ∃ e, err = Some e
          ∧ (Code e = "Request_ResourceNotFound"
             ∨ Code e = "Invalid object identifier"))
  ∧ (ShouldIgnoreErrorFunc (Get (Part000.table commonColumns)) err = true
     ↔ ∃ e, err = Some e
            ∧ (Code e = "Request_ResourceNotFound"
               ∨ Code e = "Invalid object identifier")).
Proof.
  assert (H : isIgnorableErrorPredicate
                ["Request_ResourceNotFound"; "Invalid object identifier"] err
              = true
              ↔ ∃ e, err = Some e
                     ∧ (Code e = "Request_ResourceNotFound"
                        ∨ Code e = "Invalid object identifier")).
  { unfold isIgnorableErrorPredicate. destruct err as [e|].
    - cbn [existsb]. rewrite orb_false_r, orb_true_iff, !String.eqb_eq.
      naive_solver.
    - naive_solver. }
  split; exact H.
Qed.

(** ** The Get hydrate function on an empty id *)

(** C9: when the equals-qual on "id" reads as the empty string,
    [getAdCustomRole] of either file returns [(nil, nil)] and leaves the
    world as it was: no client, no Graph call, no log entry. *)
Theorem getAdCustomRole_empty_id (h : Host) (d : QueryData) (w : World) :
  GetStringValue (EqualsQuals d !! "id") = "" →
  Azuread.getAdCustomRole h d w = Done (None, None) w
  ∧ Part000.getAdCustomRole h d w = Done (None, None) w.
Proof.
  intros Hid. unfold Azuread.getAdCustomRole, Part000.getAdCustomRole.
  by rewrite Hid.
Qed.

Lemma getAdCustomRole_empty_id_witness :
  (Azuread.getAdCustomRole Tenant.down (Tenant.byId "") fresh
   = Done (None, None) fresh
   ∧ Part000.getAdCustomRole Tenant.down (Tenant.byId "") fresh
     = Done (None, None) fresh)
  ∧ (Azuread.getAdCustomRole Tenant.down Tenant.anyQuery fresh
     = Done (None, None) fresh
     ∧ Part000.getAdCustomRole Tenant.down Tenant.anyQuery fresh
       = Done (None, None) fresh).
Proof.
  split.
  - apply (getAdCustomRole_empty_id Tenant.down (Tenant.byId "") fresh).
    vm_compute. reflexivity.
  - apply (getAdCustomRole_empty_id Tenant.down Tenant.anyQuery fresh).
    vm_compute. reflexivity.
Defined.

(** * Further properties of the two files *)

(** ** When the de-duplication loops panic *)

Lemma getMembersFromId_step_nil (id : string) (acc : slice string)
    (a : UnifiedRoleAssignment) :
  ¬ (is_Some (GetRoleDefinitionId a) ∧ is_Some (GetPrincipalId a)) →
  getMembersFromId_step id acc a = None.
Proof.
  intros Hn. unfold getMembersFromId_step.
  destruct (GetRoleDefinitionId a) as [x|]; [|done].
  destruct (GetPrincipalId a) as [p|]; [|done].
  destruct Hn. split; eauto.
Qed.

Lemma getMembersFromId_loop_panics (id : string)
    (assignments : list UnifiedRoleAssignment) (acc : slice string) :
  ¬ has_ids assignments →
  rangeP (getMembersFromId_step id) assignments acc = None.
Proof.
  unfold has_ids. revert acc.
  induction assignments as [|a l IH]; intros acc Hn.
  - destruct Hn. constructor.
  - cbn [rangeP].
    destruct (decide (is_Some (GetRoleDefinitionId a)
                      ∧ is_Some (GetPrincipalId a))) as [[[x Hx] [p Hp]]|Ha].
    + rewrite (getMembersFromId_step_spec _ _ _ _ _ Hx Hp).
      cbn [mbind option_bind]. apply IH.
      intros Hl. apply Hn. constructor; eauto.
    + by rewrite getMembersFromId_step_nil.
Qed.

Lemma getMembersFromId_loop_memberSlice (id : string)
    (assignments : list UnifiedRoleAssignment) :
  has_ids assignments →
  getMembersFromId_loop id assignments = Some (memberSlice id assignments).
Proof.
  intros Hall. unfold getMembersFromId_loop, memberSlice.
  rewrite getMembersFromId_loop_from by done.
  cbn [elems default]. rewrite filter_not_elem_of_nil.
  by destruct (distinct _).
Qed.

Lemma has_ids_dec (assignments : list UnifiedRoleAssignment) :
  Decision (has_ids assignments).
Proof. unfold has_ids. apply _. Defined.

Lemma has_role_ids_dec (assignments : list UnifiedRoleAssignment) :
  Decision (has_role_ids assignments).
Proof. unfold has_role_ids. apply _. Defined.

Lemma listAdCustomRoles_ids_Some (assignments : list UnifiedRoleAssignment)
    (ids : list string) :
  listAdCustomRoles_ids assignments = Some ids →
  has_role_ids assignments
  ∧ ids = distinct (roleDefinitionIds assignments) ∧ NoDup ids.
Proof.
  intros Hids. destruct (has_role_ids_dec assignments) as [Hall|Hn].
  - destruct (listAdCustomRoles_ids_distinct assignments Hall)
      as (ids' & Hids' & -> & Hnd & _).
    rewrite Hids in Hids'. by simplify_eq.
  - unfold listAdCustomRoles_ids in Hids.
    by rewrite listAdCustomRoles_ids_panics in Hids.
Qed.

(** [getMembersFromId] of either file, given a fetched response, panics
    exactly when some assignment of the response, of whatever role, lacks
    its role definition id or its principal id; nothing is streamed or
    logged before the panic. *)
Theorem getMembersFromId_panics_iff (h : Host) (d : QueryData) (id : string)
    (w : World) (assignments : list UnifiedRoleAssignment) :
  graphClient h (clientCalls w) = None →
  roleAssignments h (assignmentsCalls w) = (Some assignments, None) →
  (Azuread.getMembersFromId h d id w = Panic (afterMembers w)
   ↔ ¬ has_ids assignments)
  ∧ (Part000.getMembersFromId h d id w = Panic (afterMembers w)
     ↔ ¬ has_ids assignments)
  ∧ streamed (afterMembers w) = streamed w
  ∧ logged (afterMembers w) = logged w.
Proof.
  intros Hc Ha.
  assert (HA : Azuread.getMembersFromId h d id w
    = match getMembersFromId_loop id assignments with
      | Some member_ids => Done (member_ids, None) (afterMembers w)
      | None => Panic (afterMembers w)
      end).
  { unfold Azuread.getMembersFromId. run. rewrite Hc. run.
    rewrite assignmentsCalls_tickClient, Ha. run.
    by destruct (getMembersFromId_loop id assignments). }
  assert (HP : Part000.getMembersFromId h d id w
    = match getMembersFromId_loop id assignments with
      | Some member_ids => Done (member_ids, None) (afterMembers w)
      | None => Panic (afterMembers w)
      end).
  { unfold Part000.getMembersFromId. run. rewrite Hc. run.
    rewrite assignmentsCalls_tickClient, Ha. run.
    by destruct (getMembersFromId_loop id assignments). }
  rewrite HA, HP.
  assert (Hloop : getMembersFromId_loop id assignments = None
                  ↔ ¬ has_ids assignments).
  { split.
    - intros Hnone Hall.
      by rewrite getMembersFromId_loop_memberSlice in Hnone.
    - apply getMembersFromId_loop_panics. }
  destruct (getMembersFromId_loop id assignments) as [m|].
  - repeat split; try done; intros Hn; by apply Hloop in Hn.
  - repeat split; try done; intros _; by apply Hloop.
Qed.

Lemma getMembersFromId_panics_iff_witness :
  Azuread.getMembersFromId Tenant.steady Tenant.anyQuery "t1" fresh
  ≠ Panic (afterMembers fresh)
  ∧ Part000.getMembersFromId Tenant.steady Tenant.anyQuery "t1" fresh
    ≠ Panic (afterMembers fresh).
Proof.
  destruct (getMembersFromId_panics_iff Tenant.steady Tenant.anyQuery "t1"
              fresh Tenant.assignments eq_refl eq_refl) as (HA & HP & _).
  assert (Hids : has_ids Tenant.assignments)
    by (repeat constructor; eexists; reflexivity).
  split; intros Hp; [apply HA in Hp|apply HP in Hp]; exact (Hp Hids).
Defined.

(** The slice returned by [getMembersFromId] of either file is nil exactly
    when no assignment of the response has the given role definition id;
    it is never the empty non-nil slice. *)
Theorem getMembersFromId_nil_iff_unassigned (h : Host) (d : QueryData)
    (id : string) (w : World) (assignments : list UnifiedRoleAssignment) :
  graphClient h (clientCalls w) = None →
  roleAssignments h (assignmentsCalls w) = (Some assignments, None) →
  has_ids assignments →
  ∃ member_ids,
    Azuread.getMembersFromId h d id w
    = Done (member_ids, None) (afterMembers w)
    ∧ Part000.getMembersFromId h d id w
      = Done (member_ids, None) (afterMembers w)
    ∧ member_ids = memberSlice id assignments
    ∧ (member_ids = None
       ↔ ∀ a, a ∈ assignments → GetRoleDefinitionId a ≠ Some id)
    ∧ member_ids ≠ Some [].
Proof.
  intros Hc Ha Hids. exists (memberSlice id assignments).
  pose proof (getMembersFromId_loop_memberSlice id assignments Hids) as Hl.
  split; [by eapply Azuread_getMembersFromId_ok|].
  split; [by eapply Part000_getMembersFromId_ok|].
  split; [done|]. unfold memberSlice. split.
  - assert (Hnil : distinct (principalIdsOf id assignments) = []
                   ↔ ∀ a, a ∈ assignments → GetRoleDefinitionId a ≠ Some id).
    { split.
      - intros Hd a Hin Hrole.
        unfold has_ids in Hids. rewrite Forall_forall in Hids.
        destruct (Hids a Hin) as [_ [p Hp]].
        assert (Hp' : p ∈ distinct (principalIdsOf id assignments)).
        { rewrite elem_of_distinct, elem_of_principalIdsOf. eauto. }
        rewrite Hd in Hp'. by apply not_elem_of_nil in Hp'.
      - intros Hno. destruct (distinct _) as [|p ps] eqn:Hd; [done|].
        assert (Hp : p ∈ distinct (principalIdsOf id assignments))
          by (rewrite Hd; left).
        rewrite elem_of_distinct, elem_of_principalIdsOf in Hp.
        destruct Hp as (a & Hin & Hrole & _). by destruct (Hno a Hin). }
    rewrite <- Hnil. by destruct (distinct _).
  - by destruct (distinct _).
Qed.

Lemma getMembersFromId_nil_iff_unassigned_witness :
  ∃ member_ids,
    Azuread.getMembersFromId Tenant.steady Tenant.anyQuery "t9" fresh
    = Done (member_ids, None) (afterMembers fresh)
    ∧ Part000.getMembersFromId Tenant.steady Tenant.anyQuery "t9" fresh
      = Done (member_ids, None) (afterMembers fresh)
    ∧ member_ids = memberSlice "t9" Tenant.assignments
    ∧ (member_ids = None
       ↔ ∀ a, a ∈ Tenant.assignments → GetRoleDefinitionId a ≠ Some "t9")
    ∧ member_ids ≠ Some [].
Proof.
  apply (getMembersFromId_nil_iff_unassigned Tenant.steady Tenant.anyQuery
           "t9" fresh Tenant.assignments).
  - reflexivity.
  - reflexivity.
  - repeat constructor; eexists; reflexivity.
Defined.

(** [listAdCustomRoles] of either file panics, before it looks at any role
    definition and without streaming or logging, as soon as one assignment
    of its fetch lacks the role definition id. *)
Theorem listAdCustomRoles_panics_on_nil_role_id (h : Host) (d : QueryData)
    (w : World) (result : ptr (list UnifiedRoleDefinition))
    (assignments : list UnifiedRoleAssignment) :
  graphClient h (clientCalls w) = None →
  roleDefinitions h (definitionsCalls w) = (result, None) →
  roleAssignments h (assignmentsCalls w) = (Some assignments, None) →
  ¬ has_role_ids assignments →
  Azuread.listAdCustomRoles h d w
  = Panic (tickAssignments (tickDefinitions (tickClient w)))
  ∧ Part000.listAdCustomRoles h d w
    = Panic (tickAssignments (tickDefinitions (tickClient w))).
Proof.
  intros Hc Hd Ha Hn.
  pose proof (listAdCustomRoles_ids_panics assignments [] Hn) as Hloop.
  fold (listAdCustomRoles_ids assignments) in Hloop.
  unfold Azuread.listAdCustomRoles, Part000.listAdCustomRoles.
  run. rewrite Hc. run.
  change (definitionsCalls (tickClient w)) with (definitionsCalls w).
  rewrite Hd. run.
  change (assignmentsCalls (tickDefinitions (tickClient w)))
    with (assignmentsCalls w).
  rewrite Ha. run. rewrite Hloop. by run.
Qed.

Lemma listAdCustomRoles_panics_on_nil_role_id_witness :
  let broken := {| GetRoleDefinitionId := None;
                   GetPrincipalId := Some "erin" |} in
  let h := {| graphClient := graphClient Tenant.steady;
              roleDefinitions := roleDefinitions Tenant.steady;
              roleAssignments := λ _,
                (Some (Tenant.assignments ++ [broken]), None);
              roleDefinitionById := roleDefinitionById Tenant.steady;
              rowsRemaining := rowsRemaining Tenant.steady;
              getErrorObject := getErrorObject Tenant.steady |} in
  Azuread.listAdCustomRoles h Tenant.anyQuery fresh
  = Panic (tickAssignments (tickDefinitions (tickClient fresh)))
  ∧ Part000.listAdCustomRoles h Tenant.anyQuery fresh
    = Panic (tickAssignments (tickDefinitions (tickClient fresh))).
Proof.
  intros broken h.
  apply (listAdCustomRoles_panics_on_nil_role_id h Tenant.anyQuery fresh
           (Some Tenant.definitions) (Tenant.assignments ++ [broken]));
    [reflexivity|reflexivity|reflexivity|].
  unfold has_role_ids. rewrite Forall_app, Forall_singleton.
  intros [_ [x Hx]]. discriminate Hx.
Defined.

(** ** What a run of the list function can stream *)

Lemma join_cons_app {A : Type} (x : list A) (ls : list (list A)) :
  mjoin (x :: ls) = x ++ mjoin ls.
Proof. reflexivity. Qed.

Lemma streams_ret_None {R : Type} (w : World) :
  streams (Done (None : option R) w) w [].
Proof. exists []. cbn. by rewrite app_nil_r. Qed.

Lemma streams_nothing {R : Type} (o : outcome (option R)) (w : World)
    (expected : list (ptr UnifiedRoleDefinition)) :
  continues o = false → streamed (after o) = streamed w →
  streams o w expected.
Proof.
  intros Hstop Hs. exists []. rewrite Hstop, app_nil_r.
  split; [done|]. apply prefix_nil.
Qed.

(** A loop streams what its iterations stream, in order, up to the
    iteration that returns or panics. *)
Lemma rangeM_streams {A R : Type} (body : A → M (option R))
    (f : A → list (ptr UnifiedRoleDefinition)) (l : list A) (w : World) :
  (∀ x w, streams (body x w) w (f x)) →
  streams (rangeM body l w) w (mjoin (f <$> l)).
Proof.
  intros Hbody. revert w. induction l as [|x l IH]; intros w.
  - apply streams_ret_None.
  - cbn [rangeM]. rewrite fmap_cons, join_cons_app.
    destruct (Hbody x w) as (rows1 & Hs1 & Hr1). unfold bind.
    destruct (body x w) as [[v|] w1|w1]; cbn in Hs1, Hr1.
    + exists rows1. split; [done|]. cbn. by apply prefix_app_r.
    + destruct (IH w1) as (rows2 & Hs2 & Hr2).
      exists (rows1 ++ rows2). rewrite Hs2, Hs1, <- app_assoc.
      split; [done|]. rewrite fmap_app, Hr1.
      destruct (continues (rangeM body l w1)).
      * by rewrite Hr2.
      * by apply prefix_app.
    + exists rows1. split; [done|]. cbn. by apply prefix_app_r.
Qed.

Lemma Azuread_getMembersFromId_streams_nothing (h : Host) (d : QueryData)
    (id : string) (w : World) :
  streamed (after (Azuread.getMembersFromId h d id w)) = streamed w.
Proof.
  unfold Azuread.getMembersFromId. run.
  destruct (graphClient h (clientCalls w)); run; [done|].
  destruct (roleAssignments h _) as [[value|] [e|]]; run; try done;
    by destruct (getMembersFromId_loop id value).
Qed.

Lemma Part000_getMembersFromId_streams_nothing (h : Host) (d : QueryData)
    (id : string) (w : World) :
  streamed (after (Part000.getMembersFromId h d id w)) = streamed w.
Proof.
  unfold Part000.getMembersFromId. run.
  destruct (graphClient h (clientCalls w)); run; [done|].
  destruct (roleAssignments h _) as [[value|] [e|]]; run; try done;
    by destruct (getMembersFromId_loop id value).
Qed.

(** What one iteration over [ids] is expected to stream. *)
Lemma Azuread_listAdCustomRoles_id_streams (h : Host) (d : QueryData)
    (customRole : UnifiedRoleDefinition) (id : string) (w : World) :
  streams (Azuread.listAdCustomRoles_id h d customRole id w) w
    (if decide (GetTemplateId customRole = Some id) then [Some customRole]
     else []).
Proof.
  unfold Azuread.listAdCustomRoles_id.
  destruct (GetTemplateId customRole) as [t|]; run;
    [|by apply streams_nothing].
  destruct (String.eqb_spec id t) as [->|Hne].
  - rewrite decide_True by done.
    pose proof (Azuread_getMembersFromId_streams_nothing h d t w) as Hm.
    unfold bind at 1.
    destruct (Azuread.getMembersFromId h d t w) as [[m err] w1|w1];
      cbn in Hm; [|by apply streams_nothing].
    exists [{| role := Some customRole; members := m |}].
    destruct err; run; cbn; by rewrite Hm.
  - rewrite decide_False by congruence. apply streams_ret_None.
Qed.

Lemma Part000_listAdCustomRoles_id_streams (h : Host) (d : QueryData)
    (customRole : UnifiedRoleDefinition) (id : string) (w : World) :
  streams (Part000.listAdCustomRoles_id h d customRole id w) w
    (if decide (GetTemplateId customRole = Some id) then [Some customRole]
     else []).
Proof.
  unfold Part000.listAdCustomRoles_id.
  destruct (GetTemplateId customRole) as [t|]; run;
    [|by apply streams_nothing].
  destruct (String.eqb_spec id t) as [->|Hne].
  - rewrite decide_True by done.
    pose proof (Part000_getMembersFromId_streams_nothing h d t w) as Hm.
    unfold bind at 1.
    destruct (Part000.getMembersFromId h d t w) as [[m [e|]] w1|w1];
      cbn in Hm; run.
    + by apply streams_nothing.
    + exists [{| role := Some customRole; members := m |}].
      cbn. by rewrite Hm.
    + by apply streams_nothing.
  - rewrite decide_False by congruence. apply streams_ret_None.
Qed.

Lemma join_matching_ids (customRole : UnifiedRoleDefinition)
    (ids : list string) :
  NoDup ids →
  mjoin ((λ id, if decide (GetTemplateId customRole = Some id)
                then [Some customRole] else []) <$> ids)
  = match GetTemplateId customRole with
    | Some t => if bool_decide (t ∈ ids) then [Some customRole] else []
    | None => []
    end.
Proof.
  induction 1 as [|id ids Hnin Hnd IH].
  - destruct (GetTemplateId customRole); [|done].
    by rewrite bool_decide_elem_of_nil.
  - rewrite fmap_cons, join_cons_app, IH. destruct (GetTemplateId customRole) as [t|]; [|done].
    destruct (decide (Some t = Some id)) as [Heq|Hne].
    + simplify_eq.
      rewrite (bool_decide_eq_true_2 (id ∈ id :: ids)) by left.
      by rewrite (bool_decide_eq_false_2 (id ∈ ids)).
    + rewrite (bool_decide_ext (t ∈ id :: ids) (t ∈ ids)); [done|].
      rewrite elem_of_cons. naive_solver.
Qed.

Lemma join_selected_roles (ids : list string)
    (roles : list UnifiedRoleDefinition) :
  mjoin ((λ r, if selects ids r then [Some r] else []) <$> roles)
  = Some <$> filter (λ r, selects ids r = true) roles.
Proof.
  induction roles as [|r roles IH]; [done|].
  rewrite fmap_cons, join_cons_app, IH, filter_cons.
  by destruct (selects ids r).
Qed.

Lemma expected_of_selects (ids : list string)
    (customRole : UnifiedRoleDefinition) :
  GetIsBuiltIn customRole = Some false →
  match GetTemplateId customRole with
  | Some t => if bool_decide (t ∈ ids) then [Some customRole] else []
  | None => []
  end
  = (if selects ids customRole then [Some customRole] else []).
Proof.
  intros Hb. unfold selects. rewrite Hb.
  by destruct (GetTemplateId customRole).
Qed.

Ltac rows_streams id_streams :=
  let Hb := fresh "Hb" in
  match goal with
  | |- streams _ _ (if selects ?ids ?r then _ else _) =>
      destruct (GetIsBuiltIn r) as [[|]|] eqn:Hb; run;
      [ unfold selects; rewrite Hb; apply streams_ret_None
      | rewrite <- (expected_of_selects ids r Hb),
                <- join_matching_ids by done;
        apply rangeM_streams; intros; apply id_streams
      | by apply streams_nothing ]
  end.

Lemma Azuread_listAdCustomRoles_rows_streams (h : Host) (d : QueryData)
    (ids : list string) (customRole : UnifiedRoleDefinition) (w : World) :
  NoDup ids →
  streams (Azuread.listAdCustomRoles_rows h d ids customRole w) w
    (if selects ids customRole then [Some customRole] else []).
Proof.
  intros Hnd. unfold Azuread.listAdCustomRoles_rows.
  rows_streams Azuread_listAdCustomRoles_id_streams.
Qed.

Lemma Part000_listAdCustomRoles_rows_streams (h : Host) (d : QueryData)
    (ids : list string) (customRole : UnifiedRoleDefinition) (w : World) :
  NoDup ids →
  streams (Part000.listAdCustomRoles_rows h d ids customRole w) w
    (if selects ids customRole then [Some customRole] else []).
Proof.
  intros Hnd. unfold Part000.listAdCustomRoles_rows.
  rows_streams Part000_listAdCustomRoles_id_streams.
Qed.

(** The limit check streams nothing: an iteration streams what its rows
    part streams. *)
Lemma check_streams (h : Host) (o : outcome (option hydrated)) (w : World)
    (expected : list (ptr UnifiedRoleDefinition)) :
  streams o w expected →
  streams
    (match o with
     | Done r w1 =>
         match r with
         | Some v => ret (Some v)
         | None =>
             bind (RowsRemaining h)
               (λ n, if (n =? 0)%Z then ret (Some (None, None)) else ret None)
         end w1
     | Panic w1 => Panic w1
     end) w expected.
Proof.
  intros (rows & Hs & Hr). destruct o as [[v|] w1|w1]; cbn in Hs, Hr.
  - by exists rows.
  - run. exists rows.
    destruct (rowsRemaining h (remainingCalls w1) (length (streamed w1))
              =? 0)%Z; cbn; by rewrite Hr.
  - by exists rows.
Qed.

Lemma Azuread_listAdCustomRoles_role_streams (h : Host) (d : QueryData)
    (ids : list string) (customRole : UnifiedRoleDefinition) (w : World) :
  NoDup ids →
  streams (Azuread.listAdCustomRoles_role h d ids customRole w) w
    (if selects ids customRole then [Some customRole] else []).
Proof.
  intros Hnd.
  exact (check_streams h _ w _
           (Azuread_listAdCustomRoles_rows_streams h d ids customRole w Hnd)).
Qed.

Lemma Part000_listAdCustomRoles_role_streams (h : Host) (d : QueryData)
    (ids : list string) (customRole : UnifiedRoleDefinition) (w : World) :
  NoDup ids →
  streams (Part000.listAdCustomRoles_role h d ids customRole w) w
    (if selects ids customRole then [Some customRole] else []).
Proof.
  intros Hnd.
  exact (check_streams h _ w _
           (Part000_listAdCustomRoles_rows_streams h d ids customRole w Hnd)).
Qed.

Lemma streamed_nothing_prefix (w w' : World)
    (allowed : list (ptr UnifiedRoleDefinition)) :
  streamed w' = streamed w →
  ∃ rows, streamed w' = streamed w ++ rows
          ∧ role <$> rows `prefix_of` allowed.
Proof.
  intros Hs. exists []. rewrite app_nil_r. split; [done|apply prefix_nil].
Qed.

Lemma streams_prefix {R : Type} (o : outcome (option R)) (w : World)
    (expected : list (ptr UnifiedRoleDefinition)) :
  streams o w expected →
  ∃ rows, streamed (after o) = streamed w ++ rows
          ∧ role <$> rows `prefix_of` expected.
Proof.
  intros (rows & Hs & Hr). exists rows. split; [done|].
  destruct (continues o); [by rewrite Hr|done].
Qed.

Lemma selected_roles_assigned (assignments : list UnifiedRoleAssignment)
    (roles : list UnifiedRoleDefinition) :
  filter (λ r, selects (distinct (roleDefinitionIds assignments)) r = true)
         roles
  = filter (λ r, assignedCustomRole assignments r = true) roles.
Proof.
  apply list_filter_iff. intros r. unfold assignedCustomRole.
  by rewrite selects_distinct.
Qed.

Ltac list_streams role_streams h w :=
  let Hids := fresh "Hids" in
  unfold assignedCustomRoles; run;
  destruct (graphClient h (clientCalls w)); run;
    [by apply streamed_nothing_prefix|];
  change (definitionsCalls (tickClient w)) with (definitionsCalls w);
  destruct (roleDefinitions h (definitionsCalls w)) as [result [e|]]; run;
    [by apply streamed_nothing_prefix|];
  change (assignmentsCalls (tickDefinitions (tickClient w)))
    with (assignmentsCalls w);
  destruct (roleAssignments h (assignmentsCalls w)) as [res [e|]]; run;
    [by apply streamed_nothing_prefix|];
  destruct res as [assignments|]; run;
    [|by apply streamed_nothing_prefix];
  destruct (listAdCustomRoles_ids assignments) as [ids|] eqn:Hids; run;
    [|by apply streamed_nothing_prefix];
  apply listAdCustomRoles_ids_Some in Hids as (_ & -> & Hids);
  destruct result as [roles|]; run;
    [|by apply streamed_nothing_prefix];
  cbn [fst]; rewrite <- selected_roles_assigned, <- join_selected_roles;
  match goal with
  | |- context [bind (rangeM ?body roles) _ ?w0] =>
      let rows := fresh "rows" in
      let Hs := fresh "Hs" in
      let Hr := fresh "Hr" in
      destruct (streams_prefix (rangeM body roles w0) w0 _
                  (rangeM_streams body _ roles w0
                     (λ r w1, role_streams h _ _ r w1 Hids)))
        as (rows & Hs & Hr);
      exists rows; split; [|done];
      unfold bind;
      destruct (rangeM body roles w0) as [[v|] w1|w1]; exact Hs
  end.

(** Whatever happens during a run of [listAdCustomRoles] of either file (a
    failed call, a panic, the limit), the rows it has streamed are, in
    response order and without repetition, the first few of the assigned
    custom roles of its two fetches: never a built-in role, never a role
    without assignment, never a role twice or out of order. *)
Theorem listAdCustomRoles_streams_only_assigned_custom_roles (h : Host)
    (d : QueryData) (w : World) :
  (∃ rows,
     streamed (after (Azuread.listAdCustomRoles h d w)) = streamed w ++ rows
     ∧ role <$> rows `prefix_of` assignedCustomRoles h w)
  ∧ (∃ rows,
       streamed (after (Part000.listAdCustomRoles h d w)) = streamed w ++ rows
       ∧ role <$> rows `prefix_of` assignedCustomRoles h w).
Proof.
  split.
  - unfold Azuread.listAdCustomRoles.
    list_streams Azuread_listAdCustomRoles_role_streams h w.
  - unfold Part000.listAdCustomRoles.
    list_streams Part000_listAdCustomRoles_role_streams h w.
Qed.

(** ** The list function on a steady tenant *)

Lemma grows_refl (w : World) : grows w w [] 0.
Proof. unfold grows. rewrite app_nil_r. cbn. repeat split; lia. Qed.

Lemma grows_trans (w w1 w2 : World) (rows1 rows2 : list RoleDefinition)
    (c1 c2 : nat) :
  grows w w1 rows1 c1 → grows w1 w2 rows2 c2 →
  grows w w2 (rows1 ++ rows2) (c1 + c2).
Proof.
  unfold grows. rewrite length_app, app_assoc.
  intros (-> & -> & -> & -> & -> & -> & ->) (-> & -> & -> & -> & -> & -> & ->).
  repeat split; lia.
Qed.

Lemma grows_row (w : World) (row : RoleDefinition) :
  grows w (addRow row (afterMembers w)) [row] 0.
Proof. unfold grows. cbn. repeat split; lia. Qed.

Lemma grows_check (w : World) : grows w (tickRemaining w) [] 1.
Proof. unfold grows. rewrite app_nil_r. cbn. repeat split; lia. Qed.

Section Steady.
Context (h : Host) (assignments : list UnifiedRoleAssignment).
Hypothesis client_ok : ∀ n, graphClient h n = None.
Hypothesis steady : ∀ n, roleAssignments h n = (Some assignments, None).
Hypothesis ids_ok : has_ids assignments.
Hypothesis rows_remain : ∀ k n, rowsRemaining h k n ≠ 0%Z.

Lemma steady_listAdCustomRoles_id_hit (d : QueryData)
    (customRole : UnifiedRoleDefinition) (t : string) (w : World) :
  GetTemplateId customRole = Some t →
  Part000.listAdCustomRoles_id h d customRole t w
  = Done None (addRow (rowOf assignments customRole) (afterMembers w)).
Proof.
  intros Ht. unfold Part000.listAdCustomRoles_id, rowOf. rewrite Ht. run.
  rewrite String.eqb_refl.
  rewrite (bind_Done _ _ _ _ _
             (Part000_getMembersFromId_ok h d t w assignments _
                (client_ok _) (steady _)
                (getMembersFromId_loop_memberSlice t assignments ids_ok))).
  by run.
Qed.

Lemma steady_listAdCustomRoles_ids_loop (d : QueryData)
    (customRole : UnifiedRoleDefinition) (t : string) (ids : list string)
    (w : World) :
  GetTemplateId customRole = Some t → NoDup ids →
  ∃ w',
    rangeM (Part000.listAdCustomRoles_id h d customRole) ids w = Done None w'
    ∧ grows w w' (if bool_decide (t ∈ ids)
                  then [rowOf assignments customRole] else []) 0.
Proof.
  intros Ht Hnd. revert w.
  induction Hnd as [|id ids Hnin Hnd IH]; intros w.
  - exists w. rewrite bool_decide_elem_of_nil. split; [done|apply grows_refl].
  - cbn [rangeM]. destruct (decide (id = t)) as [->|Hne].
    + rewrite (bind_Done _ _ _ _ _
                 (steady_listAdCustomRoles_id_hit d customRole t w Ht)).
      cbn beta iota. destruct (IH (addRow (rowOf assignments customRole)
                                          (afterMembers w))) as (w' & -> & Hg).
      exists w'. split; [done|].
      rewrite (bool_decide_eq_false_2 (t ∈ ids)) in Hg by done.
      rewrite (bool_decide_eq_true_2 (t ∈ t :: ids)) by left.
      exact (grows_trans _ _ _ _ _ _ _ (grows_row w _) Hg).
    + rewrite (bind_Done _ _ _ _ _
                 (Part000_listAdCustomRoles_id_miss h d customRole t id w
                    Ht Hne)).
      cbn beta iota. destruct (IH w) as (w' & -> & Hg).
      exists w'. split; [done|].
      rewrite (bool_decide_ext (t ∈ id :: ids) (t ∈ ids)); [done|].
      rewrite elem_of_cons. naive_solver.
Qed.

Lemma steady_listAdCustomRoles_role (d : QueryData) (ids : list string)
    (customRole : UnifiedRoleDefinition) (w : World) :
  is_Some (GetIsBuiltIn customRole) → is_Some (GetTemplateId customRole) →
  NoDup ids →
  ∃ w',
    Part000.listAdCustomRoles_role h d ids customRole w = Done None w'
    ∧ grows w w' (if selects ids customRole
                  then [rowOf assignments customRole] else []) 1.
Proof.
  intros [b Hb] [t Ht] Hnd.
  unfold Part000.listAdCustomRoles_role, Part000.listAdCustomRoles_rows,
    selects.
  rewrite Hb, Ht, run_bind. run.
  assert (Hcheck : ∀ w1 : World,
    bind (RowsRemaining h)
         (λ n, if (n =? 0)%Z then ret (Some (None, None)) else ret None) w1
    = Done (None : option (option RoleDefinition * option ErrorObject))
           (tickRemaining w1)).
  { intros w1. run. destruct (Z.eqb_spec (rowsRemaining h (remainingCalls w1)
      (length (streamed w1))) 0) as [H0|_]; [|done]. by apply rows_remain in H0. }
  destruct b; cbn [negb].
  - exists (tickRemaining w). rewrite run_ret. cbn beta iota.
    rewrite Hcheck. split; [done|apply grows_check].
  - destruct (steady_listAdCustomRoles_ids_loop d customRole t ids w Ht Hnd)
      as (w1 & Hrun & Hg).
    exists (tickRemaining w1).
    rewrite (bind_Done _ _ _ _ _ Hrun). cbn beta iota. rewrite Hcheck.
    split; [done|].
    pose proof (grows_trans _ _ _ _ _ _ _ Hg (grows_check w1)) as Hg'.
    by rewrite app_nil_r in Hg'.
Qed.

Lemma steady_listAdCustomRoles_roles (d : QueryData) (ids : list string)
    (roles : list UnifiedRoleDefinition) (w : World) :
  has_flags roles → NoDup ids →
  ∃ w',
    rangeM (Part000.listAdCustomRoles_role h d ids) roles w = Done None w'
    ∧ grows w w' (rowOf assignments
                    <$> filter (λ r, selects ids r = true) roles)
              (length roles).
Proof.
  intros Hflags Hnd. revert w.
  induction Hflags as [|r roles [Hb Ht] _ IH]; intros w.
  - exists w. split; [done|apply grows_refl].
  - destruct (steady_listAdCustomRoles_role d ids r w Hb Ht Hnd)
      as (w1 & Hrun & Hg1).
    destruct (IH w1) as (w' & Hrest & Hg2).
    exists w'. cbn [rangeM].
    rewrite (bind_Done _ _ _ _ _ Hrun). cbn beta iota.
    split; [done|].
    pose proof (grows_trans _ _ _ _ _ _ _ Hg1 Hg2) as Hg.
    rewrite filter_cons. cbn [length].
    destruct (selects ids r); [rewrite decide_True by done|
                               rewrite decide_False by done]; exact Hg.
Qed.

Lemma steady_listAdCustomRoles (d : QueryData) (w : World)
    (roles : list UnifiedRoleDefinition) :
  roleDefinitions h (definitionsCalls w) = (Some roles, None) →
  has_flags roles →
  ∃ w',
    Azuread.listAdCustomRoles h d w = Done (None, None) w'
    ∧ Part000.listAdCustomRoles h d w = Done (None, None) w'
    ∧ grows (tickAssignments (tickDefinitions (tickClient w))) w'
        (rowOf assignments
           <$> filter (λ r, assignedCustomRole assignments r = true) roles)
        (length roles).
Proof.
  intros Hd Hflags.
  destruct (listAdCustomRoles_ids_distinct assignments
              (has_ids_role_ids _ ids_ok)) as (ids & Hloop & Hdist & Hnd & _).
  destruct (steady_listAdCustomRoles_roles d ids roles
              (tickAssignments (tickDefinitions (tickClient w))) Hflags Hnd)
    as (w' & Hrun & Hg).
  assert (Hpart : Part000.listAdCustomRoles h d w = Done (None, None) w').
  { unfold Part000.listAdCustomRoles. run. rewrite client_ok. run.
    change (definitionsCalls (tickClient w)) with (definitionsCalls w).
    rewrite Hd. run. rewrite steady. run. rewrite Hloop. run.
    by rewrite (bind_Done _ _ _ _ _ Hrun). }
  exists w'. split; [|split; [done|]].
  - rewrite listAdCustomRoles_agree; [done|done|].
    intros n. by rewrite steady.
  - subst ids. by rewrite selected_roles_assigned in Hg.
Qed.
End Steady.

Lemma rowOf_members (assignments : list UnifiedRoleAssignment)
    (r : UnifiedRoleDefinition) :
  has_ids assignments →
  assignedCustomRole assignments r = true →
  ∃ t p ps,
    GetTemplateId r = Some t
    ∧ members (rowOf assignments r) = Some (p :: ps)
    ∧ NoDup (p :: ps)
    ∧ ∀ q, q ∈ p :: ps
           ↔ ∃ a, a ∈ assignments ∧ GetRoleDefinitionId a = Some t
                  ∧ GetPrincipalId a = Some q.
Proof.
  intros Hids Hsel. unfold assignedCustomRole, selects in Hsel.
  destruct (GetIsBuiltIn r) as [[|]|]; try done.
  destruct (GetTemplateId r) as [t|] eqn:Ht; [|done].
  apply bool_decide_eq_true in Hsel.
  unfold roleDefinitionIds in Hsel. apply list_elem_of_omap in Hsel
    as (a & Hin & Hrole).
  unfold has_ids in Hids. rewrite Forall_forall in Hids.
  destruct (Hids a Hin) as [_ [q Hq]].
  assert (Hmem : q ∈ distinct (principalIdsOf t assignments)).
  { rewrite elem_of_distinct, elem_of_principalIdsOf. eauto. }
  unfold rowOf, memberSlice. rewrite Ht. cbn [members].
  change (default "" (Some t)) with t.
  pose proof (NoDup_distinct (principalIdsOf t assignments)) as Hnd.
  assert (Hel : ∀ q', q' ∈ distinct (principalIdsOf t assignments)
    ↔ ∃ a', a' ∈ assignments ∧ GetRoleDefinitionId a' = Some t
            ∧ GetPrincipalId a' = Some q').
  { intros q'. by rewrite elem_of_distinct, elem_of_principalIdsOf. }
  destruct (distinct (principalIdsOf t assignments)) as [|p ps].
  - by apply not_elem_of_nil in Hmem.
  - by exists t, p, ps.
Qed.

(** On a tenant whose assignments fetch always answers the same, with
    nothing failing and no limit, the rows streamed by [listAdCustomRoles]
    of either file are exactly the assigned custom roles in response order,
    each with the members [getMembersFromId] computes for its [templateId]:
    a non-nil, non-empty, duplicate-free list of the principals assigned to
    that role definition id. *)
Theorem listAdCustomRoles_rows_carry_members (h : Host) (d : QueryData)
    (w : World) (roles : list UnifiedRoleDefinition)
    (assignments : list UnifiedRoleAssignment) :
  (∀ n, graphClient h n = None) →
  (∀ n, roleAssignments h n = (Some assignments, None)) →
  has_ids assignments →
  (∀ k n, rowsRemaining h k n ≠ 0%Z) →
  roleDefinitions h (definitionsCalls w) = (Some roles, None) →
  has_flags roles →
  ∃ w',
    Azuread.listAdCustomRoles h d w = Done (None, None) w'
    ∧ Part000.listAdCustomRoles h d w = Done (None, None) w'
    ∧ streamed w'
      = streamed w
        ++ (rowOf assignments
              <$> filter (λ r, assignedCustomRole assignments r = true) roles)
    ∧ ∀ r, assignedCustomRole assignments r = true →
        ∃ t p ps,
          GetTemplateId r = Some t
          ∧ members (rowOf assignments r) = Some (p :: ps)
          ∧ NoDup (p :: ps)
          ∧ ∀ q, q ∈ p :: ps
                 ↔ ∃ a, a ∈ assignments ∧ GetRoleDefinitionId a = Some t
                        ∧ GetPrincipalId a = Some q.
Proof.
  intros Hc Hs Hids Hrem Hd Hflags.
  destruct (steady_listAdCustomRoles h assignments Hc Hs Hids Hrem d w roles
              Hd Hflags) as (w' & HA & HP & Hg & _).
  exists w'. repeat split; try done.
  intros r. by apply rowOf_members.
Qed.

Lemma listAdCustomRoles_rows_carry_members_witness :
  ∃ w',
    Azuread.listAdCustomRoles Tenant.steady Tenant.anyQuery fresh
    = Done (None, None) w'
    ∧ Part000.listAdCustomRoles Tenant.steady Tenant.anyQuery fresh
      = Done (None, None) w'
    ∧ streamed w'
      = streamed fresh
        ++ (rowOf Tenant.assignments
              <$> filter (λ r, assignedCustomRole Tenant.assignments r = true)
                         Tenant.definitions)
    ∧ ∀ r, assignedCustomRole Tenant.assignments r = true →
        ∃ t p ps,
          GetTemplateId r = Some t
          ∧ members (rowOf Tenant.assignments r) = Some (p :: ps)
          ∧ NoDup (p :: ps)
          ∧ ∀ q, q ∈ p :: ps
                 ↔ ∃ a, a ∈ Tenant.assignments
                        ∧ GetRoleDefinitionId a = Some t
                        ∧ GetPrincipalId a = Some q.
Proof.
  apply (listAdCustomRoles_rows_carry_members Tenant.steady Tenant.anyQuery
           fresh Tenant.definitions Tenant.assignments).
  - intros n. reflexivity.
  - intros n. reflexivity.
  - repeat constructor; eexists; reflexivity.
  - intros k n. discriminate.
  - reflexivity.
  - repeat constructor; eexists; reflexivity.
Defined.

Example listAdCustomRoles_rows_tenant :
  rowOf Tenant.assignments
    <$> filter (λ r, assignedCustomRole Tenant.assignments r = true)
               Tenant.definitions
  = [ {| role := Some Tenant.helpdesk; members := Some ["alice"; "carol"] |};
      {| role := Some Tenant.auditor; members := Some ["bob"] |} ].
Proof. vm_compute. reflexivity. Qed.

(** With nothing failing and no limit, [listAdCustomRoles] of either file
    fetches the role definitions once and the assignments once for itself
    and once more for every row it streams, obtains the client as often,
    and checks the limit once per fetched role definition. *)
Theorem listAdCustomRoles_call_counts (h : Host) (d : QueryData)
    (w : World) (roles : list UnifiedRoleDefinition)
    (assignments : list UnifiedRoleAssignment) :
  (∀ n, graphClient h n = None) →
  (∀ n, roleAssignments h n = (Some assignments, None)) →
  has_ids assignments →
  (∀ k n, rowsRemaining h k n ≠ 0%Z) →
  roleDefinitions h (definitionsCalls w) = (Some roles, None) →
  has_flags roles →
  ∃ w' n,
    Azuread.listAdCustomRoles h d w = Done (None, None) w'
    ∧ Part000.listAdCustomRoles h d w = Done (None, None) w'
    ∧ n = length (filter (λ r, assignedCustomRole assignments r = true) roles)
    ∧ length (streamed w') = length (streamed w) + n
    ∧ definitionsCalls w' = definitionsCalls w + 1
    ∧ assignmentsCalls w' = assignmentsCalls w + 1 + n
    ∧ clientCalls w' = clientCalls w + 1 + n
    ∧ remainingCalls w' = remainingCalls w + length roles
    ∧ byIdCalls w' = byIdCalls w.
Proof.
  intros Hc Hs Hids Hrem Hd Hflags.
  destruct (steady_listAdCustomRoles h assignments Hc Hs Hids Hrem d w roles
              Hd Hflags)
    as (w' & HA & HP & Hst & _ & Hcl & Has & Hde & Hby & Hre).
  exists w', (length (filter (λ r, assignedCustomRole assignments r = true)
                             roles)).
  rewrite length_fmap in Hcl, Has. cbn in Hst, Hcl, Has, Hde, Hby, Hre.
  rewrite Hst, length_app, length_fmap.
  repeat split; try done; lia.
Qed.

Lemma listAdCustomRoles_call_counts_witness :
  ∃ w' n,
    Azuread.listAdCustomRoles Tenant.steady Tenant.anyQuery fresh
    = Done (None, None) w'
    ∧ Part000.listAdCustomRoles Tenant.steady Tenant.anyQuery fresh
      = Done (None, None) w'
    ∧ n = length (filter (λ r, assignedCustomRole Tenant.assignments r = true)
                         Tenant.definitions)
    ∧ length (streamed w') = length (streamed fresh) + n
    ∧ definitionsCalls w' = definitionsCalls fresh + 1
    ∧ assignmentsCalls w' = assignmentsCalls fresh + 1 + n
    ∧ clientCalls w' = clientCalls fresh + 1 + n
    ∧ remainingCalls w' = remainingCalls fresh + length Tenant.definitions
    ∧ byIdCalls w' = byIdCalls fresh.
Proof.
  apply (listAdCustomRoles_call_counts Tenant.steady Tenant.anyQuery
           fresh Tenant.definitions Tenant.assignments).
  - intros n. reflexivity.
  - intros n. reflexivity.
  - repeat constructor; eexists; reflexivity.
  - intros k n. discriminate.
  - reflexivity.
  - repeat constructor; eexists; reflexivity.
Defined.

(** ** The Get hydrate function when nothing fails *)

(** When the id qual is not empty and both fetches succeed,
    [getAdCustomRole] of either file returns the fetched role definition,
    built in or not, assigned or not, with the members [getMembersFromId]
    computes for the queried id; it streams and logs nothing.  The
    [member_ids] transform of the returned item gives these members, and for
    a role whose [templateId] is the queried id the item is the row that
    [listAdCustomRoles] streams for it. *)
Theorem getAdCustomRole_returns_role_with_members (h : Host) (d : QueryData)
    (w : World) (customRole : ptr UnifiedRoleDefinition)
    (assignments : list UnifiedRoleAssignment) :
  GetStringValue (EqualsQuals d !! "id") ≠ "" →
  graphClient h (clientCalls w) = None →
  graphClient h (S (clientCalls w)) = None →
  roleDefinitionById h (byIdCalls w) (GetStringValue (EqualsQuals d !! "id"))
  = (customRole, None) →
  roleAssignments h (assignmentsCalls w) = (Some assignments, None) →
  has_ids assignments →
  ∃ item w',
    item = {| role := customRole;
              members := memberSlice (GetStringValue (EqualsQuals d !! "id"))
                                     assignments |}
    ∧ Azuread.getAdCustomRole h d w = Done (Some item, None) w'
    ∧ Part000.getAdCustomRole h d w = Done (Some item, None) w'
    ∧ streamed w' = streamed w ∧ logged w' = logged w
    ∧ getCustomRoleMembers (itemOf (Some item))
      = Some (StringsV (members item), None)
    ∧ ∀ r, customRole = Some r →
           GetTemplateId r = Some (GetStringValue (EqualsQuals d !! "id")) →
           item = rowOf assignments r.
Proof.
  intros Hid Hc Hc' Hr Ha Hids.
  set (id := GetStringValue (EqualsQuals d !! "id")) in *.
  pose proof (getMembersFromId_loop_memberSlice id assignments Hids) as Hl.
  exists {| role := customRole; members := memberSlice id assignments |},
         (afterMembers (tickById (tickClient w))).
  split; [done|]. split; [|split].
  - unfold Azuread.getAdCustomRole. fold id.
    destruct (String.eqb_spec id "") as [|_]; [done|].
    run. rewrite Hc. run.
    change (byIdCalls (tickClient w)) with (byIdCalls w). rewrite Hr. run.
    rewrite (bind_Done _ _ _ _ _
               (Azuread_getMembersFromId_ok h d id (tickById (tickClient w))
                  assignments _ None Hc' Ha Hl)).
    by run.
  - unfold Part000.getAdCustomRole. fold id.
    destruct (String.eqb_spec id "") as [|_]; [done|].
    run. rewrite Hc. run.
    change (byIdCalls (tickClient w)) with (byIdCalls w). rewrite Hr. run.
    rewrite (bind_Done _ _ _ _ _
               (Part000_getMembersFromId_ok h d id (tickById (tickClient w))
                  assignments _ Hc' Ha Hl)).
    by run.
  - repeat split; try done.
    intros r -> Ht. unfold rowOf. by rewrite Ht.
Qed.

Lemma getAdCustomRole_returns_role_with_members_witness :
  ∃ item w',
    item = {| role := Some Tenant.globalReader;
              members := memberSlice "r3" Tenant.assignments |}
    ∧ Azuread.getAdCustomRole Tenant.steady (Tenant.byId "r3") fresh
      = Done (Some item, None) w'
    ∧ Part000.getAdCustomRole Tenant.steady (Tenant.byId "r3") fresh
      = Done (Some item, None) w'
    ∧ streamed w' = streamed fresh ∧ logged w' = logged fresh
    ∧ getCustomRoleMembers (itemOf (Some item))
      = Some (StringsV (members item), None)
    ∧ ∀ r, Some Tenant.globalReader = Some r →
           GetTemplateId r = Some "r3" →
           item = rowOf Tenant.assignments r.
Proof.
  apply (getAdCustomRole_returns_role_with_members Tenant.steady
           (Tenant.byId "r3") fresh (Some Tenant.globalReader)
           Tenant.assignments).
  - vm_compute. discriminate.
  - reflexivity.
  - reflexivity.
  - vm_compute. reflexivity.
  - reflexivity.
  - repeat constructor; eexists; reflexivity.
Defined.

(** ** Connection errors *)



(** ** Transforms on unusual hydrate items *)

(** Only [getCustomRoleMembers] and [getCustomRoleTitle] test the hydrate
    item for a nil pointer and answer [(nil, nil)]; the other five
    transforms panic on it.  When the item holds no role (a Get whose fetch
    gave a nil response), [getCustomRoleMembers] still returns the members
    and every other transform panics.  On a hydrate item of another dynamic
    type all seven transforms of the file panic. *)
Theorem transforms_on_missing_role (member_ids : slice string) :
  (getCustomRoleMembers (itemOf None) = Some (NilValue, None)
   ∧ getCustomRoleTitle (itemOf None) = Some (NilValue, None)
   ∧ Forall (λ transform, transform (itemOf None) = None)
       [getRoleId; getRoleDescripsion; getRoleDisplayName; getRoleTemplateId;
        getRolePermissions])
  ∧ (getCustomRoleMembers
       (itemOf (Some {| role := None; members := member_ids |}))
     = Some (StringsV member_ids, None)
     ∧ Forall (λ transform,
                 transform (itemOf (Some {| role := None;
                                            members := member_ids |})) = None)
         [getRoleId; getRoleDescripsion; getRoleDisplayName;
          getRoleTemplateId; getRolePermissions; getCustomRoleTitle])
  ∧ ∀ d, asRoleDefinition (HydrateItem d) = None →
      Forall (λ transform, transform d = None)
        [getRoleId; getRoleDescripsion; getRoleDisplayName;
         getRoleTemplateId; getCustomRoleMembers; getRolePermissions;
         getCustomRoleTitle].
Proof.
  split; [|split].
  - repeat split; repeat constructor.
  - repeat split; repeat constructor.
  - intros d Hd.
    repeat constructor;
      unfold getRoleId, getRoleDescripsion, getRoleDisplayName,
        getRoleTemplateId, getCustomRoleMembers, getRolePermissions,
        getCustomRoleTitle;
      by rewrite Hd.
Qed.

Lemma transforms_on_missing_role_witness :
  Forall (λ transform, transform {| HydrateItem := OtherItem |} = None)
    [getRoleId; getRoleDescripsion; getRoleDisplayName; getRoleTemplateId;
     getCustomRoleMembers; getRolePermissions; getCustomRoleTitle].
Proof.
  destruct (transforms_on_missing_role None) as (_ & _ & H).
  apply (H {| HydrateItem := OtherItem |}). reflexivity.
Defined.

(** The [title] column never panics on a hydrate item that holds a role
    and is consistent with the [display_name] and [id] columns: it is the
    display name whenever that column has a value, the id when only that
    column has one, and a nil pointer exactly when both of them panic. *)
Theorem title_follows_display_name_then_id (r : UnifiedRoleDefinition)
    (member_ids : slice string) :
  let d := itemOf (Some {| role := Some r; members := member_ids |}) in
  (∃ title, getCustomRoleTitle d = Some (StringPtrV title, None)
     ∧ (title = None
        ↔ getRoleDisplayName d = None ∧ getRoleId d = None))
  ∧ (∀ name, getRoleDisplayName d = Some (StringV name, None) →
       getCustomRoleTitle d = Some (StringPtrV (Some name), None))
  ∧ (∀ id, getRoleDisplayName d = None →
       getRoleId d = Some (StringV id, None) →
       getCustomRoleTitle d = Some (StringPtrV (Some id), None)).
Proof.
  intros d. subst d.
  unfold getCustomRoleTitle, getRoleDisplayName, getRoleId, itemOf.
  cbn [HydrateItem asRoleDefinition mbind option_bind role].
  destruct (GetDisplayName r) as [name|], (GetId r) as [id|];
    cbn [mbind option_bind]; (split; [|split]);
    try (eexists; split; [reflexivity|]); naive_solver.
Qed.

(** ** The two files, when no membership fetch fails *)

Lemma getAdCustomRole_agree (h : Host) (d : QueryData) (w : World) :
  (∀ n, graphClient h n = None) →
  (∀ n, (roleAssignments h n).2 = None) →
  (roleDefinitionById h (byIdCalls w)
     (GetStringValue (EqualsQuals d !! "id"))).2 = None →
  Azuread.getAdCustomRole h d w = Part000.getAdCustomRole h d w.
Proof.
  intros Hc Ha Hr.
  unfold Azuread.getAdCustomRole, Part000.getAdCustomRole.
  destruct (String.eqb (GetStringValue (EqualsQuals d !! "id")) "");
    [done|].
  run. rewrite Hc. run.
  change (byIdCalls (tickClient w)) with (byIdCalls w).
  destruct (roleDefinitionById h (byIdCalls w) _) as [customRole err].
  cbn in Hr. subst err. run. unfold bind.
  by rewrite (getMembersFromId_agree h Hc Ha).
Qed.

(** As long as the client is obtained and no assignments fetch reports an
    error, the two files behave identically, log included:
    [listAdCustomRoles] and [getMembersFromId] always, and
    [getAdCustomRole] unless its role fetch fails.  When that fetch fails,
    both return the object of [getErrorObject] and leave the same world
    but for the one log entry they add, which carries the same error under
    a different message and a different key. *)
Theorem files_agree_without_fetch_errors (h : Host) (d : QueryData)
    (w : World) (id : string) :
  (∀ n, graphClient h n = None) →
  (∀ n, (roleAssignments h n).2 = None) →
  Azuread.listAdCustomRoles h d w = Part000.listAdCustomRoles h d w
  ∧ Azuread.getMembersFromId h d id w = Part000.getMembersFromId h d id w
  ∧ ((roleDefinitionById h (byIdCalls w)
        (GetStringValue (EqualsQuals d !! "id"))).2 = None →
     Azuread.getAdCustomRole h d w = Part000.getAdCustomRole h d w)
  ∧ (∀ res e,
       roleDefinitionById h (byIdCalls w)
         (GetStringValue (EqualsQuals d !! "id")) = (res, Some e) →
       GetStringValue (EqualsQuals d !! "id") ≠ "" →
       Azuread.getAdCustomRole h d w
       = Done (None, Some (getErrorObject h e))
              (addLog {| log_message := "getAdDirectoryRole";
                         log_key := "get_directory_role_error";
                         log_error := Some (getErrorObject h e) |}
                      (tickById (tickClient w)))
       ∧ Part000.getAdCustomRole h d w
         = Done (None, Some (getErrorObject h e))
                (addLog {| log_message := "getCustomRole";
                           log_key := "get_custom_error";
                           log_error := Some (getErrorObject h e) |}
                        (tickById (tickClient w)))).
Proof.
  intros Hc Ha. split; [|split; [|split]].
  - by apply listAdCustomRoles_agree.
  - by apply getMembersFromId_agree.
  - by apply getAdCustomRole_agree.
  - intros res e Hr Hid.
    unfold Azuread.getAdCustomRole, Part000.getAdCustomRole.
    destruct (String.eqb_spec (GetStringValue (EqualsQuals d !! "id")) "")
      as [|_]; [done|].
    run. rewrite Hc. run.
    change (byIdCalls (tickClient w)) with (byIdCalls w). rewrite Hr. by run.
Qed.

Lemma files_agree_without_fetch_errors_witness :
  Azuread.listAdCustomRoles Tenant.limited Tenant.anyQuery fresh
  = Part000.listAdCustomRoles Tenant.limited Tenant.anyQuery fresh
  ∧ Azuread.getMembersFromId Tenant.limited Tenant.anyQuery "t2" fresh
    = Part000.getMembersFromId Tenant.limited Tenant.anyQuery "t2" fresh.
Proof.
  destruct (files_agree_without_fetch_errors Tenant.limited Tenant.anyQuery
              fresh "t2" (λ _, eq_refl) (λ _, eq_refl)) as (Hl & Hm & _).
  by split.
Defined.

(** ** A tenant without role assignments *)

Lemma Part000_listAdCustomRoles_roles_no_ids (h : Host) (d : QueryData)
    (roles : list UnifiedRoleDefinition) (w : World) :
  Forall (λ r, is_Some (GetIsBuiltIn r)) roles →
  ∃ v w',
    rangeM (Part000.listAdCustomRoles_role h d []) roles w = Done v w'
    ∧ (v = None ∨ v = Some (None, None))
    ∧ streamed w' = streamed w ∧ logged w' = logged w
    ∧ clientCalls w' = clientCalls w
    ∧ assignmentsCalls w' = assignmentsCalls w
    ∧ (remainingCalls w' ≤ remainingCalls w + length roles)%nat.
Proof.
  intros Hall. revert w. induction Hall as [|r roles [b Hb] _ IH]; intros w.
  - exists None, w. cbn. repeat split; auto; lia.
  - cbn [rangeM]. unfold Part000.listAdCustomRoles_role at 1.
    unfold Part000.listAdCustomRoles_rows. rewrite Hb, !run_bind. run.
    assert (Hrows : (if negb b
                     then rangeM (Part000.listAdCustomRoles_id h d r) []
                     else ret None) = ret None) by by destruct b.
    rewrite Hrows. run. rewrite run_bind. run.
    destruct (rowsRemaining h (remainingCalls w) (length (streamed w)) =? 0)%Z.
    + run. exists (Some (None, None)), (tickRemaining w).
      cbn. repeat split; auto; lia.
    + run. destruct (IH (tickRemaining w))
        as (v & w' & -> & Hv & Hs & Hl & Hc & Ha & Hr).
      exists v, w'. cbn in Hs, Hl, Hc, Ha, Hr. cbn [length].
      repeat split; auto; lia.
Qed.

(** When the assignments fetch of [listAdCustomRoles] comes back empty, the
    function of either file returns [(nil, nil)] without streaming or
    logging and without asking for the client or the assignments again,
    whatever the limit is and even for role definitions without a
    [templateId]: only their [isBuiltIn] flag is read. *)
Theorem listAdCustomRoles_without_assignments (h : Host) (d : QueryData)
    (w : World) (roles : list UnifiedRoleDefinition) :
  graphClient h (clientCalls w) = None →
  roleDefinitions h (definitionsCalls w) = (Some roles, None) →
  roleAssignments h (assignmentsCalls w) = (Some [], None) →
  Forall (λ r, is_Some (GetIsBuiltIn r)) roles →
  ∃ w',
    Azuread.listAdCustomRoles h d w = Done (None, None) w'
    ∧ Part000.listAdCustomRoles h d w = Done (None, None) w'
    ∧ streamed w' = streamed w ∧ logged w' = logged w
    ∧ clientCalls w' = S (clientCalls w)
    ∧ assignmentsCalls w' = S (assignmentsCalls w)
    ∧ (remainingCalls w' ≤ remainingCalls w + length roles)%nat.
Proof.
  intros Hc Hd Ha Hall.
  destruct (Part000_listAdCustomRoles_roles_no_ids h d roles
              (tickAssignments (tickDefinitions (tickClient w))) Hall)
    as (v & w' & Hrun & Hv & Hs & Hl & Hcl & Has & Hre).
  exists w'.
  assert (HP : Part000.listAdCustomRoles h d w = Done (None, None) w').
  { unfold Part000.listAdCustomRoles. run. rewrite Hc. run.
    change (definitionsCalls (tickClient w)) with (definitionsCalls w).
    rewrite Hd. run.
    change (assignmentsCalls (tickDefinitions (tickClient w)))
      with (assignmentsCalls w).
    rewrite Ha. run.
    change (listAdCustomRoles_ids []) with (Some ([] : list string)). run.
    rewrite (bind_Done _ _ _ _ _ Hrun). by destruct Hv as [->| ->]. }
  split; [|by repeat split].
  rewrite <- HP.
  unfold Azuread.listAdCustomRoles, Part000.listAdCustomRoles. run.
  rewrite Hc. run.
  change (definitionsCalls (tickClient w)) with (definitionsCalls w).
  rewrite Hd. run.
  change (assignmentsCalls (tickDefinitions (tickClient w)))
    with (assignmentsCalls w).
  rewrite Ha. run.
  change (listAdCustomRoles_ids []) with (Some ([] : list string)). run.
  unfold bind.
  rewrite (rangeM_ext (Azuread.listAdCustomRoles_role h d [])
                      (Part000.listAdCustomRoles_role h d [])); [done|].
  intros r w1.
  unfold Azuread.listAdCustomRoles_role, Part000.listAdCustomRoles_role,
    Azuread.listAdCustomRoles_rows, Part000.listAdCustomRoles_rows.
  rewrite !run_bind. by destruct (GetIsBuiltIn r) as [[|]|].
Qed.

Lemma listAdCustomRoles_without_assignments_witness :
  let h := {| graphClient := graphClient Tenant.limited;
              roleDefinitions := λ _,
                (Some [Tenant.helpdesk;
                       {| GetId := Some "r5"; GetDisplayName := None;
                          GetDescription := None; GetTemplateId := None;
                          GetIsBuiltIn := Some false;
                          GetRolePermissions := [] |}], None);
              roleAssignments := λ _, (Some [], None);
              roleDefinitionById := roleDefinitionById Tenant.limited;
              rowsRemaining := rowsRemaining Tenant.limited;
              getErrorObject := getErrorObject Tenant.limited |} in
  ∃ w',
    Azuread.listAdCustomRoles h Tenant.anyQuery fresh = Done (None, None) w'
    ∧ Part000.listAdCustomRoles h Tenant.anyQuery fresh
      = Done (None, None) w'
    ∧ streamed w' = streamed fresh ∧ logged w' = logged fresh
    ∧ clientCalls w' = S (clientCalls fresh)
    ∧ assignmentsCalls w' = S (assignmentsCalls fresh)
    ∧ (remainingCalls w' ≤ remainingCalls fresh + 2)%nat.
Proof.
  intros h.
  apply (listAdCustomRoles_without_assignments h Tenant.anyQuery fresh
           [Tenant.helpdesk;
            {| GetId := Some "r5"; GetDisplayName := None;
               GetDescription := None; GetTemplateId := None;
               GetIsBuiltIn := Some false; GetRolePermissions := [] |}]).
  - reflexivity.
  - reflexivity.
  - reflexivity.
  - repeat constructor; eexists; reflexivity.
Defined.

(** ** Errors and the log *)

Lemma rangeM_failsLoudly {A : Type} (body : A → M (option hydrated))
    (l : list A) (w : World) :
  (∀ x w, failsLoudly (body x w)) → failsLoudly (rangeM body l w).
Proof.
  intros Hbody. revert w. induction l as [|x l IH]; intros w; [done|].
  cbn [rangeM]. unfold bind. pose proof (Hbody x w) as Hx.
  destruct (body x w) as [[v|] w1|w1]; [done|apply IH|done].
Qed.

Lemma rangeM_quiet {A : Type} (body : A → M (option hydrated))
    (l : list A) (w : World) :
  (∀ x w, quiet (body x w) w) → quiet (rangeM body l w) w.
Proof.
  intros Hbody. revert w. induction l as [|x l IH]; intros w; [done|].
  cbn [rangeM]. unfold bind. pose proof (Hbody x w) as Hx.
  destruct (body x w) as [[v|] w1|w1]; [done| |done].
  cbn in Hx. pose proof (IH w1) as Hrest. unfold quiet in *.
  destruct (rangeM body l w1) as [[[v [e|]]|] w2|w2]; congruence.
Qed.

Lemma Azuread_getMembersFromId_error (h : Host) (d : QueryData) (id : string)
    (w w' : World) (v : slice string) (e : ErrorObject) :
  Azuread.getMembersFromId h d id w = Done (v, Some e) w' →
  v = None ∧ log_error <$> last (logged w') = Some (Some e).
Proof.
  unfold Azuread.getMembersFromId. run.
  destruct (graphClient h (clientCalls w)) as [err|]; run.
  - intros [= <- <- <-]. split; [done|apply last_snoc_log].
  - destruct (roleAssignments h _) as [[value|] [e0|]]; run; try done;
      by destruct (getMembersFromId_loop id value).
Qed.

Lemma Part000_getMembersFromId_error (h : Host) (d : QueryData) (id : string)
    (w w' : World) (v : slice string) (e : ErrorObject) :
  Part000.getMembersFromId h d id w = Done (v, Some e) w' →
  v = None ∧ log_error <$> last (logged w') = Some (Some e).
Proof.
  unfold Part000.getMembersFromId. run.
  destruct (graphClient h (clientCalls w)) as [err|]; run.
  - intros [= <- <- <-]. split; [done|apply last_snoc_log].
  - destruct (roleAssignments h _) as [[value|] [e0|]]; run; try done.
    + intros [= <- <- <-]. split; [done|apply last_snoc_log].
    + by destruct (getMembersFromId_loop id value).
    + intros [= <- <- <-]. split; [done|apply last_snoc_log].
Qed.

Lemma Part000_getMembersFromId_quiet (h : Host) (d : QueryData) (id : string)
    (w w' : World) (v : slice string) :
  Part000.getMembersFromId h d id w = Done (v, None) w' →
  logged w' = logged w.
Proof.
  unfold Part000.getMembersFromId. run.
  destruct (graphClient h (clientCalls w)) as [err|]; run; [done|].
  destruct (roleAssignments h _) as [[value|] [e0|]]; run; try done.
  destruct (getMembersFromId_loop id value); run; [|done].
  by intros [= <- <-].
Qed.

Lemma Azuread_listAdCustomRoles_id_failsLoudly (h : Host) (d : QueryData)
    (customRole : UnifiedRoleDefinition) (id : string) (w : World) :
  failsLoudly (Azuread.listAdCustomRoles_id h d customRole id w).
Proof.
  unfold Azuread.listAdCustomRoles_id.
  destruct (GetTemplateId customRole) as [t|]; run; [|done].
  destruct (String.eqb id t); [|done]. unfold bind at 1.
  destruct (Azuread.getMembersFromId h d id w) as [[m [e|]] w1|w1]; by run.
Qed.

Lemma Part000_listAdCustomRoles_id_failsLoudly (h : Host) (d : QueryData)
    (customRole : UnifiedRoleDefinition) (id : string) (w : World) :
  failsLoudly (Part000.listAdCustomRoles_id h d customRole id w).
Proof.
  unfold Part000.listAdCustomRoles_id.
  destruct (GetTemplateId customRole) as [t|]; run; [|done].
  destruct (String.eqb id t); [|done]. unfold bind at 1.
  destruct (Part000.getMembersFromId h d id w) as [[m [e|]] w1|w1];
    run; try done.
  split; [done|apply last_snoc_log].
Qed.

Lemma Part000_listAdCustomRoles_id_quiet (h : Host) (d : QueryData)
    (customRole : UnifiedRoleDefinition) (id : string) (w : World) :
  quiet (Part000.listAdCustomRoles_id h d customRole id w) w.
Proof.
  unfold Part000.listAdCustomRoles_id.
  destruct (GetTemplateId customRole) as [t|]; run; [|done].
  destruct (String.eqb id t); [|done]. unfold bind at 1.
  destruct (Part000.getMembersFromId h d id w) as [[m [e|]] w1|w1] eqn:Hm;
    run; try done.
  cbn. by apply Part000_getMembersFromId_quiet in Hm.
Qed.

(** The limit check neither logs nor returns an error. *)
Lemma check_failsLoudly (h : Host) (o : outcome (option hydrated)) :
  failsLoudly o →
  failsLoudly
    (match o with
     | Done r w1 =>
         match r with
         | Some v => ret (Some v)
         | None =>
             bind (RowsRemaining h)
               (λ n, if (n =? 0)%Z then ret (Some (None, None)) else ret None)
         end w1
     | Panic w1 => Panic w1
     end).
Proof.
  destruct o as [[v|] w1|w1]; [done| |done]. intros _. run.
  by destruct (rowsRemaining h (remainingCalls w1) (length (streamed w1))
               =? 0)%Z.
Qed.

Lemma check_quiet (h : Host) (o : outcome (option hydrated)) (w : World) :
  quiet o w →
  quiet
    (match o with
     | Done r w1 =>
         match r with
         | Some v => ret (Some v)
         | None =>
             bind (RowsRemaining h)
               (λ n, if (n =? 0)%Z then ret (Some (None, None)) else ret None)
         end w1
     | Panic w1 => Panic w1
     end) w.
Proof.
  destruct o as [[v|] w1|w1]; [done| |done]. intros Hq. run.
  by destruct (rowsRemaining h (remainingCalls w1) (length (streamed w1))
               =? 0)%Z.
Qed.

Lemma Azuread_listAdCustomRoles_role_failsLoudly (h : Host) (d : QueryData)
    (ids : list string) (customRole : UnifiedRoleDefinition) (w : World) :
  failsLoudly (Azuread.listAdCustomRoles_role h d ids customRole w).
Proof.
  apply (check_failsLoudly h
           (Azuread.listAdCustomRoles_rows h d ids customRole w)).
  unfold Azuread.listAdCustomRoles_rows.
  destruct (GetIsBuiltIn customRole) as [[|]|]; run; [done| |done].
  apply rangeM_failsLoudly. intros.
  apply Azuread_listAdCustomRoles_id_failsLoudly.
Qed.

Lemma Part000_listAdCustomRoles_role_failsLoudly (h : Host) (d : QueryData)
    (ids : list string) (customRole : UnifiedRoleDefinition) (w : World) :
  failsLoudly (Part000.listAdCustomRoles_role h d ids customRole w).
Proof.
  apply (check_failsLoudly h
           (Part000.listAdCustomRoles_rows h d ids customRole w)).
  unfold Part000.listAdCustomRoles_rows.
  destruct (GetIsBuiltIn customRole) as [[|]|]; run; [done| |done].
  apply rangeM_failsLoudly. intros.
  apply Part000_listAdCustomRoles_id_failsLoudly.
Qed.

Lemma Part000_listAdCustomRoles_role_quiet (h : Host) (d : QueryData)
    (ids : list string) (customRole : UnifiedRoleDefinition) (w : World) :
  quiet (Part000.listAdCustomRoles_role h d ids customRole w) w.
Proof.
  apply (check_quiet h
           (Part000.listAdCustomRoles_rows h d ids customRole w)).
  unfold Part000.listAdCustomRoles_rows.
  destruct (GetIsBuiltIn customRole) as [[|]|]; run; [done| |done].
  apply rangeM_quiet. intros.
  apply Part000_listAdCustomRoles_id_quiet.
Qed.

Ltac list_loud role_failsLoudly h w :=
  run; destruct (graphClient h (clientCalls w)) as [err|]; run;
    [split; [done|apply last_snoc_log]|];
  destruct (roleDefinitions h _) as [result [e|]]; run;
    [split; [done|apply last_snoc_log]|];
  destruct (roleAssignments h _) as [res [e|]]; run;
    [split; [done|apply last_snoc_log]|];
  destruct res as [assignments|]; run; [|done];
  destruct (listAdCustomRoles_ids assignments) as [ids|]; run; [|done];
  destruct result as [roles|]; run; [|done];
  match goal with
  | |- context [bind (rangeM ?body roles) _ ?w0] =>
      pose proof (rangeM_failsLoudly body roles w0
                    (λ r w1, role_failsLoudly h _ ids r w1)) as Hloop;
      unfold bind;
      destruct (rangeM body roles w0) as [[[v [e|]]|] w1|w1]; done
  end.

Lemma Azuread_listAdCustomRoles_errorsLogged (h : Host) (d : QueryData)
    (w : World) :
  errorsLogged (Azuread.listAdCustomRoles h d w).
Proof.
  unfold Azuread.listAdCustomRoles.
  list_loud Azuread_listAdCustomRoles_role_failsLoudly h w.
Qed.

Lemma Part000_listAdCustomRoles_errorsLogged (h : Host) (d : QueryData)
    (w : World) :
  errorsLogged (Part000.listAdCustomRoles h d w).
Proof.
  unfold Part000.listAdCustomRoles.
  list_loud Part000_listAdCustomRoles_role_failsLoudly h w.
Qed.

Ltac list_nil role_failsLoudly h w :=
  run; destruct (graphClient h (clientCalls w)) as [?|]; run;
    [unfold ret; congruence|];
  destruct (roleDefinitions h _) as [result [?|]]; run; [unfold ret; congruence|];
  destruct (roleAssignments h _) as [res [?|]]; run; [unfold ret; congruence|];
  destruct res as [assignments|]; run; [|done];
  destruct (listAdCustomRoles_ids assignments) as [ids|]; run; [|done];
  destruct result as [roles|]; run; [|done];
  match goal with
  | |- context [bind (rangeM ?body roles) _ ?w0] =>
      let Hloop := fresh "Hloop" in
      pose proof (rangeM_failsLoudly body roles w0
                    (λ r w1, role_failsLoudly h _ ids r w1)) as Hloop;
      unfold bind;
      destruct (rangeM body roles w0) as [[[? [?|]]|] ?|?];
        cbn in Hloop |- *; unfold ret; [| | |done]; intros; simplify_eq;
        tauto
  end.

Lemma Azuread_listAdCustomRoles_nil (h : Host) (d : QueryData)
    (w w' : World) (v : ptr RoleDefinition) (err : error) :
  Azuread.listAdCustomRoles h d w = Done (v, err) w' → v = None.
Proof.
  unfold Azuread.listAdCustomRoles.
  list_nil Azuread_listAdCustomRoles_role_failsLoudly h w.
Qed.

Lemma Part000_listAdCustomRoles_nil (h : Host) (d : QueryData)
    (w w' : World) (v : ptr RoleDefinition) (err : error) :
  Part000.listAdCustomRoles h d w = Done (v, err) w' → v = None.
Proof.
  unfold Part000.listAdCustomRoles.
  list_nil Part000_listAdCustomRoles_role_failsLoudly h w.
Qed.

Lemma Azuread_getMembersFromId_errorsLogged (h : Host) (d : QueryData)
    (id : string) (w : World) :
  errorsLogged (Azuread.getMembersFromId h d id w).
Proof.
  unfold errorsLogged.
  destruct (Azuread.getMembersFromId h d id w) as [[v [e|]] w'|w'] eqn:Hm;
    [|done|done].
  by apply Azuread_getMembersFromId_error in Hm.
Qed.

Lemma Part000_getMembersFromId_errorsLogged (h : Host) (d : QueryData)
    (id : string) (w : World) :
  errorsLogged (Part000.getMembersFromId h d id w).
Proof.
  unfold errorsLogged.
  destruct (Part000.getMembersFromId h d id w) as [[v [e|]] w'|w'] eqn:Hm;
    [|done|done].
  by apply Part000_getMembersFromId_error in Hm.
Qed.

Lemma Azuread_getAdCustomRole_errorsLogged (h : Host) (d : QueryData)
    (w : World) :
  errorsLogged (Azuread.getAdCustomRole h d w).
Proof.
  unfold Azuread.getAdCustomRole.
  destruct (String.eqb _ ""); [done|]. run.
  destruct (graphClient h (clientCalls w)) as [err|]; run;
    [split; [done|apply last_snoc_log]|].
  destruct (roleDefinitionById h _ _) as [customRole [e|]]; run;
    [split; [done|apply last_snoc_log]|].
  unfold bind at 1.
  destruct (Azuread.getMembersFromId h d _ _) as [[m [e|]] w1|w1];
    run; [|done|done].
  split; [done|apply last_snoc_log].
Qed.

Lemma Part000_getAdCustomRole_errorsLogged (h : Host) (d : QueryData)
    (w : World) :
  errorsLogged (Part000.getAdCustomRole h d w).
Proof.
  unfold Part000.getAdCustomRole.
  destruct (String.eqb _ ""); [done|]. run.
  destruct (graphClient h (clientCalls w)) as [err|]; run;
    [split; [done|apply last_snoc_log]|].
  destruct (roleDefinitionById h _ _) as [customRole [e|]]; run;
    [split; [done|apply last_snoc_log]|].
  unfold bind at 1.
  destruct (Part000.getMembersFromId h d _ _) as [[m [e|]] w1|w1];
    run; [|done|done].
  split; [done|apply last_snoc_log].
Qed.

(** On every run, in either file: when [listAdCustomRoles],
    [getAdCustomRole] or [getMembersFromId] returns an error, the result
    beside it is nil and the error is the one of the last log entry; and
    [listAdCustomRoles] never returns anything but a nil result (its rows
    only leave through [d.StreamListItem]). *)
Theorem returned_errors_are_logged (h : Host) (d : QueryData) (w : World)
    (id : string) :
  errorsLogged (Azuread.listAdCustomRoles h d w)
  ∧ errorsLogged (Part000.listAdCustomRoles h d w)
  ∧ errorsLogged (Azuread.getAdCustomRole h d w)
  ∧ errorsLogged (Part000.getAdCustomRole h d w)
  ∧ errorsLogged (Azuread.getMembersFromId h d id w)
  ∧ errorsLogged (Part000.getMembersFromId h d id w)
  ∧ (∀ v err w', Azuread.listAdCustomRoles h d w = Done (v, err) w' →
                 v = None)
  ∧ (∀ v err w', Part000.listAdCustomRoles h d w = Done (v, err) w' →
                 v = None).
Proof.
  split; [apply Azuread_listAdCustomRoles_errorsLogged|].
  split; [apply Part000_listAdCustomRoles_errorsLogged|].
  split; [apply Azuread_getAdCustomRole_errorsLogged|].
  split; [apply Part000_getAdCustomRole_errorsLogged|].
  split; [apply Azuread_getMembersFromId_errorsLogged|].
  split; [apply Part000_getMembersFromId_errorsLogged|].
  split; intros v err w'.
  - apply Azuread_listAdCustomRoles_nil.
  - apply Part000_listAdCustomRoles_nil.
Qed.

Lemma Part000_listAdCustomRoles_silent (h : Host) (d : QueryData)
    (w : World) :
  silent (Part000.listAdCustomRoles h d w) w.
Proof.
  unfold Part000.listAdCustomRoles. run.
  destruct (graphClient h (clientCalls w)) as [err|]; run; [done|].
  destruct (roleDefinitions h _) as [result [e|]]; run; [done|].
  destruct (roleAssignments h _) as [res [e|]]; run; [done|].
  destruct res as [assignments|]; run; [|done].
  destruct (listAdCustomRoles_ids assignments) as [ids|]; run; [|done].
  destruct result as [roles|]; run; [|done].
  pose proof (rangeM_quiet (Part000.listAdCustomRoles_role h d ids) roles
                (tickAssignments (tickDefinitions (tickClient w)))
                (λ r w1, Part000_listAdCustomRoles_role_quiet h d ids r w1))
    as Hloop.
  unfold bind.
  destruct (rangeM _ roles _) as [[[v [e|]]|] w1|w1]; done.
Qed.

Lemma Part000_getAdCustomRole_silent (h : Host) (d : QueryData) (w : World) :
  silent (Part000.getAdCustomRole h d w) w.
Proof.
  unfold Part000.getAdCustomRole.
  destruct (String.eqb _ ""); [done|]. run.
  destruct (graphClient h (clientCalls w)) as [err|]; run; [done|].
  destruct (roleDefinitionById h _ _) as [customRole [e|]]; run; [done|].
  unfold bind at 1.
  destruct (Part000.getMembersFromId h d _ _) as [[m [e|]] w1|w1] eqn:Hm;
    run; [done| |done].
  cbn. by apply Part000_getMembersFromId_quiet in Hm.
Qed.

(** In part_000 a run that returns without error has logged nothing: the
    three functions log exactly when they fail. *)
Theorem Part000_logs_only_when_it_fails (h : Host) (d : QueryData)
    (w : World) (id : string) :
  silent (Part000.listAdCustomRoles h d w) w
  ∧ silent (Part000.getAdCustomRole h d w) w
  ∧ silent (Part000.getMembersFromId h d id w) w.
Proof.
  split; [apply Part000_listAdCustomRoles_silent|].
  split; [apply Part000_getAdCustomRole_silent|].
  unfold silent.
  destruct (Part000.getMembersFromId h d id w) as [[v [e|]] w'|w'] eqn:Hm;
    [done| |done].
  by apply Part000_getMembersFromId_quiet in Hm.
Qed.

(** The other file differs: when the client is lost after the first call,
    its [listAdCustomRoles] logs the connection error of every membership
    fetch, streams the rows with nil members all the same and returns no
    error. *)
Example Azuread_logs_without_failing :
  ∃ w',
    Azuread.listAdCustomRoles clientLost Tenant.anyQuery fresh
    = Done (None, None) w'
    ∧ log_key <$> logged w' = ["connection_error"; "connection_error"]
    ∧ streamed w'
      = [ {| role := Some Tenant.helpdesk; members := None |};
          {| role := Some Tenant.auditor; members := None |} ].
Proof. eexists. split; [vm_compute; reflexivity|]. by split. Qed.

(** * The claims that speak of whole runs *)

(** C4 as stated fails: the response holds one assignment for "t1" and one
    assignment of another role without a principal id.  The distinct
    principals of "t1" are well defined, but [getMembersFromId] of either
    file dereferences the nil principal id and panics. *)
Lemma getMembersFromId_nil_principal_counterexample :
  let response :=
    [ Tenant.assign "t1" "alice";
      {| GetRoleDefinitionId := Some "t2"; GetPrincipalId := None |} ] in
  let h := {| graphClient := graphClient Tenant.steady;
              roleDefinitions := roleDefinitions Tenant.steady;
              roleAssignments := λ _, (Some response, None);
              roleDefinitionById := roleDefinitionById Tenant.steady;
              rowsRemaining := rowsRemaining Tenant.steady;
              getErrorObject := getErrorObject Tenant.steady |} in
  distinct (principalIdsOf "t1" response) = ["alice"]
  ∧ Azuread.getMembersFromId h Tenant.anyQuery "t1" fresh
    = Panic (afterMembers fresh)
  ∧ Part000.getMembersFromId h Tenant.anyQuery "t1" fresh
    = Panic (afterMembers fresh).
Proof. repeat split; vm_compute; reflexivity. Qed.

(** ** Loops, cut in two *)

Lemma rangeM_app {A R : Type} (body : A → M (option R)) (l1 l2 : list A)
    (w : World) :
  rangeM body (l1 ++ l2) w
  = match rangeM body l1 w with
    | Done None w1 => rangeM body l2 w1
    | o => o
    end.
Proof.
  revert w. induction l1 as [|x l1 IH]; intros w; [done|].
  cbn [app rangeM]. unfold bind.
  destruct (body x w) as [[v|] w1|w1]; [done|apply IH|done].
Qed.






Lemma bind_cases {A B : Type} (m : M A) (k : A → M B) (w : World) :
  bind m k w
  = match m w with
    | Done a w' => k a w'
    | Panic w' => Panic w'
    end.
Proof. reflexivity. Qed.

Section Cut.
Context {A : Type} (h : Host) (rows : A → M (option hydrated))
        (f : A → list (ptr UnifiedRoleDefinition)).
Hypothesis rows_no_check :
  ∀ x w, remainingCalls (after (rows x w)) = remainingCalls w.
Hypothesis rows_streams : ∀ x w, streams (rows x w) w (f x).


End Cut.










Example listAdCustomRoles_limit_two :
  role <$> streamed
             (after (Part000.listAdCustomRoles limitedToTwo Tenant.anyQuery
                       fresh))
  = [Some Tenant.helpdesk; Some Tenant.auditor]
  ∧ role <$> streamed
               (after (Azuread.listAdCustomRoles limitedToTwo Tenant.anyQuery
                         fresh))
    = [Some Tenant.helpdesk; Some Tenant.auditor].
Proof. split; vm_compute; reflexivity. Qed.

(** ** The list function of part_000 up to a failed membership fetch *)

Section UpToFailure.
Context (h : Host).
Hypothesis client_ok : ∀ n, graphClient h n = None.
Hypothesis rows_remain : ∀ k n, rowsRemaining h k n ≠ 0%Z.

Lemma Part000_ids_loop_fetched (d : QueryData)
    (customRole : UnifiedRoleDefinition) (t : string) (ids : list string)
    (w : World) :
  GetTemplateId customRole = Some t → NoDup ids →
  (t ∈ ids →
   ∃ l, roleAssignments h (assignmentsCalls w) = (Some l, None) ∧ has_ids l) →
  ∃ rows w',
    rangeM (Part000.listAdCustomRoles_id h d customRole) ids w = Done None w'
    ∧ grows w w' rows 0
    ∧ role <$> rows
      = (if bool_decide (t ∈ ids) then [Some customRole] else []).
Proof.
  intros Ht Hnd. revert w.
  induction Hnd as [|id ids Hnin Hnd IH]; intros w Hfetch.
  - exists [], w. rewrite bool_decide_elem_of_nil.
    split; [done|]. split; [apply grows_refl|done].
  - cbn [rangeM]. destruct (decide (id = t)) as [->|Hne].
    + destruct Hfetch as (l & Hl & Hids); [left|].
      pose proof (getMembersFromId_loop_memberSlice t l Hids) as Hloop.
      assert (Hhit : Part000.listAdCustomRoles_id h d customRole t w
        = Done None (addRow {| role := Some customRole;
                               members := memberSlice t l |}
                            (afterMembers w))).
      { unfold Part000.listAdCustomRoles_id. rewrite Ht. run.
        rewrite String.eqb_refl.
        rewrite (bind_Done _ _ _ _ _
                   (Part000_getMembersFromId_ok h d t w l _
                      (client_ok _) Hl Hloop)).
        by run. }
      rewrite (bind_Done _ _ _ _ _ Hhit). cbn beta iota.
      destruct (IH (addRow {| role := Some customRole;
                              members := memberSlice t l |}
                           (afterMembers w)))
        as (rows & w' & -> & Hg & Hr); [done|].
      rewrite (bool_decide_eq_false_2 (t ∈ ids)) in Hr by done.
      eexists (_ :: rows), w'. split; [done|].
      rewrite (bool_decide_eq_true_2 (t ∈ t :: ids)) by left.
      split; [exact (grows_trans _ _ _ _ _ _ _ (grows_row w _) Hg)|].
      by rewrite fmap_cons, Hr.
    + rewrite (bind_Done _ _ _ _ _
                 (Part000_listAdCustomRoles_id_miss h d customRole t id w
                    Ht Hne)).
      cbn beta iota. destruct (IH w) as (rows & w' & -> & Hg & Hr).
      { intros Hin. apply Hfetch. by right. }
      exists rows, w'. split; [done|]. split; [done|].
      rewrite (bool_decide_ext (t ∈ id :: ids) (t ∈ ids)); [done|].
      rewrite elem_of_cons. naive_solver.
Qed.

Lemma Part000_role_fetched (d : QueryData) (ids : list string)
    (customRole : UnifiedRoleDefinition) (w : World) :
  is_Some (GetIsBuiltIn customRole) → is_Some (GetTemplateId customRole) →
  NoDup ids →
  (selects ids customRole = true →
   ∃ l, roleAssignments h (assignmentsCalls w) = (Some l, None) ∧ has_ids l) →
  ∃ rows w',
    Part000.listAdCustomRoles_role h d ids customRole w = Done None w'
    ∧ grows w w' rows 1
    ∧ role <$> rows
      = (if selects ids customRole then [Some customRole] else []).
Proof.
  intros [b Hb] [t Ht] Hnd.
  unfold Part000.listAdCustomRoles_role, Part000.listAdCustomRoles_rows,
    selects.
  rewrite Hb, Ht, run_bind. run.
  assert (Hcheck : ∀ w1 : World,
    bind (RowsRemaining h)
         (λ n, if (n =? 0)%Z then ret (Some (None, None)) else ret None) w1
    = Done (None : option (option RoleDefinition * option ErrorObject))
           (tickRemaining w1)).
  { intros w1. run. destruct (Z.eqb_spec (rowsRemaining h (remainingCalls w1)
      (length (streamed w1))) 0) as [H0|_]; [|done]. by apply rows_remain in H0. }
  destruct b; cbn [negb]; intros Hfetch.
  - exists [], (tickRemaining w). rewrite run_ret. cbn beta iota.
    rewrite Hcheck. split; [done|]. split; [apply grows_check|done].
  - destruct (Part000_ids_loop_fetched d customRole t ids w Ht Hnd)
      as (rows & w1 & Hrun & Hg & Hr).
    { intros Hin. apply Hfetch. by apply bool_decide_eq_true. }
    exists rows, (tickRemaining w1).
    rewrite (bind_Done _ _ _ _ _ Hrun). cbn beta iota. rewrite Hcheck.
    split; [done|]. split; [|done].
    pose proof (grows_trans _ _ _ _ _ _ _ Hg (grows_check w1)) as Hg'.
    by rewrite app_nil_r in Hg'.
Qed.

Lemma Part000_roles_fetched (d : QueryData) (ids : list string)
    (roles : list UnifiedRoleDefinition) (w : World) :
  has_flags roles → NoDup ids →
  (∀ j, j < length (filter (λ r, selects ids r = true) roles) →
        ∃ l, roleAssignments h (assignmentsCalls w + j) = (Some l, None)
             ∧ has_ids l) →
  ∃ rows w',
    rangeM (Part000.listAdCustomRoles_role h d ids) roles w = Done None w'
    ∧ grows w w' rows (length roles)
    ∧ role <$> rows = Some <$> filter (λ r, selects ids r = true) roles.
Proof.
  intros Hflags Hnd. revert w.
  induction Hflags as [|r roles [Hb Ht] _ IH]; intros w Hfetch.
  - exists [], w. split; [done|]. split; [apply grows_refl|done].
  - rewrite filter_cons in Hfetch.
    destruct (Part000_role_fetched d ids r w Hb Ht Hnd)
      as (rows1 & w1 & Hrun & Hg1 & Hr1).
    { intros Hsel. rewrite decide_True in Hfetch by done.
      destruct (Hfetch 0) as (l & Hl & Hids); [cbn; lia|].
      rewrite Nat.add_0_r in Hl. eauto. }
    assert (Hlen : length rows1
                   = if selects ids r then 1 else 0).
    { rewrite <- (length_fmap role), Hr1. by destruct (selects ids r). }
    destruct (IH w1) as (rows2 & w' & Hrest & Hg2 & Hr2).
    { intros j Hj. destruct Hg1 as (_ & _ & _ & Ha1 & _). rewrite Ha1, Hlen.
      destruct (selects ids r) eqn:Hsel.
      - rewrite decide_True in Hfetch by done.
        destruct (Hfetch (S j)) as (l & Hl & Hids); [cbn; lia|].
        exists l. split; [|done]. rewrite <- Hl. f_equal. lia.
      - rewrite decide_False in Hfetch by done.
        destruct (Hfetch j Hj) as (l & Hl & Hids).
        exists l. split; [|done]. rewrite <- Hl. f_equal. lia. }
    exists (rows1 ++ rows2), w'. cbn [rangeM].
    rewrite (bind_Done _ _ _ _ _ Hrun). cbn beta iota.
    split; [done|]. split.
    + exact (grows_trans _ _ _ _ _ _ _ Hg1 Hg2).
    + rewrite fmap_app, Hr1, Hr2, filter_cons.
      by destruct (selects ids r).
Qed.
End UpToFailure.

Lemma assignedCustomRole_fields (assignments : list UnifiedRoleAssignment)
    (r : UnifiedRoleDefinition) :
  assignedCustomRole assignments r = true →
  GetIsBuiltIn r = Some false
  ∧ ∃ t, GetTemplateId r = Some t
         ∧ t ∈ distinct (roleDefinitionIds assignments).
Proof.
  unfold assignedCustomRole, selects.
  destruct (GetIsBuiltIn r) as [[|]|]; try done.
  destruct (GetTemplateId r) as [t|]; [|done].
  intros Hin%bool_decide_eq_true. split; [done|]. exists t.
  by rewrite elem_of_distinct.
Qed.

(** In part_000, [listAdCustomRoles] reaches an assigned custom role whose
    membership fetch fails, all earlier membership fetches having
    succeeded. *)
Lemma Part000_listAdCustomRoles_members_fail (h : Host) (d : QueryData)
    (w : World) (e : ErrorObject) (pre : list UnifiedRoleDefinition)
    (customRole : UnifiedRoleDefinition) (rest : list UnifiedRoleDefinition)
    (assignments : list UnifiedRoleAssignment)
    (res : ptr (list UnifiedRoleAssignment)) :
  (∀ n, graphClient h n = None) →
  (∀ k n, rowsRemaining h k n ≠ 0%Z) →
  roleDefinitions h (definitionsCalls w)
  = (Some (pre ++ customRole :: rest), None) →
  roleAssignments h (assignmentsCalls w) = (Some assignments, None) →
  has_role_ids assignments →
  has_flags pre →
  (∀ j, j < length (filter (λ r, assignedCustomRole assignments r = true) pre)
        → ∃ l, roleAssignments h (S (assignmentsCalls w) + j) = (Some l, None)
               ∧ has_ids l) →
  roleAssignments h
    (S (assignmentsCalls w)
     + length (filter (λ r, assignedCustomRole assignments r = true) pre))
  = (res, Some e) →
  assignedCustomRole assignments customRole = true →
  ∃ rows w',
    Part000.listAdCustomRoles h d w
    = Done (None, Some (getErrorObject h (getErrorObject h e))) w'
    ∧ streamed w' = streamed w ++ rows
    ∧ role <$> rows
      = Some <$> filter (λ r, assignedCustomRole assignments r = true) pre
    ∧ log_error <$> last (logged w')
      = Some (Some (getErrorObject h (getErrorObject h e))).
Proof.
  intros Hc Hrem Hd Ha Hids Hflags Hfetch Hfail Hsel.
  destruct (listAdCustomRoles_ids_distinct assignments Hids)
    as (ids & Hloop & -> & Hnd & _).
  set (ids := distinct (roleDefinitionIds assignments)) in *.
  set (w0 := tickAssignments (tickDefinitions (tickClient w))).
  rewrite <- (selected_roles_assigned assignments pre) in Hfetch, Hfail.
  fold ids in Hfetch, Hfail.
  destruct (Part000_roles_fetched h Hc Hrem d ids pre w0 Hflags Hnd)
    as (rows & w1 & Hrun & Hg & Hr).
  { intros j Hj. destruct (Hfetch j Hj) as (l & Hl & Hl'). by exists l. }
  destruct Hg as (Hs1 & Hl1 & _ & Ha1 & _).
  assert (Hlen : length rows
                 = length (filter (λ r, selects ids r = true) pre)).
  { by rewrite <- (length_fmap role), Hr, length_fmap. }
  destruct (assignedCustomRole_fields assignments customRole Hsel)
    as (Hb & t & Ht & Hin).
  destruct (Part000_listAdCustomRoles_roles_fail h d w1 e (Hc _) customRole t
              ids rest res Hb Ht Hin) as (w' & Hrun' & Hs' & Hl').
  { rewrite Ha1, Hlen. exact Hfail. }
  exists rows, w'. split; [|split; [|split]].
  - unfold Part000.listAdCustomRoles. run. rewrite Hc. run.
    change (definitionsCalls (tickClient w)) with (definitionsCalls w).
    rewrite Hd. run.
    change (assignmentsCalls (tickDefinitions (tickClient w)))
      with (assignmentsCalls w).
    rewrite Ha. run. rewrite Hloop. run. fold ids w0.
    rewrite bind_cases, rangeM_app, Hrun, Hrun'. done.
  - by rewrite Hs', Hs1.
  - subst ids. by rewrite <- selected_roles_assigned.
  - done.
Qed.

(** C2, amended: when a Graph call made directly by [listAdCustomRoles]
    (the role definitions or the role assignments fetch) or by
    [getAdCustomRole] (the role fetch) fails, the function of either file
    logs the object made by [getErrorObject] from the SDK error and returns
    it as the error, with a nil result and without streaming a row.  In
    part_000 the same holds for the assignments fetch of [getMembersFromId];
    [getAdCustomRole] and [listAdCustomRoles] then pass the error they get
    from [getMembersFromId] through [getErrorObject] once more, log that
    object and return it with a nil result.  [listAdCustomRoles] streams no
    row for the role definition at hand nor for any later one, while the
    rows of the earlier assigned custom roles have been streamed. *)
Theorem failed_graph_call_is_logged_and_returned (h : Host) (d : QueryData)
    (w : World) (e : ErrorObject) :
  graphClient h (clientCalls w) = None →
  (∀ res, roleDefinitions h (definitionsCalls w) = (res, Some e) →
     reports (getErrorObject h e) w (Azuread.listAdCustomRoles h d w)
     ∧ reports (getErrorObject h e) w (Part000.listAdCustomRoles h d w))
  ∧ (∀ result res,
       roleDefinitions h (definitionsCalls w) = (result, None) →
       roleAssignments h (assignmentsCalls w) = (res, Some e) →
       reports (getErrorObject h e) w (Azuread.listAdCustomRoles h d w)
       ∧ reports (getErrorObject h e) w (Part000.listAdCustomRoles h d w))
  ∧ (∀ res,
       GetStringValue (EqualsQuals d !! "id") ≠ "" →
       roleDefinitionById h (byIdCalls w)
         (GetStringValue (EqualsQuals d !! "id")) = (res, Some e) →
       reports (getErrorObject h e) w (Azuread.getAdCustomRole h d w)
       ∧ reports (getErrorObject h e) w (Part000.getAdCustomRole h d w))
  ∧ (∀ id res,
       roleAssignments h (assignmentsCalls w) = (res, Some e) →
       reports (getErrorObject h e) w (Part000.getMembersFromId h d id w))
  ∧ (∀ customRole res,
       GetStringValue (EqualsQuals d !! "id") ≠ "" →
       roleDefinitionById h (byIdCalls w)
         (GetStringValue (EqualsQuals d !! "id")) = (customRole, None) →
       graphClient h (S (clientCalls w)) = None →
       roleAssignments h (assignmentsCalls w) = (res, Some e) →
       reports (getErrorObject h (getErrorObject h e)) w
               (Part000.getAdCustomRole h d w))
  ∧ (∀ pre customRole rest assignments res,
       (∀ n, graphClient h n = None) →
       (∀ k n, rowsRemaining h k n ≠ 0%Z) →
       roleDefinitions h (definitionsCalls w)
       = (Some (pre ++ customRole :: rest), None) →
       roleAssignments h (assignmentsCalls w) = (Some assignments, None) →
       has_role_ids assignments →
       has_flags pre →
       (∀ j, j < length (filter
                           (λ r, assignedCustomRole assignments r = true) pre)
             → ∃ l, roleAssignments h (S (assignmentsCalls w) + j)
                    = (Some l, None)
                    ∧ has_ids l) →
       roleAssignments h
         (S (assignmentsCalls w)
          + length (filter (λ r, assignedCustomRole assignments r = true) pre))
       = (res, Some e) →
       assignedCustomRole assignments customRole = true →
       ∃ rows w',
         Part000.listAdCustomRoles h d w
         = Done (None, Some (getErrorObject h (getErrorObject h e))) w'
         ∧ streamed w' = streamed w ++ rows
         ∧ role <$> rows
           = Some <$> filter (λ r, assignedCustomRole assignments r = true)
                             pre
         ∧ log_error <$> last (logged w')
           = Some (Some (getErrorObject h (getErrorObject h e)))).
Proof.
  intros Hc. split; [|split; [|split; [|split; [|split]]]].
  - intros res Hd.
    exact (listAdCustomRoles_definitions_fail h d w e Hc res Hd).
  - intros result res Hd Ha.
    exact (listAdCustomRoles_assignments_fail h d w e Hc result res Hd Ha).
  - intros res Hid Hr.
    exact (getAdCustomRole_fetch_fail h d w e Hc res Hid Hr).
  - intros id res Ha. unfold reports.
    rewrite (Part000_getMembersFromId_fail h d w e id res Hc Ha).
    eexists; split; [reflexivity|]; split; [done|apply last_snoc_log].
  - intros customRole res Hid Hr Hc' Ha.
    by apply (Part000_getAdCustomRole_members_fail h d w e Hc customRole res).
  - intros pre customRole rest assignments res.
    apply Part000_listAdCustomRoles_members_fail.
Qed.

Lemma failed_graph_call_is_logged_and_returned_witness :
  let once := marked Tenant.throttled in
  let twice := marked (marked Tenant.throttled) in
  (reports once fresh
     (Azuread.listAdCustomRoles (marking Tenant.noDefinitions)
        Tenant.anyQuery fresh)
   ∧ reports once fresh
       (Part000.listAdCustomRoles (marking Tenant.noDefinitions)
          Tenant.anyQuery fresh))
  ∧ (reports once fresh
       (Azuread.listAdCustomRoles (marking Tenant.down) Tenant.anyQuery fresh)
     ∧ reports once fresh
         (Part000.listAdCustomRoles (marking Tenant.down) Tenant.anyQuery
            fresh))
  ∧ (reports once fresh
       (Azuread.getAdCustomRole (marking Tenant.noDefinitions)
          (Tenant.byId "r1") fresh)
     ∧ reports once fresh
         (Part000.getAdCustomRole (marking Tenant.noDefinitions)
            (Tenant.byId "r1") fresh))
  ∧ reports once fresh
      (Part000.getMembersFromId (marking Tenant.down) Tenant.anyQuery "t1"
         fresh)
  ∧ reports twice fresh
      (Part000.getAdCustomRole (marking Tenant.down) (Tenant.byId "r1") fresh)
  ∧ ∃ rows w',
      Part000.listAdCustomRoles (marking Tenant.flakyLater) Tenant.anyQuery
        fresh
      = Done (None, Some twice) w'
      ∧ streamed w' = streamed fresh ++ rows
      ∧ role <$> rows
        = Some <$> filter
                     (λ r, assignedCustomRole Tenant.assignments r = true)
                     [Tenant.helpdesk; Tenant.globalReader]
      ∧ log_error <$> last (logged w') = Some (Some twice).
Proof.
  intros once twice. split; [|split; [|split; [|split; [|split]]]].
  - destruct (failed_graph_call_is_logged_and_returned
                (marking Tenant.noDefinitions) Tenant.anyQuery fresh
                Tenant.throttled eq_refl) as (H & _).
    apply (H None). reflexivity.
  - destruct (failed_graph_call_is_logged_and_returned
                (marking Tenant.down) Tenant.anyQuery fresh Tenant.throttled
                eq_refl) as (_ & H & _).
    apply (H (Some Tenant.definitions) None); reflexivity.
  - destruct (failed_graph_call_is_logged_and_returned
                (marking Tenant.noDefinitions) (Tenant.byId "r1") fresh
                Tenant.throttled eq_refl) as (_ & _ & H & _).
    apply (H None); [discriminate|reflexivity].
  - destruct (failed_graph_call_is_logged_and_returned
                (marking Tenant.down) Tenant.anyQuery fresh Tenant.throttled
                eq_refl) as (_ & _ & _ & H & _).
    apply (H "t1" None). reflexivity.
  - destruct (failed_graph_call_is_logged_and_returned
                (marking Tenant.down) (Tenant.byId "r1") fresh
                Tenant.throttled eq_refl) as (_ & _ & _ & _ & H & _).
    apply (H (Some Tenant.helpdesk) None);
      [discriminate|reflexivity|reflexivity|reflexivity].
  - destruct (failed_graph_call_is_logged_and_returned
                (marking Tenant.flakyLater) Tenant.anyQuery fresh
                Tenant.throttled eq_refl) as (_ & _ & _ & _ & _ & H).
    apply (H [Tenant.helpdesk; Tenant.globalReader] Tenant.auditor []
             Tenant.assignments None).
    + intros n. reflexivity.
    + intros k n. discriminate.
    + reflexivity.
    + reflexivity.
    + repeat constructor; eexists; reflexivity.
    + repeat constructor; eexists; reflexivity.
    + intros j Hj. exists Tenant.assignments.
      assert (j = 0) as -> by (vm_compute in Hj; lia).
      split; [reflexivity|]. repeat constructor; eexists; reflexivity.
    + reflexivity.
    + reflexivity.
Defined.

Example listAdCustomRoles_passes_error_on :
  ∃ w',
    Part000.listAdCustomRoles (marking Tenant.flakyLater) Tenant.anyQuery
      fresh
    = Done (None, Some {| Code := "TooManyRequests";
                          Message := "throttled++" |}) w'
    ∧ log_error <$> logged w'
      = [ Some {| Code := "TooManyRequests"; Message := "throttled+" |};
          Some {| Code := "TooManyRequests"; Message := "throttled++" |} ].
Proof. eexists. split; [vm_compute; reflexivity|reflexivity]. Qed.
